(** * PayGuard-DQ: check execution and scoring engine

    A shallow embedding of the data-quality scoring pipeline of
    [backend/app]: the check catalog ([checks/*.py]), the profiler, the
    dimension selector, the check executor, the scoring, explainer,
    remediation and test export agents, the fingerprints
    ([utils/hashing.py]) and the ingestion routes ([routes/ingest.py]),
    followed by the properties of the specification that concern them and
    by further properties of the code.

    Conventions of the embedding.
    - A Python [float] is an exact rational ([Q]); NaN and infinities are
      outside the model, and so is binary rounding error.  [round(x, n)] is
      rounding to the nearest multiple of [10^-n], ties to even; where the
      exact value is such a tie the binary float need not be one, and
      Python's result can be the other neighbour.  What is stated of a
      rounded value is therefore what holds of both neighbours: that it is
      a multiple of [10^-n] within half a unit of the exact value, and
      bounds that rounding keeps.
    - A Python exception is a value [Raise e] of the [result] monad.
    - A Python [dict] that is only looked up is a [gmap]; a [dict] whose
      insertion order is observable (it is iterated or serialised) is an
      association list with unique keys kept in insertion order.
    - Strings are byte strings; [str.lower] and [str.upper] act on ASCII
      letters.
    - What the Python runtime and pandas decide outside this repository
      (parsing a number or a date out of text, the clock, number
      formatting, what [astype(str)] makes of a missing value, which
      changed with pandas 3.0, and which digits outside ASCII a regular
      expression accepts) is a parameter, the class [Runtime]; so are
      the
      rendering of values as text ([Rendering]), YAML and JSON output
      ([Serializer]), SHA-256 and [to_json] ([Hashing]), and the
      orchestrator and the storage behind the routes ([Services]). *)

From Stdlib Require Import Ascii String QArith Qround Qabs Lqa Lia Permutation.
From stdpp Require Import base option list strings gmap pretty sorting.

#[local] Set Warnings "-register-all".

(** ** Python values and exceptions *)

Inductive exn :=
| ZeroDivisionError
| KeyError
| IndexError
| TypeError
| ValueError.

Inductive result (A : Type) :=
| Ok (a : A)
| Raise (e : exn).

Arguments Ok {A} a.
Arguments Raise {A} e.

#[global] Instance result_ret : MRet result := @Ok.

#[global] Instance result_bind : MBind result :=
  λ A B f m, match m with Ok a => f a | Raise e => Raise e end.

#[global] Instance result_fmap : FMap result :=
  λ A B f m, match m with Ok a => Ok (f a) | Raise e => Raise e end.

(** A left fold whose step may raise: the body of a [for] loop. *)
Fixpoint foldlM {A B : Type} (f : B → A → result B) (acc : B) (l : list A)
  : result B :=
  match l with
  | [] => Ok acc
  | x :: l' => acc' ← f acc x; foldlM f acc' l'
  end.

(** JSON-like values: what a metrics dictionary may hold. *)
Inductive value :=
| VNone
| VBool (b : bool)
| VInt (z : Z)
| VFloat (q : Q)
| VStr (s : string)
| VList (l : list value)
| VDict (d : list (string * value)).

(** What the interpreter and pandas contribute. *)
Class Runtime := {
  (** [float(s)] on text: [None] when Python raises [ValueError]. *)
  parse_float : string → option Q;
  (** [pd.to_numeric(., errors='coerce')] on one cell's text. *)
  to_numeric : string → option Q;
  (** [pd.to_datetime(., errors='coerce')] on one cell's text, in seconds;
      [None] is [NaT]. *)
  to_datetime : string → option Q;
  (** [pd.Timestamp.now()], in seconds. *)
  timestamp_now : Q;
  (** [f"{x:.1f}"]. *)
  format_1f : Q → string;
  (** [s.astype(int)] on one cell's text: [None] when pandas raises
      [ValueError]. *)
  astype_int : string → option Z;
  (** What [s.astype(str)] makes of a missing value: the text [nan] before
      pandas 3.0; from 3.0 on the value stays missing ([None]). *)
  astype_str_na : option string;
  (** Whether a text with a character outside ASCII matches [^\d{4}$]:
      Python's [\d] accepts every Unicode decimal digit. *)
  unicode_4_digits : string → bool
}.

(** ** Ordered dictionaries *)

Section pydict.
Context {V : Type}.

(** [d.get(k)] *)
Fixpoint dict_get (k : string) (d : list (string * V)) : option V :=
  match d with
  | [] => None
  | (k', v) :: d' => if String.eqb k k' then Some v else dict_get k d'
  end.

(** [k in d] *)
Definition dict_has (k : string) (d : list (string * V)) : bool :=
  match dict_get k d with Some _ => true | None => false end.

(** [d[k] = v]: an existing key keeps its position, a new one goes last. *)
Fixpoint dict_set (k : string) (v : V) (d : list (string * V))
  : list (string * V) :=
  match d with
  | [] => [(k, v)]
  | (k', v') :: d' =>
      if String.eqb k k' then (k', v) :: d' else (k', v') :: dict_set k v d'
  end.

(** [d.keys()] *)
Definition dict_keys (d : list (string * V)) : list string := map fst d.
End pydict.

(** ** Strings *)

Definition ascii_lower (c : ascii) : ascii :=
  let n := nat_of_ascii c in
  if (65 <=? n)%nat && (n <=? 90)%nat then ascii_of_nat (n + 32) else c.

Definition ascii_upper (c : ascii) : ascii :=
  let n := nat_of_ascii c in
  if (97 <=? n)%nat && (n <=? 122)%nat then ascii_of_nat (n - 32) else c.

Fixpoint str_map (f : ascii → ascii) (s : string) : string :=
  match s with
  | EmptyString => EmptyString
  | String c s' => String (f c) (str_map f s')
  end.

(** [s.lower()] and [s.upper()] *)
Definition str_lower : string → string := str_map ascii_lower.
Definition str_upper : string → string := str_map ascii_upper.

(** [sub in s] *)
Fixpoint str_in (sub s : string) : bool :=
  String.prefix sub s ||
  match s with
  | EmptyString => false
  | String _ s' => str_in sub s'
  end.

(** [any(k in s for k in keywords)] *)
Definition any_in (keywords : list string) (s : string) : bool :=
  existsb (λ k, str_in k s) keywords.

(** [sep.join(l)] *)
Fixpoint str_join (sep : string) (l : list string) : string :=
  match l with
  | [] => EmptyString
  | [s] => s
  | s :: l' => s +:+ sep +:+ str_join sep l'
  end.

(** ** Numbers *)

Definition round_half_even (x : Q) : Z :=
  let f := Qfloor x in
  match (x - inject_Z f ?= 1 # 2)%Q with
  | Lt => f
  | Gt => (f + 1)%Z
  | Eq => if Z.even f then f else (f + 1)%Z
  end.

(** [round(x, ndigits)] *)
Definition py_round (x : Q) (ndigits : nat) : Q :=
  let s := inject_Z (10 ^ Z.of_nat ndigits) in
  (inject_Z (round_half_even (x * s)) / s)%Q.

(** [x < y] on floats. *)
Definition Qltb (x y : Q) : bool := negb (Qle_bool y x).

(** [max(0, x)]: the first argument unless the second is greater. *)
Definition py_max0 (x : Q) : Q := if Qltb 0 x then x else 0%Q.

(** [min(a, b)]: the first argument unless the second is smaller. *)
Definition py_min (a b : Q) : Q := if Qltb b a then b else a.

(** [float(v)] *)
Definition py_float `{Runtime} (v : value) : result Q :=
  match v with
  | VBool b => Ok (if b then 1%Q else 0%Q)
  | VInt z => Ok (inject_Z z)
  | VFloat q => Ok q
  | VStr s => match parse_float s with Some q => Ok q | None => Raise ValueError end
  | VNone | VList _ | VDict _ => Raise TypeError
  end.

(** [sum(l)] over floats. *)
Definition Qsum (l : list Q) : Q := fold_left Qplus l 0%Q.

(** ** Check results and profiles *)

(** A check result as the agents read it: a dictionary whose entries are
    fetched with [.get] and a default, so every entry may be absent.  An
    absent ["metrics"] entry reads as the empty dictionary everywhere. *)
Record CheckResult := {
  check_id : option string;
  dimension : option string;
  passed : option bool;
  severity : option string;
  metrics : list (string * value)
}.

(** [profile["columns"][name]], as the profiler writes it. *)
Record ColumnProfile := {
  dtype : string;
  null_count : Z;
  null_rate : Q;
  unique_count : Z;
  cardinality_ratio : Q;
  is_id_like : bool;
  is_timestamp : bool;
  is_enum_like : bool;
  is_numeric : bool;
  is_text : bool
}.

(** [profile["inferred_types"]] *)
Record InferredTypes := {
  id_columns : list string;
  timestamp_columns : list string;
  enum_columns : list string;
  numeric_columns : list string;
  text_columns : list string
}.

Record Profile := {
  row_count : nat;
  column_count : nat;
  columns : list (string * ColumnProfile);
  inferred_types : InferredTypes
}.

(** [a == b] between hashable values: numbers (booleans included) compare
    by value, text by content; anything else only equals itself when it is
    [None]. *)
Definition value_num (v : value) : option Q :=
  match v with
  | VBool b => Some (if b then 1%Q else 0%Q)
  | VInt z => Some (inject_Z z)
  | VFloat q => Some q
  | _ => None
  end.

Definition value_eqb (a b : value) : bool :=
  match value_num a, value_num b with
  | Some x, Some y => Qeq_bool x y
  | _, _ =>
      match a, b with
      | VNone, VNone => true
      | VStr s, VStr t => String.eqb s t
      | _, _ => false
      end
  end.

(** [hash(v)] succeeds. *)
Definition hashable (v : value) : bool :=
  match v with
  | VList _ | VDict _ => false
  | _ => true
  end.

(** [s.add(v)] on a set kept as a duplicate-free list (Python leaves the
    iteration order of a set unspecified; first insertion is used here). *)
Definition set_add (v : value) (s : list value) : result (list value) :=
  if hashable v
  then Ok (if existsb (value_eqb v) s then s else s ++ [v])
  else Raise TypeError.

(** [for x in v]: the elements a value yields, or [TypeError]. *)
Definition py_iter (v : value) : result (list value) :=
  match v with
  | VList l => Ok l
  | VDict d => Ok (VStr <$> dict_keys d)
  | VStr s => Ok ((λ c, VStr (String c EmptyString)) <$> list_ascii_of_string s)
  | VNone | VBool _ | VInt _ | VFloat _ => Raise TypeError
  end.

(** The first of [fields] that is a key of [m], with its value. *)
Fixpoint first_present (fields : list string) (m : list (string * value))
  : option value :=
  match fields with
  | [] => None
  | f :: fields' =>
      match dict_get f m with
      | Some v => Some v
      | None => first_present fields' m
      end
  end.

(** [{f: m[f] for f in fields if f in m}], in the order of [fields]. *)
Definition pick_fields (fields : list string) (m : list (string * value))
  : list (string * value) :=
  omap (λ f, (λ v, (f, v)) <$> dict_get f m) fields.

(** ** agents/scoring_agent.py *)

Record FailingCheck := {
  fc_check_id : option string;
  fc_severity : string;
  fc_error_rate : Q
}.

Inductive Explainability :=
| NoChecks (message : string)
| Explained
    (weighted_error_rate : Q)
    (formula : string)
    (total_checks : nat)
    (failing_checks : list FailingCheck)
    (metrics_summary : list (string * list (string * value)))
    (impacted_columns : list value)
    (severity_distribution : list (string * Z)).

Record DimensionScore := {
  score : Q;
  weight : Q;
  explainability : Explainability
}.

(** The scoring result; [duration_ms] (wall-clock time) is not carried. *)
Record ScoringResult := {
  dimension_scores : list (string * DimensionScore);
  composite_dqs : Q;
  dimension_weights : list (string * Q)
}.

Module ScoringAgent.
Section agent.
Context `{Runtime}.

(** Payments criticality model, in the order the class writes it. *)
Definition FIELD_CRITICALITY : list (string * Z) :=
  [ ("amount", 3); ("currency", 3); ("txn_id", 3); ("transaction_id", 3);
    ("status", 3);
    ("merchant_id", 2); ("mcc", 2); ("country", 2); ("merchant", 2);
    ("customer_id", 3); ("kyc", 3); ("compliance", 3) ]%Z.

Definition severity_weights : gmap string Q :=
  {[ "critical" := 4%Q; "high" := 3%Q; "medium" := 2%Q; "low" := 1%Q ]}.

Definition base_weights : gmap string Q :=
  {[ "completeness" := 2%Q; "uniqueness" := 3%Q; "validity" := (5 # 2)%Q;
     "consistency" := (5 # 2)%Q; "timeliness" := 2%Q;
     "integrity" := (5 # 2)%Q; "reconciliation" := 3%Q ]}.

Definition rate_fields : list string :=
  [ "overall_null_rate"; "overall_duplicate_rate"; "overall_invalid_rate";
    "inconsistent_rate"; "violation_rate"; "excessive_delay_rate" ].

Definition match_fields : list string :=
  [ "match_rate"; "overall_reconciliation_rate" ].

Definition _extract_error_rate (c : CheckResult) : result Q :=
  match first_present rate_fields (metrics c) with
  | Some v => py_float v
  | None =>
      match first_present match_fields (metrics c) with
      | Some v => x ← py_float v; mret (1 - x)%Q
      | None =>
          if negb (default true (passed c)) then Ok (5 # 100)%Q else Ok 0%Q
      end
  end.

Definition _extract_key_metrics (c : CheckResult) : list (string * value) :=
  let key_metrics :=
    pick_fields
      [ "overall_null_rate"; "overall_duplicate_rate";
        "overall_invalid_rate"; "inconsistent_rate"; "violation_rate";
        "match_rate"; "overall_reconciliation_rate" ] (metrics c) in
  fold_left (λ km '(f, v), dict_set f v km)
    (pick_fields
       [ "missing_count"; "duplicate_count"; "invalid_count";
         "inconsistent_count"; "violation_count"; "unmatched_count" ]
       (metrics c))
    key_metrics.

Definition _get_severity_distribution (checks : list CheckResult)
  : list (string * Z) :=
  fold_left
    (λ distribution c,
       let sev := default "medium" (severity c) in
       match dict_get sev distribution with
       | Some n => dict_set sev (n + 1)%Z distribution
       | None => distribution
       end)
    checks
    [ ("critical", 0%Z); ("high", 0%Z); ("medium", 0%Z); ("low", 0%Z) ].

(** The criticality a column name contributes: every keyword of
    [FIELD_CRITICALITY] it contains adds its weight. *)
Definition column_criticality (col_name : string) : Z :=
  let col_lower := str_lower col_name in
  fold_left
    (λ n '(critical_field, criticality),
       if str_in critical_field col_lower then (n + criticality)%Z else n)
    FIELD_CRITICALITY 0%Z.

Definition critical_count (profile : Profile) : Z :=
  fold_left (λ n col_name, (n + column_criticality col_name)%Z)
    (dict_keys (columns profile)) 0%Z.

Definition _get_dimension_weight (dim : string) (profile : Profile) : Q :=
  let weight := default 2%Q (base_weights !! dim) in
  let weight :=
    if (10 <? critical_count profile)%Z then (weight * (12 # 10))%Q
    else weight in
  py_round weight 2.

(** The accumulators of the loop over a dimension's checks. *)
Record acc := {
  total_error_weight : Q;
  total_weight : Q;
  acc_failing_checks : list FailingCheck;
  acc_metrics_summary : list (string * list (string * value));
  acc_impacted_columns : list value
}.

(** [for col_info in metrics["failing_columns"]: ...] *)
Definition add_impacted (impacted : list value) (col_info : value)
  : result (list value) :=
  match col_info with
  | VDict d =>
      match dict_get "column" d with
      | Some col => set_add col impacted
      | None => Ok impacted
      end
  | _ => Ok impacted
  end.

Definition score_step (a : acc) (c : CheckResult) : result acc :=
  let sev := default "medium" (severity c) in
  let w := default 2%Q (severity_weights !! sev) in
  error_rate ← _extract_error_rate c;
  let failing :=
    if negb (default true (passed c))
    then acc_failing_checks a ++
           [ {| fc_check_id := check_id c; fc_severity := sev;
                fc_error_rate := error_rate |} ]
    else acc_failing_checks a in
  impacted ←
    match dict_get "failing_columns" (metrics c) with
    | Some cols =>
        infos ← py_iter cols; foldlM add_impacted (acc_impacted_columns a) infos
    | None => Ok (acc_impacted_columns a)
    end;
  mret
    {| total_error_weight := (total_error_weight a + error_rate * w)%Q;
       total_weight := (total_weight a + w)%Q;
       acc_failing_checks := failing;
       acc_metrics_summary :=
         dict_set (default "unknown" (check_id c)) (_extract_key_metrics c)
           (acc_metrics_summary a);
       acc_impacted_columns := impacted |}.

Definition _compute_dimension_score
    (dim : string) (checks : list CheckResult) (profile : Profile)
  : result DimensionScore :=
  match checks with
  | [] =>
      Ok {| score := 100%Q; weight := 1%Q;
            explainability :=
              NoChecks "No checks executed for this dimension" |}
  | _ =>
      a ← foldlM score_step
             {| total_error_weight := 0%Q; total_weight := 0%Q;
                acc_failing_checks := []; acc_metrics_summary := [];
                acc_impacted_columns := [] |}
             checks;
      let wer :=
        if Qltb 0 (total_weight a)
        then (total_error_weight a / total_weight a)%Q else 0%Q in
      let sc := py_max0 (100 * (1 - wer))%Q in
      let dim_weight := _get_dimension_weight dim profile in
      mret
        {| score := py_round sc 2;
           weight := dim_weight;
           explainability :=
             Explained (py_round wer 4)
               "score = max(0, 100 * (1 - weighted_error_rate))"
               (length checks)
               (acc_failing_checks a)
               (acc_metrics_summary a)
               (acc_impacted_columns a)
               (_get_severity_distribution checks) |}
  end.

Definition _compute_composite_score
    (dimension_scores : list (string * DimensionScore))
    (dimension_weights : list (string * Q)) : Q :=
  let '(total_weighted_score, total_weight) :=
    fold_left
      (λ '(tws, tw) '(dim, score_data),
         let w := default 1%Q (dict_get dim dimension_weights) in
         ((tws + score score_data * w)%Q, (tw + w)%Q))
      dimension_scores (0%Q, 0%Q) in
  let composite :=
    if Qltb 0 total_weight then (total_weighted_score / total_weight)%Q
    else 0%Q in
  py_round composite 2.

(** [checks_by_dimension], one check at a time. *)
Definition group_check (by_dim : gmap string (list CheckResult))
    (c : CheckResult) : gmap string (list CheckResult) :=
  let dim := default "unknown" (dimension c) in
  <[ dim := default [] (by_dim !! dim) ++ [c] ]> by_dim.

(** The body of the loop over the selected dimensions: the dimension's
  score is computed and stored, with its weight, under its name. *)
Definition score_dimension
  (checks_by_dimension : gmap string (list CheckResult)) (profile : Profile)
  (st : list (string * DimensionScore) * list (string * Q)) (dim : string)
: result (list (string * DimensionScore) * list (string * Q)) :=
score_result ←
  _compute_dimension_score dim
    (default [] (checks_by_dimension !! dim)) profile;
mret (dict_set dim score_result st.1,
      dict_set dim (weight score_result) st.2).

Definition compute_scores
  (check_results : list CheckResult) (profile : Profile)
  (selected_dimensions : list string) : result ScoringResult :=
let checks_by_dimension := fold_left group_check check_results ∅ in
st ← foldlM (score_dimension checks_by_dimension profile) ([], [])
       selected_dimensions;
mret {| dimension_scores := st.1;
        composite_dqs := _compute_composite_score st.1 st.2;
        dimension_weights := st.2 |}.
End agent.
End ScoringAgent.

(** ** More of Python: truthiness, indexing, equality, sorting *)

(** [bool(v)] *)
Definition py_truthy (v : value) : bool :=
  match v with
  | VNone => false
  | VBool b => b
  | VInt z => negb (z =? 0)%Z
  | VFloat q => negb (Qeq_bool q 0)
  | VStr s => negb (String.eqb s EmptyString)
  | VList l => match l with [] => false | _ => true end
  | VDict d => match d with [] => false | _ => true end
  end.

(** [v[0]] *)
Definition py_index0 (v : value) : result value :=
  match v with
  | VList (x :: _) => Ok x
  | VList [] => Raise IndexError
  | VStr (String c _) => Ok (VStr (String c EmptyString))
  | VStr EmptyString => Raise IndexError
  | VDict _ => Raise KeyError
  | VNone | VBool _ | VInt _ | VFloat _ => Raise TypeError
  end.

(** [v["column"]] *)
Definition py_item (key : string) (v : value) : result value :=
  match v with
  | VDict d =>
      match dict_get key d with Some x => Ok x | None => Raise KeyError end
  | _ => Raise TypeError
  end.

(** [a == b], in depth. *)
Fixpoint py_eq (a b : value) {struct a} : bool :=
  match a, b with
  | VList l1, VList l2 =>
      (fix all2 (l1 l2 : list value) : bool :=
         match l1, l2 with
         | [], [] => true
         | x :: l1', y :: l2' => py_eq x y && all2 l1' l2'
         | _, _ => false
         end) l1 l2
  | VDict d1, VDict d2 =>
      (length d1 =? length d2)%nat &&
      (fix all1 (d : list (string * value)) : bool :=
         match d with
         | [] => true
         | (k, v) :: d' =>
             match dict_get k d2 with
             | Some v' => py_eq v v'
             | None => false
             end && all1 d'
         end) d1
  | VList _, _ | VDict _, _ | _, VList _ | _, VDict _ => false
  | _, _ => value_eqb a b
  end.

(** [sep.join(v)]: every element of [v] has to be text. *)
Definition py_join (sep : string) (v : value) : result string :=
  elems ← py_iter v;
  parts ← mapM (λ e, match e with VStr s => Ok s | _ => Raise TypeError end)
             elems;
  mret (str_join sep parts).

(** [l.sort(key=key, reverse=True)]: the sort is stable, so an element goes
    in front of the first one whose key is not greater than its own. *)
Section sort.
Context {A : Type} (key : A → Q).

Fixpoint insert_desc (x : A) (l : list A) : list A :=
  match l with
  | [] => [x]
  | y :: l' =>
      if Qltb (key x) (key y) then y :: insert_desc x l' else x :: y :: l'
  end.

Definition sort_desc (l : list A) : list A := foldr insert_desc [] l.
End sort.

(** ** agents/remediation_agent.py *)

Record Issue := {
  issue_check_id : string;
  issue_dimension : string;
  issue_severity : string;
  priority_score : Q;
  what : string;
  where_ : value;
  impact_category : string;
  frequency : Q;
  root_cause : string;
  fix_steps : list string;
  expected_score_gain : Q
}.

Record Phase := {
  count : nat;
  issues : list string;
  expected_total_gain : Q;
  timeline : string
}.

Record Plan := {
  P0_immediate : Phase;
  P1_next_sprint : Phase;
  P2_backlog : Phase
}.

Record Ticket := {
  title : string;
  description : string;
  priority : string;
  labels : list string;
  estimated_effort : string
}.

(** The remediation result; [duration_ms] is not carried. *)
Record RemediationResult := {
  top_issues : list Issue;
  remediation_plan : Plan;
  ticket_payloads : list Ticket
}.

Definition nl : string := String (ascii_of_nat 10) EmptyString.

Module RemediationAgent.
Section agent.
Context `{Runtime}.

Definition severity_scores : gmap string Z :=
  {[ "critical" := 10%Z; "high" := 7%Z; "medium" := 4%Z; "low" := 2%Z ]}.

Definition impact_categories : gmap string string :=
  {[ "completeness" := "Operational"; "uniqueness" := "Financial";
     "validity" := "Operational"; "consistency" := "Financial";
     "timeliness" := "Operational"; "integrity" := "Regulatory";
     "reconciliation" := "Financial" ]}.

Definition severity_multiplier : gmap string Q :=
  {[ "critical" := 1%Q; "high" := (7 # 10)%Q; "medium" := (4 # 10)%Q;
     "low" := (2 # 10)%Q ]}.

Definition descriptions : gmap string string :=
  list_to_map
    [
      ("completeness_null_rates", "High percentage of missing values across dataset");
      ("completeness_required_fields", "Critical required fields are missing or incomplete");
      ("uniqueness_duplicates", "Duplicate transaction records detected");
      ("validity_currency", "Invalid or non-standard currency codes");
      ("validity_country", "Invalid or non-standard country codes");
      ("validity_mcc", "Invalid MCC codes (not 4-digit or not in reference)");
      ("validity_amount", "Invalid transaction amounts (negative or extreme outliers)");
      ("consistency_status_settlement", "Settled transactions missing settlement dates");
      ("consistency_currency_decimals", "Currency decimal places don't match rules");
      ("consistency_time_ordering", "Event timestamps after settlement timestamps");
      ("timeliness_event_lag", "Events processed beyond SLA timeframe");
      ("timeliness_processing_delay", "Excessive delay between event and settlement");
      ("reconciliation_bin", "Card BINs not found in reference mapping");
      ("reconciliation_settlement", "Transactions don't match settlement ledger") ].

Definition root_causes : gmap string string :=
  list_to_map
    [
      ("completeness_null_rates", "Upstream system not populating all fields");
      ("completeness_required_fields", "Data extraction incomplete or schema mismatch");
      ("uniqueness_duplicates", "Missing deduplication logic or duplicate ingestion");
      ("validity_currency", "Transformation error or non-standard source data");
      ("validity_country", "Mapping error or invalid source values");
      ("validity_mcc", "Merchant data quality issue or outdated reference");
      ("validity_amount", "Data type conversion error or upstream calculation bug");
      ("consistency_status_settlement", "Business logic gap in settlement process");
      ("consistency_currency_decimals", "Currency conversion logic error");
      ("consistency_time_ordering", "Clock skew or incorrect timestamp assignment");
      ("timeliness_event_lag", "Batch processing delay or infrastructure bottleneck");
      ("timeliness_processing_delay", "Settlement system performance issue");
      ("reconciliation_bin", "BIN reference data incomplete or outdated");
      ("reconciliation_settlement", "Settlement ledger sync issue or data drift") ].

Definition fix_steps_table : gmap string (list string) :=
  list_to_map
    [
      ("completeness_null_rates",
         [ "Investigate upstream data source for missing fields";
         "Add validation at ingestion to reject incomplete records";
         "Implement default values or imputation where appropriate" ]);
      ("completeness_required_fields",
         [ "Update extraction query to include all required fields";
         "Add schema validation before processing";
         "Coordinate with upstream team to ensure field population" ]);
      ("uniqueness_duplicates",
         [ "Implement deduplication logic based on transaction ID";
         "Add unique constraint to prevent duplicate ingestion";
         "Investigate source of duplicate data" ]);
      ("validity_currency",
         [ "Add currency code validation against ISO 4217";
         "Standardize currency codes in transformation layer";
         "Update source system to use standard codes" ]);
      ("validity_country",
         [ "Add country code validation against ISO 3166";
         "Implement mapping table for non-standard codes";
         "Cleanse existing data with correct codes" ]);
      ("validity_mcc",
         [ "Validate MCC codes against reference list";
         "Update merchant data with correct MCC codes";
         "Refresh MCC reference data" ]);
      ("validity_amount",
         [ "Add range validation for transaction amounts";
         "Investigate negative amounts and correct source";
         "Implement outlier detection and alerting" ]);
      ("consistency_status_settlement",
         [ "Add business rule: SETTLED status requires settlement_date";
         "Backfill missing settlement dates where possible";
         "Update settlement process to populate dates" ]);
      ("consistency_currency_decimals",
         [ "Implement currency-specific decimal validation";
         "Correct JPY and other zero-decimal currencies";
         "Add validation rule to transformation pipeline" ]);
      ("consistency_time_ordering",
         [ "Investigate timestamp assignment logic";
         "Add validation: event_time <= settlement_time";
         "Fix clock synchronization issues if present" ]);
      ("timeliness_event_lag",
         [ "Optimize batch processing schedule";
         "Add real-time processing for time-sensitive events";
         "Investigate and resolve infrastructure bottlenecks" ]);
      ("timeliness_processing_delay",
         [ "Analyze settlement system performance";
         "Optimize settlement processing logic";
         "Add monitoring and alerting for delays" ]);
      ("reconciliation_bin",
         [ "Update BIN reference data with missing entries";
         "Implement regular BIN data refresh process";
         "Add fallback logic for unknown BINs" ]);
      ("reconciliation_settlement",
         [ "Investigate settlement ledger sync process";
         "Implement reconciliation workflow to identify mismatches";
         "Add automated alerts for reconciliation failures" ]) ].

(** [check["check_id"]] *)
Definition require_check_id (c : CheckResult) : result string :=
  match check_id c with Some i => Ok i | None => Raise KeyError end.

Definition _extract_frequency (c : CheckResult) : result Q :=
  match first_present
          [ "overall_null_rate"; "overall_duplicate_rate";
            "overall_invalid_rate"; "inconsistent_rate"; "violation_rate";
            "excessive_delay_rate" ] (metrics c) with
  | Some v => py_float v
  | None =>
      match first_present [ "match_rate"; "overall_reconciliation_rate" ]
              (metrics c) with
      | Some v => x ← py_float v; mret (1 - x)%Q
      | None => Ok (5 # 100)%Q
      end
  end.

Definition _estimate_score_gain (c : CheckResult)
    (scoring_result : ScoringResult) : result Q :=
  let dim := default "unknown" (dimension c) in
  let dim_score_data := dict_get dim (dimension_scores scoring_result) in
  let current_score := default 100%Q (score <$> dim_score_data) in
  freq ← _extract_frequency c;
  let sev := default "medium" (severity c) in
  let multiplier := default (4 # 10)%Q (severity_multiplier !! sev) in
  let potential_gain := (freq * 100 * multiplier)%Q in
  let headroom := (100 - current_score)%Q in
  mret (py_min potential_gain headroom).

Definition _describe_issue (c : CheckResult) : result string :=
  i ← require_check_id c;
  mret (default ("Issue in " +:+ i) (descriptions !! i)).

Definition _get_affected_columns (c : CheckResult) : result value :=
  let failing_columns :=
    default (VList []) (dict_get "failing_columns" (metrics c)) in
  if py_truthy failing_columns then
    first ← py_index0 failing_columns;
    match first with
    | VDict _ =>
        fcs ← py_iter failing_columns;
        cols ← mapM (py_item "column") fcs;
        mret (VList cols)
    | _ => Ok failing_columns
    end
  else
    let cols :=
      omap (λ key, dict_get key (metrics c))
        [ "currency_column"; "amount_column"; "status_column";
          "txn_id_column"; "settlement_column"; "event_column" ] in
    Ok (VList (match cols with [] => [VStr "multiple"] | _ => cols end)).

Definition _infer_root_cause (c : CheckResult) : result string :=
  i ← require_check_id c;
  mret (default "Unknown - requires investigation" (root_causes !! i)).

Definition _generate_fix_steps (c : CheckResult) : result (list string) :=
  i ← require_check_id c;
  mret (default [ "Investigate root cause"; "Implement validation logic";
                  "Monitor for recurrence" ] (fix_steps_table !! i)).

(** The issue one failing check gives rise to. *)
Definition make_issue (scoring_result : ScoringResult) (c : CheckResult)
  : result Issue :=
  let sev := default "medium" (severity c) in
  let severity_score := default 4%Z (severity_scores !! sev) in
  freq ← _extract_frequency c;
  let dim := default "unknown" (dimension c) in
  let dim_score_data := dict_get dim (dimension_scores scoring_result) in
  let criticality := default 1%Q (weight <$> dim_score_data) in
  let prio := (inject_Z severity_score * freq * criticality)%Q in
  expected_gain ← _estimate_score_gain c scoring_result;
  i ← require_check_id c;
  w ← _describe_issue c;
  cols ← _get_affected_columns c;
  cause ← _infer_root_cause c;
  steps ← _generate_fix_steps c;
  mret {| issue_check_id := i;
          issue_dimension := dim;
          issue_severity := sev;
          priority_score := py_round prio 2;
          what := w;
          where_ := cols;
          impact_category := default "Operational" (impact_categories !! dim);
          frequency := py_round freq 4;
          root_cause := cause;
          fix_steps := steps;
          expected_score_gain := py_round expected_gain 2 |}.

(** The loop of [_rank_issues]: one issue per failing check, in the order
    of the check results. *)
Definition collect_issues (check_results : list CheckResult)
    (scoring_result : ScoringResult) : result (list Issue) :=
  foldlM
    (λ issues c,
       if negb (default true (passed c))
       then issue ← make_issue scoring_result c; mret (issues ++ [issue])
       else Ok issues)
    [] check_results.

Definition _rank_issues (check_results : list CheckResult)
    (scoring_result : ScoringResult) : result (list Issue) :=
  issues ← collect_issues check_results scoring_result;
  mret (sort_desc priority_score issues).

(** [a == b] between two issue dictionaries. *)
Definition issue_eqb (a b : Issue) : bool :=
  String.eqb (issue_check_id a) (issue_check_id b) &&
  String.eqb (issue_dimension a) (issue_dimension b) &&
  String.eqb (issue_severity a) (issue_severity b) &&
  Qeq_bool (priority_score a) (priority_score b) &&
  String.eqb (what a) (what b) &&
  py_eq (where_ a) (where_ b) &&
  String.eqb (impact_category a) (impact_category b) &&
  Qeq_bool (frequency a) (frequency b) &&
  String.eqb (root_cause a) (root_cause b) &&
  forallb id (zip_with String.eqb (fix_steps a) (fix_steps b)) &&
  (length (fix_steps a) =? length (fix_steps b))%nat &&
  Qeq_bool (expected_score_gain a) (expected_score_gain b).

(** [issue in l] *)
Definition issue_in (i : Issue) (l : list Issue) : bool :=
  existsb (issue_eqb i) l.

Definition make_phase (l : list Issue) (tl : string) : Phase :=
  {| count := length l;
     issues := issue_check_id <$> l;
     expected_total_gain := Qsum (expected_score_gain <$> l);
     timeline := tl |}.

Definition _generate_plan (ranked_issues : list Issue) : Plan :=
  let p0_issues :=
    List.filter
      (λ i, (String.eqb (issue_severity i) "critical" ||
             String.eqb (issue_severity i) "high") &&
            Qltb 50 (priority_score i))
      ranked_issues in
  let p1_issues :=
    List.filter
      (λ i, negb (issue_in i p0_issues) &&
            (String.eqb (issue_severity i) "high" ||
             (String.eqb (issue_severity i) "medium" &&
              Qltb 20 (priority_score i))))
      ranked_issues in
  let p2_issues :=
    List.filter
      (λ i, negb (issue_in i p0_issues) && negb (issue_in i p1_issues))
      ranked_issues in
  {| P0_immediate := make_phase p0_issues "Immediate (1-2 days)";
     P1_next_sprint := make_phase p1_issues "Next sprint (1-2 weeks)";
     P2_backlog := make_phase p2_issues "Backlog (as capacity allows)" |}.

Definition _estimate_effort (i : Issue) : string :=
  if String.eqb (issue_severity i) "critical" then "High (3-5 days)"
  else if String.eqb (issue_severity i) "high" then "Medium (1-3 days)"
  else if String.eqb (issue_severity i) "medium" then "Low (0.5-1 day)"
  else "Minimal (< 0.5 day)".

(** [[f"{i+1}. {step}" for i, step in enumerate(steps)]] *)
Definition numbered (steps : list string) : list string :=
  imap (λ i step, pretty (S i) +:+ ". " +:+ step) steps.

Definition make_ticket (i : Issue) : result Ticket :=
  affected ← py_join ", " (where_ i);
  mret
    {| title := "[DQ] " +:+ what i;
       description :=
         "**Issue**: " +:+ what i +:+ nl +:+
         nl +:+
         "**Dimension**: " +:+ issue_dimension i +:+ nl +:+
         "**Severity**: " +:+ issue_severity i +:+ nl +:+
         "**Impact Category**: " +:+ impact_category i +:+ nl +:+
         "**Affected Columns**: " +:+ affected +:+ nl +:+
         nl +:+
         "**Root Cause**: " +:+ root_cause i +:+ nl +:+
         nl +:+
         "**Fix Steps**:" +:+ nl +:+
         str_join nl (numbered (fix_steps i)) +:+ nl +:+
         nl +:+
         "**Expected Score Gain**: +" +:+
           format_1f (expected_score_gain i) +:+ " points" +:+ nl +:+
         "**Priority Score**: " +:+ format_1f (priority_score i) +:+ nl;
       priority := str_upper (issue_severity i);
       labels :=
         [ "data-quality"; issue_dimension i;
           str_lower (impact_category i) ];
       estimated_effort := _estimate_effort i |}.

Definition _generate_tickets (top : list Issue) : result (list Ticket) :=
  mapM make_ticket top.

(** [issue_summaries] is accepted and not read. *)
Definition generate_remediation (check_results : list CheckResult)
    (scoring_result : ScoringResult) (issue_summaries : list value)
  : result RemediationResult :=
  ranked_issues ← _rank_issues check_results scoring_result;
  let plan := _generate_plan ranked_issues in
  tickets ← _generate_tickets (take 5 ranked_issues);
  mret {| top_issues := take 10 ranked_issues;
          remediation_plan := plan;
          ticket_payloads := tickets |}.
End agent.
End RemediationAgent.

(** ** agents/dimension_selector_agent.py *)

(** The selector's result; [duration_ms] is not carried. *)
Record SelectedDimensions := {
  selected_dimensions : list string;
  rationale : list (string * list string)
}.

Module DimensionSelectorAgent.

(** [any(word in col.lower() for col in profile["columns"].keys())] *)
Definition any_column (word : string) (profile : Profile) : bool :=
  existsb (λ col, str_in word (str_lower col)) (dict_keys (columns profile)).

(** [has_references.get(name)], read as a condition. *)
Definition has_ref (has_references : gmap string bool) (name : string)
  : bool :=
  default false (has_references !! name).

(** [if cond: reasons.append(reason)] *)
Definition reason_if (cond : bool) (reason : string) : list string :=
  if cond then [reason] else [].

Definition nonempty {A : Type} (l : list A) : bool :=
  match l with [] => false | _ => true end.

(** One block of [select_dimensions]: when [cond] holds the dimension is
    appended to [selected] and its reasons are stored under its name. *)
Definition select_if (cond : bool) (dim : string) (reasons : list string)
    (sd : SelectedDimensions) : SelectedDimensions :=
  if cond
  then {| selected_dimensions := selected_dimensions sd ++ [dim];
          rationale := dict_set dim reasons (rationale sd) |}
  else sd.

Definition select_dimensions (profile : Profile)
    (has_references : gmap string bool) : SelectedDimensions :=
  let types := inferred_types profile in
  let sd := {| selected_dimensions := []; rationale := [] |} in
  (* Completeness: always applicable *)
  let sd :=
    select_if true "completeness"
      [ "All datasets should be checked for missing values";
        "Dataset has " +:+ pretty (column_count profile) +:+
          " columns to validate" ] sd in
  (* Uniqueness: if ID-like columns detected *)
  let sd :=
    select_if (nonempty (id_columns types)) "uniqueness"
      [ "Detected " +:+ pretty (length (id_columns types)) +:+
          " ID-like columns";
        "Key columns: " +:+ str_join ", " (take 3 (id_columns types)) ]
      sd in
  (* Validity: if enum/currency/country columns detected *)
  let has_validity_targets :=
    nonempty (enum_columns types) ||
    any_column "currency" profile ||
    any_column "country" profile ||
    any_column "mcc" profile ||
    any_column "amount" profile in
  let sd :=
    select_if has_validity_targets "validity"
      ([ "Detected columns requiring format/range validation:" ] ++
       reason_if (any_column "currency" profile)
         "- Currency codes (ISO 4217)" ++
       reason_if (any_column "country" profile)
         "- Country codes (ISO 3166)" ++
       reason_if (any_column "mcc" profile) "- MCC codes (4-digit)" ++
       reason_if (any_column "amount" profile)
         "- Amount values (non-negative, outlier detection)")
      sd in
  (* Consistency: if multiple related fields detected *)
  let has_consistency_targets :=
    any_column "status" profile ||
    (1 <? length (timestamp_columns types))%nat in
  let sd :=
    select_if has_consistency_targets "consistency"
      ([ "Detected related fields requiring cross-validation:" ] ++
       reason_if (any_column "status" profile)
         "- Status fields with dependent data (e.g., settlement_date)" ++
       reason_if (1 <? length (timestamp_columns types))%nat
         "- Multiple timestamps requiring ordering validation" ++
       reason_if (any_column "currency" profile)
         "- Currency decimal consistency")
      sd in
  (* Timeliness: if timestamp columns detected *)
  let sd :=
    select_if (nonempty (timestamp_columns types)) "timeliness"
      [ "Detected " +:+ pretty (length (timestamp_columns types)) +:+
          " timestamp columns";
        "Timestamp columns: " +:+
          str_join ", " (take 3 (timestamp_columns types));
        "Will check event lag and processing delays" ]
      sd in
  (* Integrity: if reference datasets provided *)
  let sd :=
    select_if
      (has_ref has_references "merchants" ||
       has_ref has_references "customers") "integrity"
      ([ "Reference data available for integrity checks:" ] ++
       reason_if (has_ref has_references "merchants")
         "- Merchant master data" ++
       reason_if (has_ref has_references "customers")
         "- Customer master data")
      sd in
  (* Reconciliation: if settlement ledger or BIN map provided *)
  select_if
    (has_ref has_references "settlement_ledger" ||
     has_ref has_references "bin_map") "reconciliation"
    ([ "PAYMENTS DIFFERENTIATOR: Reference truth data available for reconciliation:" ] ++
     reason_if (has_ref has_references "settlement_ledger")
       "- Settlement ledger for transaction matching" ++
     reason_if (has_ref has_references "bin_map")
       "- BIN reference for card validation")
    sd.
End DimensionSelectorAgent.

(** ** Data frames

    A cell is the text pandas renders it as ([astype(str)]), or is missing
    ([None], pandas' NaN).  How a text reads as a number or a date, and
    what [astype(str)] makes of a missing cell, is left to [Runtime].
    Column dtypes are not modelled: what pandas decides by dtype (whether
    two key columns can be merged, whether two keys of different dtypes
    are equal, whether parsed timestamps carry a time zone) is outside the
    model, which compares cells as texts and lets no such operation raise.
    A frame keeps its number of rows apart from its columns, so a frame
    without columns may still have rows. *)

Definition cell := option string.

Record DataFrame := {
  df_len : nat;
  df_data : list (string * list cell)
}.

(** [df.columns] *)
Definition df_columns (df : DataFrame) : list string := dict_keys (df_data df).

(** [col in df.columns] *)
Definition has_column (col : string) (df : DataFrame) : bool :=
  dict_has col (df_data df).

(** [df[col]], for a name that is one of [df.columns]. *)
Definition df_col (df : DataFrame) (col : string) : list cell :=
  default [] (dict_get col (df_data df)).

(** Every column has [len(df)] cells and no name occurs twice. *)
Definition df_wf (df : DataFrame) : Prop :=
  Forall (λ c, length c.2 = df_len df) (df_data df) ∧ NoDup (df_columns df).

(** [[col for col in df.columns if p(col.lower())]] *)
Definition columns_where (p : string → bool) (df : DataFrame) : list string :=
  List.filter (λ col, p (str_lower col)) (df_columns df).

Definition Qnat (n : nat) : Q := inject_Z (Z.of_nat n).

(** [n / d if d > 0 else 0] *)
Definition rate (n d : nat) : Q :=
  if (0 <? d)%nat then (Qnat n / Qnat d)%Q else 0%Q.

(** [mask.sum()] for the mask [p] over [l]. *)
Definition count_if {A : Type} (p : A → bool) (l : list A) : nat :=
  length (List.filter p l).

(** [s.isna()] on one cell. *)
Definition isna {A : Type} (c : option A) : bool :=
  match c with None => true | Some _ => false end.

(** [s.astype(str)] on one cell: the text of a cell that is present; for a
    missing cell, what the pandas at hand makes of it. *)
Definition astype_str `{Runtime} (c : cell) : cell :=
  match c with
  | Some s => Some s
  | None => astype_str_na
  end.

(** [s.unique()]: the distinct values, in order of first appearance. *)
Fixpoint unique_from {A : Type} `{EqDecision A} (seen l : list A) : list A :=
  match l with
  | [] => []
  | x :: l' =>
      if bool_decide (x ∈ seen) then unique_from seen l'
      else x :: unique_from (x :: seen) l'
  end.

Definition unique {A : Type} `{EqDecision A} (l : list A) : list A :=
  unique_from [] l.

(** [s.nunique()]: the number of distinct values that are not missing. *)
Definition nunique (s : list cell) : nat := length (unique (omap id s)).

(** [s.duplicated()]: a cell is a duplicate when an earlier cell holds the
    same value; two missing values count as the same. *)
Fixpoint duplicated_from (seen s : list cell) : list bool :=
  match s with
  | [] => []
  | c :: s' => bool_decide (c ∈ seen) :: duplicated_from (c :: seen) s'
  end.

Definition duplicated (s : list cell) : list bool := duplicated_from [] s.

(** [s.isin(values)] on one cell: a text is in the set when the set holds
    it, a missing value when the set holds a missing value. *)
Definition isin (values : gset cell) (c : cell) : bool :=
  bool_decide (c ∈ values).

(** A set of texts, as [isin] takes it. *)
Definition texts (l : list string) : gset cell := list_to_set (Some <$> l).

(** [s.astype(str)] on a column. *)
Definition astype_str_series `{Runtime} (s : list cell) : list cell :=
  astype_str <$> s.

(** [s.astype(str).str.upper()] on a column; a cell that is still missing
    stays so. *)
Definition upper_series `{Runtime} (s : list cell) : list cell :=
  (λ c, str_upper <$> astype_str c) <$> s.

(** [set(s.astype(str))] *)
Definition str_set `{Runtime} (s : list cell) : gset cell :=
  list_to_set (astype_str <$> s).

(** [pd.to_numeric(s, errors='coerce')] on one cell. *)
Definition cell_numeric `{Runtime} (c : cell) : option Q := c ≫= to_numeric.

(** [pd.to_datetime(s, errors='coerce')] on one cell. *)
Definition cell_datetime `{Runtime} (c : cell) : option Q := c ≫= to_datetime.

(** Ascending sort of the values of a numeric series. *)
Fixpoint insert_asc (x : Q) (l : list Q) : list Q :=
  match l with
  | [] => [x]
  | y :: l' => if Qltb y x then y :: insert_asc x l' else x :: y :: l'
  end.

Definition sort_asc (l : list Q) : list Q := foldr insert_asc [] l.

(** [s.quantile(q)]: linear interpolation between the two nearest order
    statistics of the values that are present; NaN ([None]) when there is
    none. *)
Definition quantile (s : list (option Q)) (q : Q) : option Q :=
  let v := sort_asc (omap id s) in
  match v with
  | [] => None
  | x0 :: _ =>
      let pos := (q * Qnat (length v - 1))%Q in
      let lo := Z.to_nat (Qfloor pos) in
      let frac := (pos - inject_Z (Qfloor pos))%Q in
      let a := nth lo v x0 in
      let b := nth (S lo) v a in
      Some (a + (b - a) * frac)%Q
  end.

(** [s.min()], [s.max()], [s.mean()], [s.median()] over the values present. *)
Definition series_min (s : list (option Q)) : option Q :=
  head (sort_asc (omap id s)).

Definition series_max (s : list (option Q)) : option Q :=
  last (sort_asc (omap id s)).

Definition series_mean (s : list (option Q)) : option Q :=
  match omap id s with
  | [] => None
  | v => Some (Qsum v / Qnat (length v))%Q
  end.

Definition series_median (s : list (option Q)) : option Q := quantile s (1 # 2).

(** [float(x) if ... else None] in a metrics dictionary. *)
Definition VOptFloat (x : option Q) : value :=
  match x with Some q => VFloat q | None => VNone end.

Definition VNat (n : nat) : value := VInt (Z.of_nat n).

(** A check result as a check function returns it: every entry present
    except ["dimension"], which the executor adds. *)
Definition mk_check (id : string) (ok : bool) (sev : string)
    (m : list (string * value)) : CheckResult :=
  {| check_id := Some id; dimension := None; passed := Some ok;
     severity := Some sev; metrics := m |}.

(** [a / b] between two Python integers. *)
Definition py_div (a b : nat) : result Q :=
  if (b =? 0)%nat then Raise ZeroDivisionError else Ok (Qnat a / Qnat b)%Q.

(** The result every check returns when it does not apply. *)
Definition not_applicable (id message : string) : CheckResult :=
  mk_check id true "low" [ ("message", VStr message) ].

(** ** checks/completeness.py *)

Module completeness.

(** With rows and no column numpy divides zero by zero and yields NaN,
    so that the code fails the check ([NaN < 0.05] is false); the rational
    model yields the rate 0 there and passes it.  A frame read from a file
    has a column. *)
Definition check_null_rates (df : DataFrame) (profile : Profile)
  : CheckResult :=
  let null_rate_of col := rate (count_if isna (df_col df col)) (df_len df) in
  let null_rates :=
    fold_left
      (λ d col,
         dict_set col
           (VDict [ ("null_count", VNat (count_if isna (df_col df col)));
                    ("null_rate", VFloat (null_rate_of col)) ]) d)
      (df_columns df) [] in
  let failing_columns :=
    (λ col, VDict [ ("column", VStr col);
                    ("null_rate", VFloat (null_rate_of col)) ]) <$>
    List.filter (λ col, Qltb (5 # 100) (null_rate_of col)) (df_columns df) in
  let total_missing :=
    sum_list ((λ col, count_if isna (df_col df col)) <$> df_columns df) in
  let overall_null_rate :=
    if (0 <? df_len df)%nat
    then (Qnat total_missing /
          Qnat (df_len df * length (df_columns df)))%Q
    else 0%Q in
  mk_check "completeness_null_rates"
    (Qltb overall_null_rate (5 # 100))
    (if Qltb (10 # 100) overall_null_rate then "high"
     else if Qltb (5 # 100) overall_null_rate then "medium" else "low")
    [ ("overall_null_rate", VFloat overall_null_rate);
      ("null_rates_by_column", VDict null_rates);
      ("failing_columns", VList failing_columns);
      ("total_missing_values", VNat total_missing) ].

Definition check_required_fields (df : DataFrame)
    (required_fields : option (list string)) : CheckResult :=
  let required_fields :=
    match required_fields with
    | Some fields => fields
    | None =>
        columns_where
          (any_in [ "txn_id"; "transaction_id"; "event_id"; "id";
                    "amount"; "currency"; "status" ]) df
    end in
  let missing_fields :=
    List.filter (λ field, negb (has_column field df)) required_fields in
  let null_rate_of field :=
    rate (count_if isna (df_col df field)) (df_len df) in
  let field_completeness :=
    fold_left
      (λ d field,
         dict_set field
           (if has_column field df
            then VDict [ ("null_count",
                           VNat (count_if isna (df_col df field)));
                         ("null_rate", VFloat (null_rate_of field));
                         ("present", VBool true) ]
            else VDict [ ("present", VBool false) ]) d)
      required_fields [] in
  let failing_fields :=
    (λ field, VDict [ ("field", VStr field);
                      ("null_rate", VFloat (null_rate_of field)) ]) <$>
    List.filter
      (λ field, has_column field df && Qltb 0 (null_rate_of field))
      required_fields in
  let ok :=
    (length missing_fields =? 0)%nat && (length failing_fields =? 0)%nat in
  mk_check "completeness_required_fields" ok
    (if (0 <? length missing_fields)%nat || (0 <? length failing_fields)%nat
     then "critical" else "low")
    [ ("required_fields", VList (VStr <$> required_fields));
      ("missing_fields", VList (VStr <$> missing_fields));
      ("field_completeness", VDict field_completeness);
      ("failing_fields", VList failing_fields) ].

Definition run_completeness_checks (df : DataFrame) (profile : Profile)
  : list CheckResult :=
  [ check_null_rates df profile; check_required_fields df None ].
End completeness.

(** ** checks/uniqueness.py *)

Module uniqueness.

Definition infer_key_columns (df : DataFrame) (profile : Profile)
  : result (list string) :=
  let key_columns :=
    List.filter
      (λ col,
         any_in [ "id"; "key"; "uuid"; "guid"; "reference"; "ref" ]
           (str_lower col) &&
         Qltb (95 # 100) (rate (nunique (df_col df col)) (df_len df)))
      (df_columns df) in
  (* Fallback: if no keys found, use first column if it's high cardinality *)
  match key_columns, df_columns df with
  | [], first_col :: _ =>
      ratio ← py_div (nunique (df_col df first_col)) (df_len df);
      mret (if Qltb (95 # 100) ratio then [first_col] else [])
  | _, _ => Ok key_columns
  end.

Definition check_duplicates (df : DataFrame) (key_columns : list string)
  : CheckResult :=
  match key_columns with
  | [] =>
      mk_check "uniqueness_duplicates" true "low"
        [ ("message", VStr "No key columns identified");
          ("key_columns", VList []) ]
  | _ =>
      let cols := List.filter (λ col, has_column col df) key_columns in
      let dup_count col := count_if id (duplicated (df_col df col)) in
      let dup_rate col := rate (dup_count col) (df_len df) in
      let duplicate_info :=
        fold_left
          (λ d col,
             dict_set col
               (VDict [ ("duplicate_count", VNat (dup_count col));
                        ("duplicate_rate", VFloat (dup_rate col));
                        ("unique_count", VNat (nunique (df_col df col)));
                        ("total_count", VNat (df_len df)) ]) d)
          cols [] in
      let total_duplicates := sum_list (dup_count <$> cols) in
      let failing_columns :=
        (λ col, VDict [ ("column", VStr col);
                        ("duplicate_rate", VFloat (dup_rate col));
                        ("duplicate_count", VNat (dup_count col)) ]) <$>
        List.filter (λ col, Qltb 0 (dup_rate col)) cols in
      let overall_dup_rate :=
        if (0 <? df_len df)%nat
        then (Qnat total_duplicates /
              Qnat (df_len df * length key_columns))%Q
        else 0%Q in
      mk_check "uniqueness_duplicates"
        (Qeq_bool overall_dup_rate 0)
        (if Qltb (1 # 100) overall_dup_rate then "critical"
         else if Qltb 0 overall_dup_rate then "high" else "low")
        [ ("key_columns", VList (VStr <$> key_columns));
          ("overall_duplicate_rate", VFloat overall_dup_rate);
          ("duplicate_info", VDict duplicate_info);
          ("failing_columns", VList failing_columns) ]
  end.

Definition run_uniqueness_checks (df : DataFrame) (profile : Profile)
  : result (list CheckResult) :=
  key_columns ← infer_key_columns df profile;
  mret [ check_duplicates df key_columns ].
End uniqueness.

(** ** checks/validity.py *)

Module validity.
Section checks.
Context `{Runtime}.

(** ISO 4217 currency codes (major ones) *)
Definition VALID_CURRENCIES : gset cell :=
  texts
    [ "USD"; "EUR"; "GBP"; "JPY"; "CNY"; "AUD"; "CAD"; "CHF"; "HKD"; "SGD";
      "SEK"; "KRW"; "NOK"; "NZD"; "INR"; "MXN"; "ZAR"; "BRL"; "RUB"; "TRY";
      "AED"; "SAR"; "THB"; "MYR"; "IDR"; "PHP"; "DKK"; "PLN"; "CZK"; "HUF" ].

(** ISO 3166 country codes (major ones) *)
Definition VALID_COUNTRIES : gset cell :=
  texts
    [ "US"; "GB"; "CA"; "AU"; "DE"; "FR"; "IT"; "ES"; "NL"; "BE"; "CH"; "AT";
      "SE"; "NO"; "DK"; "FI"; "IE"; "PT"; "GR"; "PL"; "CZ"; "HU"; "RO"; "BG";
      "JP"; "CN"; "KR"; "IN"; "SG"; "HK"; "TH"; "MY"; "ID"; "PH"; "VN"; "NZ";
      "MX"; "BR"; "AR"; "CL"; "CO"; "PE"; "ZA"; "AE"; "SA"; "TR"; "RU"; "IL" ].

Definition is_digit (c : ascii) : bool :=
  let n := nat_of_ascii c in (48 <=? n)%nat && (n <=? 57)%nat.

(** [re.match(r'^\d{4}$', s)]: four digits, then the end of the text or
    one final newline.  The digits are the ASCII digits, or whatever
    other decimal digits the runtime knows. *)
Definition match_4_digits (s : string) : bool :=
  match s with
  | String a (String b (String c (String d rest))) =>
      is_digit a && is_digit b && is_digit c && is_digit d &&
      (String.eqb rest EmptyString || String.eqb rest nl)
  | _ => false
  end || unicode_4_digits s.

(** [s.str.match(r'^\d{4}$')] on one cell; a missing cell stays
    missing and therefore reads false under [~]. *)
Definition str_match_4_digits (c : cell) : bool :=
  match c with
  | Some s => match_4_digits s
  | None => false
  end.

(** The three entries the currency, country and MCC checks keep per
    column. *)
Definition invalid_entry (df : DataFrame) (values : list cell)
    (invalid_mask : cell → bool) : value :=
  let invalid_count := count_if invalid_mask values in
  VDict
    [ ("invalid_count", VNat invalid_count);
      ("invalid_rate", VFloat (rate invalid_count (df_len df)));
      ("sample_invalid_values",
       VList (VStr <$> take 10 (unique (omap id (List.filter invalid_mask values))))) ].

(** [{"column": col, "invalid_rate": ...}] for the columns whose rate is
    positive. *)
Definition failing_entries (df : DataFrame) (cols : list string)
    (invalid_count : string → nat) : list value :=
  (λ col, VDict [ ("column", VStr col);
                  ("invalid_rate",
                   VFloat (rate (invalid_count col) (df_len df))) ]) <$>
  List.filter (λ col, Qltb 0 (rate (invalid_count col) (df_len df))) cols.

(** [total_invalid / (len(df) * len(cols)) if len(df) > 0 and cols else 0] *)
Definition overall_rate (df : DataFrame) (cols : list string)
    (total_invalid : nat) : Q :=
  if (0 <? df_len df)%nat && (0 <? length cols)%nat
  then (Qnat total_invalid / Qnat (df_len df * length cols))%Q
  else 0%Q.

(** The currency column as the check reads it: text, upper-cased. *)
Definition upper_values (df : DataFrame) (col : string) : list cell :=
  upper_series (df_col df col).

Definition currency_invalid_mask (v : cell) : bool :=
  negb (isin VALID_CURRENCIES v) && negb (isna v).

Definition check_currency_validity (df : DataFrame) : CheckResult :=
  let currency_cols := columns_where (str_in "currency") df in
  match currency_cols with
  | [] => not_applicable "validity_currency" "No currency columns found"
  | _ =>
      let cols := List.filter (λ col, has_column col df) currency_cols in
      let invalid_count col :=
        count_if currency_invalid_mask (upper_values df col) in
      let invalid_info :=
        fold_left
          (λ d col,
             dict_set col
               (invalid_entry df (upper_values df col) currency_invalid_mask)
               d) cols [] in
      let total_invalid := sum_list (invalid_count <$> cols) in
      let overall_invalid_rate := overall_rate df currency_cols total_invalid in
      mk_check "validity_currency"
        (Qeq_bool overall_invalid_rate 0)
        (if Qltb (1 # 100) overall_invalid_rate then "high"
         else if Qltb 0 overall_invalid_rate then "medium" else "low")
        [ ("currency_columns", VList (VStr <$> currency_cols));
          ("overall_invalid_rate", VFloat overall_invalid_rate);
          ("invalid_info", VDict invalid_info);
          ("failing_columns", VList (failing_entries df cols invalid_count)) ]
  end.

Definition country_invalid_mask (v : cell) : bool :=
  negb (isin VALID_COUNTRIES v) && negb (isna v).

Definition check_country_validity (df : DataFrame) : CheckResult :=
  let country_cols := columns_where (str_in "country") df in
  match country_cols with
  | [] => not_applicable "validity_country" "No country columns found"
  | _ =>
      let cols := List.filter (λ col, has_column col df) country_cols in
      let invalid_count col :=
        count_if country_invalid_mask (upper_values df col) in
      let invalid_info :=
        fold_left
          (λ d col,
             dict_set col
               (invalid_entry df (upper_values df col) country_invalid_mask)
               d) cols [] in
      let total_invalid := sum_list (invalid_count <$> cols) in
      let overall_invalid_rate := overall_rate df country_cols total_invalid in
      mk_check "validity_country"
        (Qeq_bool overall_invalid_rate 0)
        (if Qltb (1 # 100) overall_invalid_rate then "medium" else "low")
        [ ("country_columns", VList (VStr <$> country_cols));
          ("overall_invalid_rate", VFloat overall_invalid_rate);
          ("invalid_info", VDict invalid_info);
          ("failing_columns", VList (failing_entries df cols invalid_count)) ]
  end.

(** The MCC column as the check reads it: text, case kept. *)
Definition str_values (df : DataFrame) (col : string) : list cell :=
  astype_str_series (df_col df col).

(** The mask of invalid MCC cells: the format test, joined with the
    reference test when a reference with an [mcc] column is supplied. *)
Definition mcc_invalid_mask (mcc_reference : option DataFrame) (v : cell)
  : bool :=
  let format_invalid := negb (str_match_4_digits v) && negb (isna v) in
  match mcc_reference with
  | Some ref =>
      if has_column "mcc" ref then
        let valid_mccs := str_set (df_col ref "mcc") in
        let reference_invalid := negb (isin valid_mccs v) && negb (isna v) in
        format_invalid || reference_invalid
      else format_invalid
  | None => format_invalid
  end.

Definition check_mcc_validity (df : DataFrame)
    (mcc_reference : option DataFrame) : CheckResult :=
  let mcc_cols := columns_where (str_in "mcc") df in
  match mcc_cols with
  | [] => not_applicable "validity_mcc" "No MCC columns found"
  | _ =>
      let cols := List.filter (λ col, has_column col df) mcc_cols in
      let invalid_count col :=
        count_if (mcc_invalid_mask mcc_reference) (str_values df col) in
      let invalid_info :=
        fold_left
          (λ d col,
             dict_set col
               (invalid_entry df (str_values df col)
                  (mcc_invalid_mask mcc_reference))
               d) cols [] in
      let total_invalid := sum_list (invalid_count <$> cols) in
      let overall_invalid_rate := overall_rate df mcc_cols total_invalid in
      mk_check "validity_mcc"
        (Qeq_bool overall_invalid_rate 0)
        (if Qltb (1 # 100) overall_invalid_rate then "medium" else "low")
        [ ("mcc_columns", VList (VStr <$> mcc_cols));
          ("overall_invalid_rate", VFloat overall_invalid_rate);
          ("invalid_info", VDict invalid_info);
          ("failing_columns", VList (failing_entries df cols invalid_count));
          ("reference_used", VBool (negb (isna mcc_reference))) ]
  end.

(** [a < b] between two floats either of which may be NaN: false then. *)
Definition nan_lt (a b : option Q) : bool :=
  match a, b with
  | Some x, Some y => Qltb x y
  | _, _ => false
  end.

Definition check_amount_validity (df : DataFrame) : CheckResult :=
  let amount_cols := columns_where (str_in "amount") df in
  match amount_cols with
  | [] => not_applicable "validity_amount" "No amount columns found"
  | _ =>
      let cols := List.filter (λ col, has_column col df) amount_cols in
      let values col := cell_numeric <$> df_col df col in
      let negative_count col :=
        count_if (λ v, nan_lt v (Some 0%Q)) (values col) in
      let outlier_count col :=
        let q1 := quantile (values col) (25 # 100) in
        let q3 := quantile (values col) (75 # 100) in
        let iqr := q3 ≫= λ b, q1 ≫= λ a, Some (b - a)%Q in
        let upper := q3 ≫= λ b, iqr ≫= λ i, Some (b + 3 * i)%Q in
        let lower := q1 ≫= λ a, iqr ≫= λ i, Some (a - 3 * i)%Q in
        count_if (λ v, nan_lt upper v || nan_lt v lower) (values col) in
      let invalid_count col := (negative_count col + outlier_count col)%nat in
      let all_na col := forallb isna (values col) in
      let stat (f : list (option Q) → option Q) col :=
        if all_na col then VNone else VOptFloat (f (values col)) in
      let invalid_info :=
        fold_left
          (λ d col,
             dict_set col
               (VDict
                  [ ("invalid_count", VNat (invalid_count col));
                    ("invalid_rate",
                     VFloat (rate (invalid_count col) (df_len df)));
                    ("negative_count", VNat (negative_count col));
                    ("outlier_count", VNat (outlier_count col));
                    ("min", stat series_min col);
                    ("max", stat series_max col);
                    ("median", stat series_median col) ])
               d) cols [] in
      let total_invalid := sum_list (invalid_count <$> cols) in
      let overall_invalid_rate := overall_rate df amount_cols total_invalid in
      mk_check "validity_amount"
        (Qltb overall_invalid_rate (1 # 100))
        (if Qltb (5 # 100) overall_invalid_rate then "critical"
         else if Qltb (1 # 100) overall_invalid_rate then "high" else "low")
        [ ("amount_columns", VList (VStr <$> amount_cols));
          ("overall_invalid_rate", VFloat overall_invalid_rate);
          ("invalid_info", VDict invalid_info);
          ("failing_columns", VList (failing_entries df cols invalid_count)) ]
  end.

Definition run_validity_checks (df : DataFrame) (profile : Profile)
    (mcc_reference : option DataFrame) : list CheckResult :=
  [ check_currency_validity df;
    check_country_validity df;
    check_mcc_validity df mcc_reference;
    check_amount_validity df ].
End checks.
End validity.

(** ** checks/consistency.py *)

Module consistency.
Section checks.
Context `{Runtime}.

(** [a > b] between two timestamps either of which may be NaT. *)
Definition nat_gt (a b : option Q) : bool :=
  match a, b with
  | Some x, Some y => Qltb y x
  | _, _ => false
  end.

Definition check_status_settlement_consistency (df : DataFrame)
  : CheckResult :=
  let status_cols := columns_where (str_in "status") df in
  let settlement_cols :=
    columns_where (λ c, str_in "settlement" c && str_in "date" c) df in
  match status_cols, settlement_cols with
  | status_col :: _, settlement_col :: _ =>
      (* Find rows where status is SETTLED/COMPLETED but settlement_date is null *)
      let settled_mask :=
        isin (texts [ "SETTLED"; "COMPLETED"; "SUCCESS" ]) <$>
        upper_series (df_col df status_col) in
      let missing_settlement :=
        zip_with (λ settled c, settled && isna c)
          settled_mask (df_col df settlement_col) in
      let inconsistent_count := count_if id missing_settlement in
      let inconsistent_rate := rate inconsistent_count (df_len df) in
      mk_check "consistency_status_settlement"
        (inconsistent_count =? 0)%nat
        (if Qltb (1 # 100) inconsistent_rate then "high"
         else if Qltb 0 inconsistent_rate then "medium" else "low")
        [ ("status_column", VStr status_col);
          ("settlement_column", VStr settlement_col);
          ("inconsistent_count", VNat inconsistent_count);
          ("inconsistent_rate", VFloat inconsistent_rate);
          ("settled_count", VNat (count_if id settled_mask)) ]
  | _, _ =>
      not_applicable "consistency_status_settlement"
        "Required columns not found"
  end.

(** [s.astype(int)] on a column: one bad cell fails the conversion. *)
Definition astype_int_series (s : list cell) : result (list Z) :=
  mapM (λ c, match c ≫= astype_int with
             | Some z => Ok z
             | None => Raise ValueError
             end) s.

(** [amount % 1 != 0] on one cell of a numeric series; NaN differs from
    everything, zero included. *)
Definition has_decimals (a : option Q) : bool :=
  match a with
  | Some q => negb (Qeq_bool (q - inject_Z (Qfloor q)) 0)
  | None => true
  end.

Definition check_currency_decimal_consistency (df : DataFrame)
    (currency_rules : option DataFrame) : result CheckResult :=
  let currency_cols := columns_where (str_in "currency") df in
  let amount_cols := columns_where (str_in "amount") df in
  match currency_cols, amount_cols, currency_rules with
  | currency_col :: _, amount_col :: _, Some rules =>
      (* Build currency -> decimal_places mapping *)
      if has_column "currency" rules && has_column "decimal_places" rules
      then
        decimals ← astype_int_series (df_col rules "decimal_places");
        (* A rule whose currency is still missing matches no cell and
           reports nothing: it is left out of the mapping. *)
        let currency_decimals :=
          fold_left (λ d '(c, n), dict_set c n d)
            (omap (λ '(c, n), (λ currency, (currency, n)) <$> c)
               (zip (upper_series (df_col rules "currency")) decimals)) [] in
        let currency_mask currency :=
          (λ c, bool_decide (c = Some currency)) <$>
          upper_series (df_col df currency_col) in
        let inconsistent currency (expected_decimals : Z) : nat :=
          let amounts :=
            cell_numeric <$>
            (snd <$> List.filter fst
               (zip (currency_mask currency) (df_col df amount_col))) in
          if (expected_decimals =? 0)%Z
          then count_if has_decimals amounts
          else 0%nat in
        let inconsistencies :=
          omap
            (λ '(currency, expected_decimals),
               let total := count_if id (currency_mask currency) in
               let n := inconsistent currency expected_decimals in
               if (total =? 0)%nat then None
               else if (0 <? n)%nat then Some (currency, expected_decimals, n, total)
               else None)
            currency_decimals in
        let total_inconsistent :=
          sum_list ((λ '(_, _, n, _), n) <$> inconsistencies) in
        let inconsistent_rate := rate total_inconsistent (df_len df) in
        mret
          (mk_check "consistency_currency_decimals"
             (total_inconsistent =? 0)%nat
             (if Qltb (1 # 100) inconsistent_rate then "medium" else "low")
             [ ("currency_column", VStr currency_col);
               ("amount_column", VStr amount_col);
               ("inconsistencies",
                VList
                  ((λ '(currency, expected_decimals, n, total),
                      VDict [ ("currency", VStr currency);
                              ("expected_decimals", VInt expected_decimals);
                              ("inconsistent_count", VNat n);
                              ("total_count", VNat total) ]) <$>
                   inconsistencies));
               ("total_inconsistent", VNat total_inconsistent);
               ("inconsistent_rate", VFloat inconsistent_rate) ])
      else
        Ok (not_applicable "consistency_currency_decimals"
              "Currency rules format invalid")
  | _, _, _ =>
      Ok (not_applicable "consistency_currency_decimals"
            "Required columns or reference not found")
  end.

Definition check_time_ordering_consistency (df : DataFrame) : CheckResult :=
  let event_cols :=
    columns_where (λ c, str_in "event" c && str_in "time" c) df in
  let settlement_cols :=
    columns_where
      (λ c, str_in "settlement" c && (str_in "time" c || str_in "date" c))
      df in
  match event_cols, settlement_cols with
  | event_col :: _, settlement_col :: _ =>
      let times :=
        zip (cell_datetime <$> df_col df event_col)
            (cell_datetime <$> df_col df settlement_col) in
      let both_present '(e, s) := negb (isna e) && negb (isna s) in
      let misordered '(e, s) := both_present (e, s) && nat_gt e s in
      let misordered_count := count_if misordered times in
      let compared_count := count_if both_present times in
      let misordered_rate := rate misordered_count compared_count in
      mk_check "consistency_time_ordering"
        (misordered_count =? 0)%nat
        (if Qltb (1 # 100) misordered_rate then "high"
         else if Qltb 0 misordered_rate then "medium" else "low")
        [ ("event_column", VStr event_col);
          ("settlement_column", VStr settlement_col);
          ("misordered_count", VNat misordered_count);
          ("misordered_rate", VFloat misordered_rate);
          ("compared_count", VNat compared_count) ]
  | _, _ =>
      not_applicable "consistency_time_ordering"
        "Required time columns not found"
  end.

Definition run_consistency_checks (df : DataFrame) (profile : Profile)
    (currency_rules : option DataFrame) : result (list CheckResult) :=
  let status := check_status_settlement_consistency df in
  decimals ← check_currency_decimal_consistency df currency_rules;
  mret [ status; decimals; check_time_ordering_consistency df ].
End checks.
End consistency.

(** ** checks/timeliness.py

    Parsed timestamps are points in time without a zone.  On a column
    whose timestamps carry a time zone pandas raises [TypeError] when it
    subtracts them from the zone-less [pd.Timestamp.now()] or compares
    them with zone-less ones; such columns are outside the model. *)

Module timeliness.
Section checks.
Context `{Runtime}.

(** [(a - b).total_seconds() / 3600]; NaT gives NaN. *)
Definition hours_between (a b : option Q) : option Q :=
  a ≫= λ x, b ≫= λ y, Some ((x - y) / 3600)%Q.

(** [x > bound] on a value that may be NaN. *)
Definition exceeds (bound : Q) (x : option Q) : bool :=
  match x with Some v => Qltb bound v | None => false end.

Definition check_event_lag (df : DataFrame) (sla_hours : Z) : CheckResult :=
  let time_cols :=
    columns_where (any_in [ "event_time"; "created_at"; "timestamp" ]) df in
  match time_cols with
  | [] => not_applicable "timeliness_event_lag" "No timestamp columns found"
  | time_col :: _ =>
      let event_times := cell_datetime <$> df_col df time_col in
      (* Use current time as reference *)
      let current_time := Some timestamp_now in
      let lags := hours_between current_time <$> event_times in
      let violation_count := count_if (exceeds (inject_Z sla_hours)) lags in
      let violation_rate := rate violation_count (df_len df) in
      mk_check "timeliness_event_lag"
        (Qltb violation_rate (5 # 100))
        (if Qltb (10 # 100) violation_rate then "high"
         else if Qltb (5 # 100) violation_rate then "medium" else "low")
        [ ("time_column", VStr time_col);
          ("sla_hours", VInt sla_hours);
          ("violation_count", VNat violation_count);
          ("violation_rate", VFloat violation_rate);
          ("avg_lag_hours", VOptFloat (series_mean lags));
          ("max_lag_hours", VOptFloat (series_max lags));
          ("p95_lag_hours", VOptFloat (quantile lags (95 # 100))) ]
  end.

Definition check_processing_delay (df : DataFrame) : CheckResult :=
  let event_cols :=
    columns_where (λ c, str_in "event" c && str_in "time" c) df in
  let settlement_cols :=
    columns_where
      (λ c, str_in "settlement" c && (str_in "time" c || str_in "date" c))
      df in
  match event_cols, settlement_cols with
  | event_col :: _, settlement_col :: _ =>
      let times :=
        zip (cell_datetime <$> df_col df event_col)
            (cell_datetime <$> df_col df settlement_col) in
      let both_present '(e, s) := negb (isna e) && negb (isna s) in
      let delay '(e, s) := hours_between s e in
      let excessive t := exceeds 48 (delay t) && both_present t in
      let excessive_count := count_if excessive times in
      let excessive_rate :=
        rate excessive_count (count_if both_present times) in
      let valid_delays := delay <$> List.filter both_present times in
      mk_check "timeliness_processing_delay"
        (Qltb excessive_rate (5 # 100))
        (if Qltb (10 # 100) excessive_rate then "medium" else "low")
        [ ("event_column", VStr event_col);
          ("settlement_column", VStr settlement_col);
          ("excessive_delay_count", VNat excessive_count);
          ("excessive_delay_rate", VFloat excessive_rate);
          ("avg_delay_hours", VOptFloat (series_mean valid_delays));
          ("max_delay_hours", VOptFloat (series_max valid_delays));
          ("p95_delay_hours", VOptFloat (quantile valid_delays (95 # 100))) ]
  | _, _ =>
      not_applicable "timeliness_processing_delay"
        "Required time columns not found"
  end.

Definition run_timeliness_checks (df : DataFrame) (profile : Profile)
  : list CheckResult :=
  [ check_event_lag df 24; check_processing_delay df ].
End checks.
End timeliness.

(** ** checks/integrity.py *)

Module integrity.
Section checks.
Context `{Runtime}.

(** The id column of a reference table: its first column whose name
    contains [id], else its first column; [IndexError] without columns. *)
Definition ref_id_col (ref_df : DataFrame) : result string :=
  match columns_where (str_in "id") ref_df with
  | col :: _ => Ok col
  | [] =>
      match df_columns ref_df with
      | col :: _ => Ok col
      | [] => Raise IndexError
      end
  end.

(** One foreign-key check: the values of [col] against the id column of
    [ref_df]. *)
Definition reference_check (df : DataFrame) (id table col : string)
    (ref_df : DataFrame) : result CheckResult :=
  id_col ← ref_id_col ref_df;
  let valid_ids := str_set (df_col ref_df id_col) in
  let df_ids := astype_str_series (df_col df col) in
  let missing_count :=
    count_if (λ v, negb (isin valid_ids v) && negb (isna v)) df_ids in
  let missing_rate := rate missing_count (df_len df) in
  mret
    (mk_check id (missing_count =? 0)%nat
       (if Qltb (1 # 100) missing_rate then "high"
        else if Qltb 0 missing_rate then "medium" else "low")
       [ ("column", VStr col);
         ("reference_table", VStr table);
         ("missing_count", VNat missing_count);
         ("missing_rate", VFloat missing_rate);
         ("total_unique_values", VNat (nunique df_ids)) ]).

Definition check_referential_integrity (df : DataFrame)
    (reference_data : gmap string DataFrame) : result (list CheckResult) :=
  (* Check merchant_id if merchant reference exists *)
  merchant_results ←
    match reference_data !! "merchants" with
    | Some ref_df =>
        match columns_where (λ c, str_in "merchant" c && str_in "id" c) df with
        | merchant_col :: _ =>
            r ← reference_check df "integrity_merchant_reference"
                   "merchants" merchant_col ref_df;
            mret [r]
        | [] => Ok []
        end
    | None => Ok []
    end;
  (* Check customer_id if customer reference exists *)
  customer_results ←
    match reference_data !! "customers" with
    | Some ref_df =>
        match columns_where (λ c, str_in "customer" c && str_in "id" c) df with
        | customer_col :: _ =>
            r ← reference_check df "integrity_customer_reference"
                   "customers" customer_col ref_df;
            mret [r]
        | [] => Ok []
        end
    | None => Ok []
    end;
  let results := merchant_results ++ customer_results in
  (* If no reference data, return a pass *)
  mret
    (match results with
     | [] =>
         [ not_applicable "integrity_referential"
             "No reference data provided for integrity checks" ]
     | _ => results
     end).

Definition run_integrity_checks (df : DataFrame) (profile : Profile)
    (reference_data : option (gmap string DataFrame))
  : result (list CheckResult) :=
  check_referential_integrity df (default ∅ reference_data).
End checks.
End integrity.

(** ** checks/reconciliation.py *)

Module reconciliation.
Section checks.
Context `{Runtime}.

(** [s.str[:6]] on one cell of a text series. *)
Definition first6 (c : cell) : cell := String.substring 0 6 <$> c.

Definition check_bin_reconciliation (df : DataFrame)
    (bin_reference : option DataFrame) : CheckResult :=
  match bin_reference with
  | None =>
      not_applicable "reconciliation_bin" "No BIN reference data provided"
  | Some bin_ref =>
      (* Find card number or BIN column *)
      match columns_where (any_in [ "card"; "pan"; "bin" ]) df with
      | [] => not_applicable "reconciliation_bin" "No card/BIN columns found"
      | card_col :: _ =>
          (* Extract BIN (first 6 digits) *)
          let bins := first6 <$> astype_str_series (df_col df card_col) in
          if negb (has_column "bin" bin_ref)
          then not_applicable "reconciliation_bin" "BIN reference format invalid"
          else
            let valid_bins := str_set (df_col bin_ref "bin") in
            let unmatched v := negb (isin valid_bins v) && negb (isna v) in
            let matched_count := count_if (isin valid_bins) bins in
            let unmatched_count := count_if unmatched bins in
            let match_rate := rate matched_count (df_len df) in
            let unmatched_bins :=
              take 10 (unique (omap id (List.filter unmatched bins))) in
            mk_check "reconciliation_bin"
              (Qltb (95 # 100) match_rate)
              (if Qltb match_rate (90 # 100) then "high"
               else if Qltb match_rate (95 # 100) then "medium" else "low")
              [ ("card_column", VStr card_col);
                ("match_rate", VFloat match_rate);
                ("matched_count", VNat matched_count);
                ("unmatched_count", VNat unmatched_count);
                ("sample_unmatched_bins", VList (VStr <$> unmatched_bins));
                ("reference_bin_count", VNat (size valid_bins)) ]
      end
  end.

(** [left[[key, col]].merge(right[[rkey, col]], left_on=key,
    right_on=rkey, how='inner')]: the pairs of [col] cells of the rows
    whose keys agree; two missing keys agree.  Keys are compared as
    texts.  pandas compares them by dtype: it refuses to merge an integer
    key column with a text one ([ValueError]) and takes the integer 1 and
    the float 1.0 for equal keys.  Frames whose two key columns differ in
    dtype are therefore outside the model: on them the settlement check
    of the code raises, or pairs other rows, where the model returns. *)
Definition merge_inner (left : DataFrame) (key : string)
    (right : DataFrame) (rkey : string) (col : string)
  : list (cell * cell) :=
  '(k, a) ← zip (df_col left key) (df_col left col);
  '(k', b) ← zip (df_col right rkey) (df_col right col);
  if bool_decide (k = k') then [(a, b)] else [].

(** [abs(a - b) > 0.01] between two numeric cells; false on NaN. *)
Definition amount_differs (p : cell * cell) : bool :=
  match cell_numeric p.1, cell_numeric p.2 with
  | Some a, Some b => Qltb (1 # 100) (Qabs (a - b))
  | _, _ => false
  end.

(** [a.astype(str).str.upper() != b.astype(str).str.upper()] on one pair
    of cells; a value that is still missing differs from everything. *)
Definition currency_differs (p : cell * cell) : bool :=
  match str_upper <$> astype_str p.1, str_upper <$> astype_str p.2 with
  | Some a, Some b => negb (String.eqb a b)
  | _, _ => true
  end.

Definition check_settlement_reconciliation (df : DataFrame)
    (settlement_ledger : option DataFrame) : CheckResult :=
  let id_like := any_in [ "txn_id"; "transaction_id"; "id" ] in
  match settlement_ledger with
  | None =>
      not_applicable "reconciliation_settlement" "No settlement ledger provided"
  | Some ledger =>
      (* Find transaction ID column *)
      match columns_where id_like df with
      | [] =>
          not_applicable "reconciliation_settlement"
            "No transaction ID column found"
      | txn_id_col :: _ =>
          (* Find settlement ledger ID column *)
          match columns_where id_like ledger with
          | [] =>
              not_applicable "reconciliation_settlement"
                "Settlement ledger format invalid"
          | ledger_id_col :: _ =>
              (* Check txn_id match rate *)
              let ledger_ids := str_set (df_col ledger ledger_id_col) in
              let df_ids := astype_str_series (df_col df txn_id_col) in
              let matched_count := count_if (isin ledger_ids) df_ids in
              let match_rate := rate matched_count (df_len df) in
              let unmatched_count :=
                count_if (λ v, negb (isin ledger_ids v) && negb (isna v))
                  df_ids in
              (* Check amount/currency consistency for matched records *)
              let amount_mismatches :=
                if has_column "amount" df && has_column "amount" ledger
                then count_if amount_differs
                       (merge_inner df txn_id_col ledger ledger_id_col "amount")
                else 0%nat in
              let currency_mismatches :=
                if has_column "currency" df && has_column "currency" ledger
                then count_if currency_differs
                       (merge_inner df txn_id_col ledger ledger_id_col "currency")
                else 0%nat in
              let total_mismatches :=
                (unmatched_count + amount_mismatches + currency_mismatches)%nat in
              let overall_reconciliation_rate :=
                if (0 <? df_len df)%nat
                then (1 - Qnat total_mismatches / Qnat (df_len df))%Q
                else 0%Q in
              mk_check "reconciliation_settlement"
                (Qltb (98 # 100) overall_reconciliation_rate)
                (if Qltb overall_reconciliation_rate (95 # 100) then "critical"
                 else if Qltb overall_reconciliation_rate (98 # 100) then "high"
                 else "low")
                [ ("txn_id_column", VStr txn_id_col);
                  ("txn_id_match_rate", VFloat match_rate);
                  ("unmatched_txn_count", VNat unmatched_count);
                  ("amount_mismatches", VNat amount_mismatches);
                  ("currency_mismatches", VNat currency_mismatches);
                  ("overall_reconciliation_rate",
                   VFloat overall_reconciliation_rate);
                  ("ledger_record_count", VNat (df_len ledger)) ]
          end
      end
  end.

Definition run_reconciliation_checks (df : DataFrame) (profile : Profile)
    (bin_reference settlement_ledger : option DataFrame)
  : list CheckResult :=
  [ check_bin_reconciliation df bin_reference;
    check_settlement_reconciliation df settlement_ledger ].
End checks.
End reconciliation.

(** ** agents/check_executor_agent.py *)

(** The executor's result; [duration_ms] is not carried. *)
Record CheckResults := {
  check_results : list CheckResult;
  total_checks : nat
}.

Module CheckExecutorAgent.
Section agent.
Context `{Runtime}.

(** [result["dimension"] = dim] *)
Definition set_dimension (dim : string) (c : CheckResult) : CheckResult :=
  {| check_id := check_id c; dimension := Some dim; passed := passed c;
     severity := severity c; metrics := metrics c |}.

(** One block of [execute_checks]: when [dim] is selected its checks run,
    are labelled with the dimension and extend the results. *)
Definition run_if_selected (selected : list string) (dim : string)
    (run : result (list CheckResult)) (all_results : list CheckResult)
  : result (list CheckResult) :=
  if bool_decide (dim ∈ selected)
  then results ← run; mret (all_results ++ (set_dimension dim <$> results))
  else Ok all_results.

Definition execute_checks (df : DataFrame) (profile : Profile)
    (selected : list string)
    (reference_data : option (gmap string DataFrame)) : result CheckResults :=
  let refs : gmap string DataFrame := default ∅ reference_data in
  all_results ←
    run_if_selected selected "completeness"
      (Ok (completeness.run_completeness_checks df profile)) [];
  all_results ←
    run_if_selected selected "uniqueness"
      (uniqueness.run_uniqueness_checks df profile) all_results;
  all_results ←
    run_if_selected selected "validity"
      (Ok (validity.run_validity_checks df profile (refs !! "mcc_codes")))
      all_results;
  all_results ←
    run_if_selected selected "consistency"
      (consistency.run_consistency_checks df profile
         (refs !! "currency_rules")) all_results;
  all_results ←
    run_if_selected selected "timeliness"
      (Ok (timeliness.run_timeliness_checks df profile)) all_results;
  all_results ←
    run_if_selected selected "integrity"
      (integrity.run_integrity_checks df profile (Some refs)) all_results;
  all_results ←
    run_if_selected selected "reconciliation"
      (Ok (reconciliation.run_reconciliation_checks df profile
             (refs !! "bin_map") (refs !! "settlement_ledger")))
      all_results;
  mret {| check_results := all_results;
          total_checks := length all_results |}.
End agent.
End CheckExecutorAgent.

(** ** More of Python: ascending sort, slices, rendering *)

(** [l.sort(key=key)]: the sort is stable, so an element goes in front of
    the first one whose key is not smaller than its own. *)
Section sort_by.
Context {A : Type} (key : A → Q).

Fixpoint insert_asc_by (x : A) (l : list A) : list A :=
  match l with
  | [] => [x]
  | y :: l' =>
      if Qltb (key y) (key x) then y :: insert_asc_by x l' else x :: y :: l'
  end.

Definition sort_asc_by (l : list A) : list A := foldr insert_asc_by [] l.
End sort_by.

(** [v[:n]], for the values that reach a slice in this code: a list or a
    text. *)
Definition py_slice (n : nat) (v : value) : result value :=
  match v with
  | VList l => Ok (VList (take n l))
  | VStr s => Ok (VStr (String.substring 0 n s))
  | VDict _ => Raise KeyError
  | VNone | VBool _ | VInt _ | VFloat _ => Raise TypeError
  end.

(** How the interpreter renders values as text. *)
Class Rendering := {
  (** [f"{x:.1%}"] on a number. *)
  format_pct : Q → string;
  (** [str(v)], which is also what [f"{v}"] gives. *)
  py_str : value → string
}.

(** [f"{v:.1%}"]: numbers (booleans included) are rendered, text refuses
    the format code, anything else refuses to be formatted. *)
Definition py_format_pct `{Rendering} (v : value) : result string :=
  match v with
  | VBool _ | VInt _ | VFloat _ => Ok (format_pct (default 0%Q (value_num v)))
  | VStr _ => Raise ValueError
  | VNone | VList _ | VDict _ => Raise TypeError
  end.

(** [1 - v] *)
Definition py_one_minus (v : value) : result value :=
  match v with
  | VBool b => Ok (VInt (1 - (if b then 1 else 0)))
  | VInt z => Ok (VInt (1 - z))
  | VFloat q => Ok (VFloat (1 - q))
  | VNone | VStr _ | VList _ | VDict _ => Raise TypeError
  end.

(** ** agents/profiler_agent.py *)

(** What pandas answers about a column beyond its cells: the name of its
    dtype and the type tests of [pandas.api.types]. *)
Record SeriesTypes := {
  series_dtype : string;
  is_datetime64_any_dtype : bool;
  is_numeric_dtype : bool;
  is_string_dtype : bool;
  is_object_dtype : bool
}.

Module ProfilerAgent.

(** The entries [sample_values] and [stats] of a column profile, which no
    other agent reads, are not carried. *)
Definition _profile_column (df : DataFrame) (types : string → SeriesTypes)
    (col : string) : ColumnProfile :=
  let series := df_col df col in
  let nulls := count_if isna series in
  let ratio := rate (nunique series) (df_len df) in
  let col_lower := str_lower col in
  {| dtype := series_dtype (types col);
     null_count := Z.of_nat nulls;
     null_rate := rate nulls (df_len df);
     unique_count := Z.of_nat (nunique series);
     cardinality_ratio := ratio;
     (* ID-like column *)
     is_id_like :=
       any_in [ "id"; "key"; "uuid"; "guid"; "reference" ] col_lower &&
       Qltb (95 # 100) ratio;
     (* Timestamp column *)
     is_timestamp :=
       any_in [ "time"; "date"; "timestamp"; "created"; "updated" ] col_lower ||
       is_datetime64_any_dtype (types col);
     (* Enum-like column (low cardinality categorical) *)
     is_enum_like :=
       (Z.of_nat (nunique series) <? 50)%Z && Qltb ratio (1 # 10);
     is_numeric := is_numeric_dtype (types col);
     is_text := is_string_dtype (types col) || is_object_dtype (types col) |}.

(** [if cond: l.append(col)] *)
Definition append_if (cond : bool) (col : string) (l : list string)
  : list string :=
  if cond then l ++ [col] else l.

(** The body of the loop over [df.columns]. *)
Definition profile_column_step (df : DataFrame) (types : string → SeriesTypes)
    (p : Profile) (col : string) : Profile :=
  let col_profile := _profile_column df types col in
  let t := inferred_types p in
  {| row_count := row_count p;
     column_count := column_count p;
     columns := dict_set col col_profile (columns p);
     inferred_types :=
       {| id_columns := append_if (is_id_like col_profile) col (id_columns t);
          timestamp_columns :=
            append_if (is_timestamp col_profile) col (timestamp_columns t);
          enum_columns :=
            append_if (is_enum_like col_profile) col (enum_columns t);
          numeric_columns :=
            append_if (is_numeric col_profile) col (numeric_columns t);
          text_columns := append_if (is_text col_profile) col (text_columns t) |} |}.

(** [profile(df)["profile"]]; [duration_ms] is not carried. *)
Definition profile (df : DataFrame) (types : string → SeriesTypes) : Profile :=
  fold_left (profile_column_step df types) (df_columns df)
    {| row_count := df_len df;
       column_count := length (df_columns df);
       columns := [];
       inferred_types :=
         {| id_columns := []; timestamp_columns := []; enum_columns := [];
            numeric_columns := []; text_columns := [] |} |}.
End ProfilerAgent.

(** ** agents/explainer_agent.py *)

Record IssueSummary := {
  summary_check_id : string;
  summary_dimension : string;
  summary_severity : string;
  summary_what : string;
  summary_where : string;
  summary_root_cause : string
}.

(** A summary as the dictionary [_generate_issue_summaries] builds. *)
Definition summary_dict (s : IssueSummary) : value :=
  VDict [ ("check_id", VStr (summary_check_id s));
          ("dimension", VStr (summary_dimension s));
          ("severity", VStr (summary_severity s));
          ("what", VStr (summary_what s));
          ("where", VStr (summary_where s));
          ("root_cause", VStr (summary_root_cause s)) ].

(** The explainer's result; [duration_ms] is not carried. *)
Record ExplainerResult := {
  narrative : string;
  issue_summaries : list IssueSummary;
  mode : string
}.

(** The chat client: from the system and the user message to the content of
    the first choice, or [None] when anything on the way raises. *)
Definition ChatClient := string → string → option string.

Record ExplainerAgent := {
  use_llm : bool;
  client : option ChatClient
}.

Module ExplainerAgent.
Section agent.
Context `{Runtime} `{Rendering}.

(** [check["check_id"]], [check["dimension"]], [check["severity"]] *)
Definition require {A : Type} (field : option A) : result A :=
  match field with Some x => Ok x | None => Raise KeyError end.

(** [f"{metrics.get(field, 0):.1%}"] *)
Definition pct_of (field : string) (m : list (string * value))
  : result string :=
  py_format_pct (default (VInt 0) (dict_get field m)).

(** [f"{1 - metrics.get(field, 1):.1%}"] *)
Definition pct_of_complement (field : string) (m : list (string * value))
  : result string :=
  x ← py_one_minus (default (VInt 1) (dict_get field m)); py_format_pct x.

Definition _describe_what (c : CheckResult) : result string :=
  check_id ← require (check_id c);
  let m := metrics c in
  null_rate ← pct_of "overall_null_rate" m;
  duplicate_rate ← pct_of "overall_duplicate_rate" m;
  currency_rate ← pct_of "overall_invalid_rate" m;
  country_rate ← pct_of "overall_invalid_rate" m;
  mcc_rate ← pct_of "overall_invalid_rate" m;
  inconsistent_rate ← pct_of "inconsistent_rate" m;
  misordered_rate ← pct_of "misordered_rate" m;
  violation_rate ← pct_of "violation_rate" m;
  bin_rate ← pct_of_complement "match_rate" m;
  settlement_rate ← pct_of_complement "overall_reconciliation_rate" m;
  let templates : gmap string string :=
    list_to_map
      [ ("completeness_null_rates",
         "High null rate detected (" +:+ null_rate +:+ ")");
        ("completeness_required_fields",
         "Required fields missing or incomplete");
        ("uniqueness_duplicates",
         "Duplicate records found (" +:+ duplicate_rate +:+ ")");
        ("validity_currency",
         "Invalid currency codes (" +:+ currency_rate +:+ ")");
        ("validity_country",
         "Invalid country codes (" +:+ country_rate +:+ ")");
        ("validity_mcc", "Invalid MCC codes (" +:+ mcc_rate +:+ ")");
        ("validity_amount", "Invalid amounts (negative or outliers)");
        ("consistency_status_settlement",
         "Status-settlement inconsistencies (" +:+ inconsistent_rate +:+ ")");
        ("consistency_currency_decimals", "Currency decimal mismatches");
        ("consistency_time_ordering",
         "Time ordering violations (" +:+ misordered_rate +:+ ")");
        ("timeliness_event_lag",
         "SLA violations (" +:+ violation_rate +:+ ")");
        ("timeliness_processing_delay", "Excessive processing delays");
        ("reconciliation_bin",
         "BIN reconciliation failures (" +:+ bin_rate +:+ ")");
        ("reconciliation_settlement",
         "Settlement reconciliation failures (" +:+ settlement_rate +:+ ")") ] in
  mret (default ("Check " +:+ check_id +:+ " failed") (templates !! check_id)).

Definition _describe_where (c : CheckResult) : result string :=
  let m := metrics c in
  let failing_columns := default (VList []) (dict_get "failing_columns" m) in
  if py_truthy failing_columns then
    first ← py_index0 failing_columns;
    cols ←
      match first with
      | VDict _ =>
          shown ← py_slice 3 failing_columns;
          fcs ← py_iter shown;
          cols ← mapM (py_item "column") fcs;
          mret (VList cols)
      | _ => py_slice 3 failing_columns
      end;
    joined ← py_join ", " cols;
    mret ("Columns: " +:+ joined)
  else
    (* Check for specific column references *)
    match first_present [ "currency_column"; "amount_column"; "status_column";
                          "txn_id_column" ] m with
    | Some v => Ok ("Column: " +:+ py_str v)
    | None => Ok "Multiple columns affected"
    end.

Definition root_causes : gmap string string :=
  list_to_map
    [ ("completeness",
       "Upstream data source may be incomplete or extraction process is missing fields");
      ("uniqueness", "Duplicate data ingestion or missing deduplication logic");
      ("validity", "Data transformation errors or missing validation at source");
      ("consistency", "Cross-field validation missing or business logic errors");
      ("timeliness", "Processing delays or batch scheduling issues");
      ("integrity",
       "Reference data out of sync or missing foreign key validation");
      ("reconciliation",
       "Data drift between systems or settlement process errors") ].

Definition _infer_root_cause (c : CheckResult) : result string :=
  dimension ← require (dimension c);
  check_id ← require (check_id c);
  mret (default "Unknown root cause" (root_causes !! dimension)).

Definition severity_order : gmap string Z :=
  {[ "critical" := 0%Z; "high" := 1%Z; "medium" := 2%Z; "low" := 3%Z ]}.

(** The summary of one failing check. *)
Definition summarize (c : CheckResult) : result IssueSummary :=
  check_id ← require (check_id c);
  dimension ← require (dimension c);
  severity ← require (severity c);
  what ← _describe_what c;
  where_ ← _describe_where c;
  root_cause ← _infer_root_cause c;
  mret {| summary_check_id := check_id;
          summary_dimension := dimension;
          summary_severity := severity;
          summary_what := what;
          summary_where := where_;
          summary_root_cause := root_cause |}.

(** The key the summaries are sorted by. *)
Definition severity_rank (s : IssueSummary) : Q :=
  inject_Z (default 3%Z (severity_order !! summary_severity s)).

Definition _generate_issue_summaries (check_results : list CheckResult)
  : result (list IssueSummary) :=
  summaries ←
    foldlM
      (λ summaries c,
         if negb (default true (passed c))
         then summary ← summarize c; mret (summaries ++ [summary])
         else Ok summaries)
      [] check_results;
  (* Sort by severity *)
  mret (sort_asc_by severity_rank summaries).

(** [[c for c in check_results
      if c.get("severity") == level and not c.get("passed", True)]] *)
Definition failing_at (level : string) (check_results : list CheckResult)
  : list CheckResult :=
  List.filter
    (λ c, bool_decide (severity c = Some level) &&
          negb (default true (passed c)))
    check_results.

Definition _explain_with_stub (scoring_result : ScoringResult)
    (check_results : list CheckResult) (profile : Profile)
  : result (string * list IssueSummary) :=
  let composite_dqs := composite_dqs scoring_result in
  (* Overall assessment *)
  let '(quality_level, assessment) :=
    if Qle_bool 90 composite_dqs then
      ("excellent",
       "The dataset demonstrates excellent data quality with minimal issues.")
    else if Qle_bool 75 composite_dqs then
      ("good",
       "The dataset shows good data quality with some areas requiring attention.")
    else if Qle_bool 60 composite_dqs then
      ("fair",
       "The dataset has fair data quality with several issues that need remediation.")
    else
      ("poor",
       "The dataset exhibits poor data quality with critical issues requiring immediate attention.") in
  let overall :=
    "**Overall Assessment**: The dataset achieved a Data Quality Score (DQS) of " +:+
    py_str (VFloat composite_dqs) +:+ "/100, " +:+
    "indicating " +:+ quality_level +:+ " quality. " +:+ assessment in
  (* Dimension analysis *)
  let failing_dimensions :=
    List.filter (λ '(dim, data), Qltb (score data) 80)
      (dimension_scores scoring_result) in
  let key_issues :=
    match failing_dimensions with
    | [] =>
        nl +:+ nl +:+
        "**Key Issues**: All quality dimensions meet acceptable thresholds. " +:+
        "Continue monitoring for any degradation in future batches."
    | _ =>
        let sorted := sort_asc_by (λ '(dim, data), score data) failing_dimensions in
        let dim_list :=
          str_join ", "
            ((λ '(dim, data), dim +:+ " (" +:+ format_1f (score data) +:+ ")") <$>
             take 3 sorted) in
        nl +:+ nl +:+
        "**Key Issues**: The primary quality concerns are in " +:+ dim_list +:+ ". " +:+
        "These dimensions show elevated error rates that could impact downstream processing and analytics."
    end in
  (* Remediation priority *)
  let critical_checks := failing_at "critical" check_results in
  let high_checks := failing_at "high" check_results in
  priority_actions ←
    match critical_checks, high_checks with
    | first :: _, _ =>
        dimension ← require (dimension first);
        mret
          (nl +:+ nl +:+
           "**Priority Actions**: " +:+ pretty (length critical_checks) +:+
           " critical issues require immediate remediation. " +:+
           "Focus on " +:+ dimension +:+
           " dimension first, as it has the highest business impact. " +:+
           "Additionally, " +:+ pretty (length high_checks) +:+
           " high-severity issues should be addressed in the next sprint.")
    | [], _ :: _ =>
        Ok (nl +:+ nl +:+
            "**Priority Actions**: " +:+ pretty (length high_checks) +:+
            " high-severity issues should be addressed. " +:+
            "While not critical, these issues could lead to operational inefficiencies if left unresolved.")
    | [], [] =>
        Ok (nl +:+ nl +:+
            "**Priority Actions**: No critical or high-severity issues detected. " +:+
            "Focus on continuous improvement and monitoring of medium/low severity items.")
    end;
  let narrative := overall +:+ key_issues +:+ priority_actions in
  (* Generate issue summaries *)
  issue_summaries ← _generate_issue_summaries check_results;
  mret (narrative, issue_summaries).

Definition _format_dimension_scores (scores : list (string * Q)) : string :=
  str_join nl
    ((λ '(dim, score), "- " +:+ dim +:+ ": " +:+ format_1f score +:+ "/100") <$>
     scores).

(** The aggregated data the prompt is written from: the composite, the
    score of every dimension, the two counts of the profile and the failing
    checks. *)
Definition summary_data (scoring_result : ScoringResult)
    (check_results : list CheckResult) (profile : Profile)
  : result (Q * list (string * Q) * nat * nat *
            list (string * string * string * list (string * value))) :=
  failing_checks ←
    foldlM
      (λ failing c,
         if negb (default true (passed c))
         then
           check_id ← require (check_id c);
           dimension ← require (dimension c);
           severity ← require (severity c);
           mret (failing ++ [(check_id, dimension, severity, metrics c)])
         else Ok failing)
      [] check_results;
  mret (composite_dqs scoring_result,
        (λ '(dim, data), (dim, score data)) <$> dimension_scores scoring_result,
        row_count profile, column_count profile, failing_checks).

Definition prompt_of
    (data : Q * list (string * Q) * nat * nat *
            list (string * string * string * list (string * value)))
  : string :=
  let '(composite_dqs, dimension_scores, row_count, column_count,
        failing_checks) := data in
  "You are a data quality expert analyzing payment transaction data." +:+ nl +:+
  nl +:+
  "Dataset Summary:" +:+ nl +:+
  "- Rows: " +:+ pretty row_count +:+ nl +:+
  "- Columns: " +:+ pretty column_count +:+ nl +:+
  "- Overall DQS: " +:+ py_str (VFloat composite_dqs) +:+ "/100" +:+ nl +:+
  nl +:+
  "Dimension Scores:" +:+ nl +:+
  _format_dimension_scores dimension_scores +:+ nl +:+
  nl +:+
  "Failing Checks: " +:+ pretty (length failing_checks) +:+ nl +:+
  nl +:+
  "Generate a concise narrative (2-3 paragraphs) explaining:" +:+ nl +:+
  "1. Overall data quality assessment" +:+ nl +:+
  "2. Key issues and their business impact" +:+ nl +:+
  "3. Priority areas for remediation" +:+ nl +:+
  nl +:+
  "Keep it professional and actionable.".

Definition _explain_with_llm (chat : ChatClient)
    (scoring_result : ScoringResult) (check_results : list CheckResult)
    (profile : Profile) : result (string * list IssueSummary) :=
  (* Prepare aggregated data for LLM (NO RAW DATA) *)
  data ← summary_data scoring_result check_results profile;
  match chat "You are a data quality expert for payment systems."
          (prompt_of data) with
  | Some narrative =>
      (* Generate issue summaries *)
      issue_summaries ← _generate_issue_summaries check_results;
      mret (narrative, issue_summaries)
  | None =>
      (* Fallback to stub if LLM fails *)
      _explain_with_stub scoring_result check_results profile
  end.

Definition explain (self : ExplainerAgent) (scoring_result : ScoringResult)
    (check_results : list CheckResult) (profile : Profile)
  : result ExplainerResult :=
  r ←
    match use_llm self, client self with
    | true, Some chat =>
        _explain_with_llm chat scoring_result check_results profile
    | _, _ => _explain_with_stub scoring_result check_results profile
    end;
  mret {| narrative := r.1;
          issue_summaries := r.2;
          mode := if use_llm self then "llm" else "stub" |}.
End agent.
End ExplainerAgent.

(** ** agents/test_export_agent.py *)

Inductive DbtTest :=
| NotNull
| Unique
| AcceptedValues (values : list string)
| ExpressionIsTrue (expression : string).

Record DbtColumn := {
  column_name : value;
  column_description : string;
  tests : list DbtTest
}.

(** [dbt_schema]: version 2, one model with its columns. *)
Record DbtSchema := {
  schema_version : Z;
  model_name : string;
  model_description : string;
  model_columns : list DbtColumn
}.

Record Expectation := {
  expectation_type : string;
  kwargs : list (string * value)
}.

Record GeSuite := {
  data_asset_type : string;
  expectation_suite_name : string;
  expectations : list Expectation;
  meta : list (string * string)
}.

(** The test export result; [duration_ms] is not carried. *)
Record TestExportResult := {
  dbt_yaml : string;
  ge_suite_json : string
}.

(** [yaml.dump(., default_flow_style=False, sort_keys=False)] and
    [json.dumps(., indent=2)]. *)
Class Serializer := {
  yaml_dump : DbtSchema → string;
  json_dumps : GeSuite → string
}.

Module TestExportAgent.
Section agent.
Context `{Rendering} `{Serializer}.

(** [field in columns_dict], on a dictionary whose keys are any hashable
    values. *)
Definition has_key (field : value) (columns_dict : list (value * DbtColumn))
  : bool :=
  existsb (λ e, value_eqb field e.1) columns_dict.

(** [columns_dict[field]["tests"].append(test)] *)
Definition append_test (field : value) (test : DbtTest)
    (columns_dict : list (value * DbtColumn)) : list (value * DbtColumn) :=
  (λ e,
     if value_eqb field e.1
     then (e.1, {| column_name := column_name e.2;
                   column_description := column_description e.2;
                   tests := tests e.2 ++ [test] |})
     else e) <$> columns_dict.

(** The body of each of the four loops: the column gets its entry when it
    has none, and then one more test. *)
Definition add_test (test : value → DbtTest)
    (columns_dict : list (value * DbtColumn)) (field : value)
  : result (list (value * DbtColumn)) :=
  if hashable field then
    let columns_dict :=
      if has_key field columns_dict then columns_dict
      else columns_dict ++
           [ (field, {| column_name := field;
                        column_description := "Column " +:+ py_str field;
                        tests := [] |}) ] in
    Ok (append_test field (test field) columns_dict)
  else Raise TypeError.

(** [for field in metrics.get(key, []): ...] *)
Definition add_tests (key : string) (test : value → DbtTest)
    (m : list (string * value)) (columns_dict : list (value * DbtColumn))
  : result (list (value * DbtColumn)) :=
  fields ← py_iter (default (VList []) (dict_get key m));
  foldlM (add_test test) columns_dict fields.

Definition dbt_step (columns_dict : list (value * DbtColumn))
    (c : CheckResult) : result (list (value * DbtColumn)) :=
  let check_id := default EmptyString (check_id c) in
  let m := metrics c in
  (* Completeness -> not_null tests *)
  if str_in "completeness" check_id then
    add_tests "required_fields" (λ _, NotNull) m columns_dict
  (* Uniqueness -> unique tests *)
  else if str_in "uniqueness" check_id then
    add_tests "key_columns" (λ _, Unique) m columns_dict
  (* Validity -> accepted_values tests *)
  else if str_in "validity_currency" check_id then
    add_tests "currency_columns"
      (λ _, AcceptedValues [ "USD"; "EUR"; "GBP"; "JPY"; "CNY"; "AUD"; "CAD" ])
      m columns_dict
  (* Validity -> amount range *)
  else if str_in "validity_amount" check_id then
    add_tests "amount_columns"
      (λ col, ExpressionIsTrue (py_str col +:+ " >= 0")) m columns_dict
  else Ok columns_dict.

(** The schema [_generate_dbt_tests] hands to [yaml.dump]. *)
Definition dbt_schema (check_results : list CheckResult) : result DbtSchema :=
  columns_dict ← foldlM dbt_step [] check_results;
  mret {| schema_version := 2;
          model_name := "transactions";
          model_description := "Payment transactions dataset";
          model_columns := snd <$> columns_dict |}.

Definition _generate_dbt_tests (check_results : list CheckResult)
    (profile : Profile) : result string :=
  schema ← dbt_schema check_results;
  mret (yaml_dump schema).

(** [for field in metrics.get(key, []): expectations.append(...)] *)
Definition add_expectations (key : string) (expectation : value → Expectation)
    (m : list (string * value)) (expectations : list Expectation)
  : result (list Expectation) :=
  fields ← py_iter (default (VList []) (dict_get key m));
  mret (expectations ++ (expectation <$> fields)).

Definition ge_step (expectations : list Expectation) (c : CheckResult)
  : result (list Expectation) :=
  let check_id := default EmptyString (check_id c) in
  let m := metrics c in
  (* Completeness -> expect_column_values_to_not_be_null *)
  if str_in "completeness" check_id then
    add_expectations "required_fields"
      (λ field,
         {| expectation_type := "expect_column_values_to_not_be_null";
            kwargs := [ ("column", field); ("mostly", VFloat (95 # 100)) ] |})
      m expectations
  (* Uniqueness -> expect_column_values_to_be_unique *)
  else if str_in "uniqueness" check_id then
    add_expectations "key_columns"
      (λ col,
         {| expectation_type := "expect_column_values_to_be_unique";
            kwargs := [ ("column", col) ] |})
      m expectations
  (* Validity currency -> expect_column_values_to_be_in_set *)
  else if str_in "validity_currency" check_id then
    add_expectations "currency_columns"
      (λ col,
         {| expectation_type := "expect_column_values_to_be_in_set";
            kwargs :=
              [ ("column", col);
                ("value_set",
                 VList (VStr <$> [ "USD"; "EUR"; "GBP"; "JPY"; "CNY"; "AUD";
                                   "CAD"; "CHF"; "HKD"; "SGD" ])) ] |})
      m expectations
  (* Validity amount -> expect_column_values_to_be_between *)
  else if str_in "validity_amount" check_id then
    add_expectations "amount_columns"
      (λ col,
         {| expectation_type := "expect_column_values_to_be_between";
            kwargs := [ ("column", col); ("min_value", VInt 0);
                        ("mostly", VFloat (99 # 100)) ] |})
      m expectations
  (* Consistency time ordering *)
  else if str_in "consistency_time_ordering" check_id then
    let event_col := default VNone (dict_get "event_column" m) in
    let settlement_col := default VNone (dict_get "settlement_column" m) in
    if py_truthy event_col && py_truthy settlement_col then
      Ok (expectations ++
          [ {| expectation_type :=
                 "expect_column_pair_values_A_to_be_greater_than_B";
               kwargs := [ ("column_A", settlement_col);
                           ("column_B", event_col);
                           ("or_equal", VBool true);
                           ("mostly", VFloat (99 # 100)) ] |} ])
    else Ok expectations
  else Ok expectations.

Definition _generate_ge_suite (check_results : list CheckResult)
    (profile : Profile) : result GeSuite :=
  expectations ← foldlM ge_step [] check_results;
  mret {| data_asset_type := "Dataset";
          expectation_suite_name := "payment_transactions_suite";
          expectations := expectations;
          meta := [ ("great_expectations_version", "0.18.0");
                    ("generated_by", "DQS_Agent") ] |}.

Definition export_tests (check_results : list CheckResult)
    (profile : Profile) : result TestExportResult :=
  dbt_yaml ← _generate_dbt_tests check_results profile;
  ge_suite ← _generate_ge_suite check_results profile;
  mret {| dbt_yaml := dbt_yaml; ge_suite_json := json_dumps ge_suite |}.
End agent.
End TestExportAgent.

(** ** utils/hashing.py *)

(** [hashlib.sha256(s.encode()).hexdigest()] and [df.to_json()]. *)
Class Hashing := {
  sha256_hexdigest : string → string;
  to_json : DataFrame → (string → SeriesTypes) → string
}.

(** [df.head(n)] *)
Definition df_head (n : nat) (df : DataFrame) : DataFrame :=
  {| df_len := Nat.min n (df_len df);
     df_data := (λ c, (c.1, take n c.2)) <$> df_data df |}.

Module hashing.
Section fingerprints.
Context `{Hashing}.

(** [",".join([f"{col}:{dtype}" for col, dtype in df.dtypes.items()])] *)
Definition schema_str (df : DataFrame) (types : string → SeriesTypes)
  : string :=
  str_join ","
    ((λ col, col +:+ ":" +:+ series_dtype (types col)) <$> df_columns df).

Definition compute_dataset_fingerprint (df : DataFrame)
    (types : string → SeriesTypes) : string :=
  (* Schema: column names and types; row count *)
  let components := [ schema_str df types; pretty (df_len df) ] in
  (* Sample hash: hash first 100 rows to detect content changes *)
  let sample_size := Nat.min 100 (df_len df) in
  let components :=
    if (0 <? sample_size)%nat
    then components ++
         [ sha256_hexdigest (to_json (df_head sample_size df) types) ]
    else components in
  (* Combine and hash *)
  sha256_hexdigest (str_join "|" components).

Definition compute_reference_fingerprint (df : DataFrame)
    (types : string → SeriesTypes) (ref_type : string) : string :=
  let components :=
    [ ref_type; schema_str df types; pretty (df_len df);
      (* Full content hash for reference data (usually smaller) *)
      sha256_hexdigest (to_json df types) ] in
  sha256_hexdigest (str_join "|" components).
End fingerprints.
End hashing.

(** ** orchestrator.py *)

Module Orchestrator.

(** Which references are available, as [process_dataset] tells the
    selector: nothing at all when no reference data is passed or the
    dictionary passed is empty. *)
Definition has_references (reference_data : option (gmap string DataFrame))
  : gmap string bool :=
  match reference_data with
  | Some refs =>
      if bool_decide (refs = ∅) then ∅
      else
        list_to_map
          ((λ name, (name, bool_decide (is_Some (refs !! name)))) <$>
           [ "bin_map"; "currency_rules"; "mcc_codes"; "settlement_ledger";
             "merchants"; "customers" ])
  | None => ∅
  end.
End Orchestrator.

(** ** routes/ingest.py *)

(** What the body of a route can raise: the parser's [EmptyDataError], an
    [HTTPException], or any other exception, kept as its text [str(e)]. *)
Inductive route_exn :=
| EmptyDataError
| HTTPException (status_code : nat) (detail : string)
| OtherException (text : string).

(** What a route does: it returns a body or raises. *)
Inductive outcome (A : Type) :=
| Returns (body : A)
| Raises (e : route_exn).

Arguments Returns {A} body.
Arguments Raises {A} e.

#[global] Instance outcome_ret : MRet outcome := @Returns.

#[global] Instance outcome_bind : MBind outcome :=
  λ A B f m, match m with Returns a => f a | Raises e => Raises e end.

Record DatasetReceipt := {
  receipt_run_id : string;
  receipt_message : string;
  receipt_row_count : nat;
  receipt_column_count : nat
}.

Record ReferenceReceipt := {
  receipt_reference_id : string;
  receipt_reference_type : string;
  reference_row_count : nat;
  reference_message : string
}.

(** What the routes call outside this model: the CSV parser's answer is an
    argument of each route; the rest is here. *)
Class Services := {
  (** [str(e)] for an [HTTPException]. *)
  str_http_exception : nat → string → string;
  (** [Orchestrator().process_dataset(df, dataset_name, reference_data)]:
      the run id, or what it raises. *)
  process_dataset :
    DataFrame → option string → option (gmap string DataFrame) →
    outcome string;
  (** [storage.create_reference(reference)], for a reference id, its type,
      its fingerprint and its row count. *)
  create_reference : string → string → string → nat → outcome unit;
  (** [f"ref_{uuid.uuid4().hex[:12]}"] *)
  new_reference_id : string
}.

Module ingest.
Section routes.
Context `{Hashing} `{Services}.

(** [df.empty]: no row or no column. *)
Definition df_empty (df : DataFrame) : bool :=
  (df_len df =? 0)%nat || (length (df_columns df) =? 0)%nat.

(** [a or b] between two optional texts. *)
Definition py_or (a b : option string) : option string :=
  match a with
  | Some s => if String.eqb s EmptyString then b else a
  | None => b
  end.

(** [reference_store if reference_store else None] *)
Definition passed_references (reference_store : gmap string DataFrame)
  : option (gmap string DataFrame) :=
  if bool_decide (reference_store = ∅) then None else Some reference_store.

(** The [try] block of [ingest_dataset]. *)
Definition ingest_dataset_body (reference_store : gmap string DataFrame)
    (parsed : outcome DataFrame) (filename dataset_name : option string)
  : outcome DatasetReceipt :=
  (* Parse CSV *)
  df ← parsed;
  (* Validate dataset *)
  if df_empty df then Raises (HTTPException 400 "Dataset is empty")
  else
    (* Process through orchestrator *)
    run_id ←
      process_dataset df (py_or dataset_name filename)
        (passed_references reference_store);
    mret {| receipt_run_id := run_id;
            receipt_message := "Dataset processed successfully";
            receipt_row_count := df_len df;
            receipt_column_count := length (df_columns df) |}.

(** The two [except] clauses, in their order: [EmptyDataError] first, then
    every other exception, [HTTPException] included. *)
Definition handle (prefix : string) {A : Type} (body : outcome A) : outcome A :=
  match body with
  | Returns a => Returns a
  | Raises EmptyDataError => Raises (HTTPException 400 "Invalid CSV file")
  | Raises (HTTPException status_code detail) =>
      Raises (HTTPException 500
                (prefix +:+ str_http_exception status_code detail))
  | Raises (OtherException text) =>
      Raises (HTTPException 500 (prefix +:+ text))
  end.

Definition ingest_dataset (reference_store : gmap string DataFrame)
    (parsed : outcome DataFrame) (filename dataset_name : option string)
  : outcome DatasetReceipt :=
  handle "Processing failed: "
    (ingest_dataset_body reference_store parsed filename dataset_name).

Definition valid_types : list string :=
  [ "bin_map"; "currency_rules"; "mcc_codes"; "settlement_ledger" ].

(** The [try] block of [ingest_reference]: its answer and the reference
    store it leaves. *)
Definition ingest_reference_body (reference_store : gmap string DataFrame)
    (parsed : outcome DataFrame) (types : string → SeriesTypes)
    (reference_type : string)
  : outcome ReferenceReceipt * gmap string DataFrame :=
  (* Validate reference type *)
  if negb (bool_decide (reference_type ∈ valid_types)) then
    (Raises
       (HTTPException 400
          ("Invalid reference_type. Must be one of: " +:+
           str_join ", " valid_types)),
     reference_store)
  else
    match parsed with
    | Raises e => (Raises e, reference_store)
    | Returns df =>
        if df_empty df
        then (Raises (HTTPException 400 "Reference file is empty"),
              reference_store)
        else
          (* Compute fingerprint *)
          let fingerprint :=
            hashing.compute_reference_fingerprint df types reference_type in
          (* Generate reference ID *)
          let reference_id := new_reference_id in
          (* Store reference metadata *)
          match create_reference reference_id reference_type fingerprint
                  (df_len df) with
          | Raises e => (Raises e, reference_store)
          | Returns _ =>
              (* Store reference data in memory *)
              (Returns
                 {| receipt_reference_id := reference_id;
                    receipt_reference_type := reference_type;
                    reference_row_count := df_len df;
                    reference_message := "Reference data ingested successfully" |},
               <[ reference_type := df ]> reference_store)
          end
    end.

Definition ingest_reference (reference_store : gmap string DataFrame)
    (parsed : outcome DataFrame) (types : string → SeriesTypes)
    (reference_type : string)
  : outcome ReferenceReceipt * gmap string DataFrame :=
  let r := ingest_reference_body reference_store parsed types reference_type in
  (handle "Ingestion failed: " r.1, r.2).
End routes.
End ingest.

(** * Specification-side definitions and concrete inputs *)

(** A runtime in which no text reads as a number or a date: enough to run
    the examples, whose values are all given as numbers and whose texts
    are ASCII.  Its pandas is one before 3.0: [astype(str)] renders a
    missing value as the text [nan]. *)
Definition plain_runtime : Runtime :=
  {| parse_float := λ _, None;
     to_numeric := λ _, None;
     to_datetime := λ _, None;
     timestamp_now := 0%Q;
     format_1f := λ _, EmptyString;
     astype_int := λ _, None;
     astype_str_na := Some "nan";
     unicode_4_digits := λ _, false |}.

(** The same runtime with a pandas from 3.0 on: [astype(str)] keeps a
    missing value missing. *)
Definition pandas3_runtime : Runtime :=
  {| parse_float := λ _, None;
     to_numeric := λ _, None;
     to_datetime := λ _, None;
     timestamp_now := 0%Q;
     format_1f := λ _, EmptyString;
     astype_int := λ _, None;
     astype_str_na := None;
     unicode_4_digits := λ _, false |}.

Definition no_types : InferredTypes :=
  {| id_columns := []; timestamp_columns := []; enum_columns := [];
     numeric_columns := []; text_columns := [] |}.

(** The profile of a frame without columns. *)
Definition empty_profile : Profile :=
  {| row_count := 0; column_count := 0; columns := [];
     inferred_types := no_types |}.

(** [not check.get("passed", True)] *)
Definition failing (c : CheckResult) : bool := negb (default true (passed c)).

(** [check.get("dimension", "unknown")] *)
Definition dimension_of (c : CheckResult) : string :=
  default "unknown" (dimension c).

(** The seven dimensions, in the order the selector considers them. *)
Definition all_dimensions : list string :=
  [ "completeness"; "uniqueness"; "validity"; "consistency"; "timeliness";
    "integrity"; "reconciliation" ].

(** The criticality score as the specification words it: every column name
    adds the weight of each keyword that its lower-cased form contains. *)
Definition Zsum (l : list Z) : Z := foldr Z.add 0%Z l.

Definition keyword_score (table : list (string * Z)) (name : string) : Z :=
  Zsum ((λ '(keyword, w), if str_in keyword (str_lower name) then w else 0%Z)
        <$> table).

Definition criticality_score (table : list (string * Z)) (profile : Profile)
  : Z :=
  Zsum (keyword_score table <$> dict_keys (columns profile)).

(** The ten keywords of the specification. *)
Definition spec_field_criticality : list (string * Z) :=
  [ ("amount", 3); ("currency", 3); ("txn_id", 3); ("status", 3);
    ("customer_id", 3); ("kyc", 3); ("compliance", 3);
    ("merchant", 2); ("mcc", 2); ("country", 2) ]%Z.



(** The composite as the specification words it:
    Σ(score·weight) / Σ(weight) over the entries of the score mapping. *)
Definition weighted_sum (entries : list (string * DimensionScore)) : Q :=
  Qsum ((λ e, score e.2 * weight e.2)%Q <$> entries).

Definition weight_sum (entries : list (string * DimensionScore)) : Q :=
  Qsum ((λ e, weight e.2) <$> entries).

Definition weighted_mean (entries : list (string * DimensionScore)) : Q :=
  (weighted_sum entries / weight_sum entries)%Q.

(** The check results of one dimension, in their order. *)
Definition checks_of (dim : string) (cs : list CheckResult) : list CheckResult :=
  List.filter (λ c, String.eqb (dimension_of c) dim) cs.

(** A [failing_columns] entry the scoring loop can absorb: its ["column"],
    when it has one, can be put in a set. *)
Definition absorbable (col_info : value) : bool :=
  match col_info with
  | VDict d =>
      match dict_get "column" d with
      | Some col => hashable col
      | None => true
      end
  | _ => true
  end.

(** The scoring loop goes through [c] without raising: its error rate can
    be read and its [failing_columns], when present, can be walked. *)
Definition scorable `{Runtime} (c : CheckResult) : bool :=
  match ScoringAgent._extract_error_rate c with
  | Ok _ =>
      match dict_get "failing_columns" (metrics c) with
      | Some cols =>
          match py_iter cols with
          | Ok infos => forallb absorbable infos
          | Raise _ => false
          end
      | None => true
      end
  | Raise _ => false
  end.

(** The error rate read from [c], when there is one, is not negative. *)
Definition rate_nonneg `{Runtime} (c : CheckResult) : bool :=
  match ScoringAgent._extract_error_rate c with
  | Ok e => Qle_bool 0 e
  | Raise _ => true
  end.

(** [severity_weights.get(check.get("severity", "medium"), 2.0)] *)
Definition severity_weight_of (c : CheckResult) : Q :=
  default 2%Q (ScoringAgent.severity_weights !! default "medium" (severity c)).


(** The profile of a frame with the columns amount, currency, merchant_id
    and mcc: 10 on the specification's table, 12 on the code's. *)
Definition blank_column : ColumnProfile :=
  {| dtype := "object"; null_count := 0; null_rate := 0;
     unique_count := 0; cardinality_ratio := 0;
     is_id_like := false; is_timestamp := false; is_enum_like := false;
     is_numeric := false; is_text := true |}.

Definition merchant_profile : Profile :=
  {| row_count := 0; column_count := 4;
     columns := [ ("amount", blank_column); ("currency", blank_column);
                  ("merchant_id", blank_column); ("mcc", blank_column) ];
     inferred_types := no_types |}.

(** A passing completeness check without a single null. *)
Definition clean_completeness : CheckResult :=
  {| check_id := Some "completeness_null_rates";
     dimension := Some "completeness";
     passed := Some true;
     severity := Some "low";
     metrics := [ ("overall_null_rate", VFloat 0) ] |}.

(** A currency check in which every value is invalid. *)
Definition broken_validity : CheckResult :=
  {| check_id := Some "validity_currency";
     dimension := Some "validity";
     passed := Some false;
     severity := Some "high";
     metrics := [ ("overall_invalid_rate", VFloat 1) ] |}.


(** A settlement reconciliation with more mismatches than rows: its
    reconciliation rate is negative, its error rate above one. *)
Definition overcounted : CheckResult :=
  {| check_id := Some "reconciliation_settlement";
     dimension := Some "reconciliation";
     passed := Some false;
     severity := Some "critical";
     metrics := [ ("overall_reconciliation_rate", VFloat (-1 # 2)) ] |}.

(** The selector's predicate table, as the specification words it.
    A name contains a word when its lower-cased form does. *)
Definition some_column_contains (words : list string) (profile : Profile)
  : bool :=
  existsb (λ col, any_in words (str_lower col)) (dict_keys (columns profile)).

Definition available (has_references : gmap string bool) (name : string)
  : bool :=
  bool_decide (has_references !! name = Some true).

Definition spec_included (profile : Profile)
    (has_references : gmap string bool) (dim : string) : bool :=
  let types := inferred_types profile in
  if String.eqb dim "completeness" then true
  else if String.eqb dim "uniqueness" then
    (0 <? length (id_columns types))%nat
  else if String.eqb dim "validity" then
    (0 <? length (enum_columns types))%nat ||
    some_column_contains [ "currency"; "country"; "mcc"; "amount" ] profile
  else if String.eqb dim "consistency" then
    some_column_contains [ "status" ] profile ||
    (1 <? length (timestamp_columns types))%nat
  else if String.eqb dim "timeliness" then
    (0 <? length (timestamp_columns types))%nat
  else if String.eqb dim "integrity" then
    available has_references "merchants" ||
    available has_references "customers"
  else if String.eqb dim "reconciliation" then
    available has_references "settlement_ledger" ||
    available has_references "bin_map"
  else false.

(** The severity ladders of the three reference-set validity checks. *)
Definition currency_severity (invalid_rate : Q) : string :=
  if Qltb (1 # 100) invalid_rate then "high"
  else if Qltb 0 invalid_rate then "medium" else "low".

Definition code_severity (invalid_rate : Q) : string :=
  if Qltb (1 # 100) invalid_rate then "medium" else "low".

(** One call of a check function of the catalog, with its arguments. *)
Inductive invocation :=
| NullRates (df : DataFrame) (profile : Profile)
| RequiredFields (df : DataFrame) (required_fields : option (list string))
| Duplicates (df : DataFrame) (key_columns : list string)
| CurrencyValidity (df : DataFrame)
| CountryValidity (df : DataFrame)
| MccValidity (df : DataFrame) (mcc_reference : option DataFrame)
| AmountValidity (df : DataFrame)
| StatusSettlement (df : DataFrame)
| CurrencyDecimals (df : DataFrame) (currency_rules : option DataFrame)
| TimeOrdering (df : DataFrame)
| EventLag (df : DataFrame) (sla_hours : Z)
| ProcessingDelay (df : DataFrame)
| ReferentialIntegrity (df : DataFrame) (reference_data : gmap string DataFrame)
| BinReconciliation (df : DataFrame) (bin_reference : option DataFrame)
| SettlementReconciliation (df : DataFrame) (settlement_ledger : option DataFrame).

(** What the call returns: the check results, or the exception raised. *)
Definition run_check `{Runtime} (i : invocation) : result (list CheckResult) :=
  match i with
  | NullRates df profile => Ok [ completeness.check_null_rates df profile ]
  | RequiredFields df fields =>
      Ok [ completeness.check_required_fields df fields ]
  | Duplicates df keys => Ok [ uniqueness.check_duplicates df keys ]
  | CurrencyValidity df => Ok [ validity.check_currency_validity df ]
  | CountryValidity df => Ok [ validity.check_country_validity df ]
  | MccValidity df ref => Ok [ validity.check_mcc_validity df ref ]
  | AmountValidity df => Ok [ validity.check_amount_validity df ]
  | StatusSettlement df =>
      Ok [ consistency.check_status_settlement_consistency df ]
  | CurrencyDecimals df rules =>
      c ← consistency.check_currency_decimal_consistency df rules; mret [c]
  | TimeOrdering df => Ok [ consistency.check_time_ordering_consistency df ]
  | EventLag df sla => Ok [ timeliness.check_event_lag df sla ]
  | ProcessingDelay df => Ok [ timeliness.check_processing_delay df ]
  | ReferentialIntegrity df refs =>
      integrity.check_referential_integrity df refs
  | BinReconciliation df ref =>
      Ok [ reconciliation.check_bin_reconciliation df ref ]
  | SettlementReconciliation df ledger =>
      Ok [ reconciliation.check_settlement_reconciliation df ledger ]
  end.






(** A cell of a foreign-key column that the reference check accepts: it
    stays missing when read as text, or its text is among the texts of
    the reference's id column. *)
Definition referenced `{Runtime} (ids : list cell) (v : cell) : Prop :=
  astype_str v = None ∨ astype_str v ∈ astype_str <$> ids.

(** Two hundred currency codes, one of them unknown. *)
Definition one_bad_currency : DataFrame :=
  {| df_len := 200;
     df_data := [ ("currency", replicate 199 (Some "USD") ++ [ Some "XXX" ]) ] |}.

(** Two currency codes, one of them missing. *)
Definition one_null_currency : DataFrame :=
  {| df_len := 2; df_data := [ ("currency", [ Some "USD"; None ]) ] |}.

(** A frame with one column and no row. *)
Definition zero_rows : DataFrame :=
  {| df_len := 0; df_data := [ ("txn_id", []) ] |}.



(** One merchant id, and a merchants table without any id column. *)
Definition one_merchant : DataFrame :=
  {| df_len := 1; df_data := [ ("merchant_id", [ Some "m1" ]) ] |}.

Definition merchants_without_id : DataFrame :=
  {| df_len := 1; df_data := [ ("name", [ Some "Acme" ]) ] |}.


(** A frame without a country column. *)
Definition no_country : DataFrame :=
  {| df_len := 1; df_data := [ ("amount", [ Some "10.0" ]) ] |}.

(** Three failing checks: two of the same priority around one of a higher
    priority. *)
Definition failing_check (id : string) (sev : string) (invalid_rate : Q)
  : CheckResult :=
  {| check_id := Some id; dimension := Some "validity";
     passed := Some false; severity := Some sev;
     metrics := [ ("overall_invalid_rate", VFloat invalid_rate) ] |}.

Definition three_failures : list CheckResult :=
  [ failing_check "validity_currency" "medium" (1 # 2);
    failing_check "validity_amount" "critical" (1 # 2);
    clean_completeness;
    failing_check "validity_country" "medium" (1 # 2) ].

(** A scoring result without any dimension score. *)
Definition no_scores : ScoringResult :=
  {| dimension_scores := []; composite_dqs := 0%Q; dimension_weights := [] |}.

(** A check result the scoring agent can take: it can be scored, and its
    error rate is not negative. *)
Definition well_rated `{Runtime} (c : CheckResult) : Prop :=
  scorable c = true ∧ rate_nonneg c = true.

(** The dimension a check of the catalog belongs to, and the frame it is
    run on. *)
Definition invocation_dimension (i : invocation) : string :=
  match i with
  | NullRates _ _ | RequiredFields _ _ => "completeness"
  | Duplicates _ _ => "uniqueness"
  | CurrencyValidity _ | CountryValidity _ | MccValidity _ _
  | AmountValidity _ => "validity"
  | StatusSettlement _ | CurrencyDecimals _ _ | TimeOrdering _ => "consistency"
  | EventLag _ _ | ProcessingDelay _ => "timeliness"
  | ReferentialIntegrity _ _ => "integrity"
  | BinReconciliation _ _ | SettlementReconciliation _ _ => "reconciliation"
  end.

Definition invocation_frame (i : invocation) : DataFrame :=
  match i with
  | NullRates df _ | RequiredFields df _ | Duplicates df _
  | CurrencyValidity df | CountryValidity df | MccValidity df _
  | AmountValidity df | StatusSettlement df | CurrencyDecimals df _
  | TimeOrdering df | EventLag df _ | ProcessingDelay df
  | ReferentialIntegrity df _ | BinReconciliation df _
  | SettlementReconciliation df _ => df
  end.

(** [c] is what the executor makes of the result [c0] of a catalog check
    run on [df]: the result, labelled with the check's dimension, which is
    one of the selected ones. *)
Definition from_catalog `{Runtime} (df : DataFrame) (sel : list string)
    (c : CheckResult) : Prop :=
  ∃ i cs c0,
    invocation_frame i = df ∧ invocation_dimension i ∈ sel ∧
    run_check i = Ok cs ∧ c0 ∈ cs ∧
    c = CheckExecutorAgent.set_dimension (invocation_dimension i) c0.

(** The four severities the agents know. *)
Definition known_severities : list string :=
  [ "critical"; "high"; "medium"; "low" ].

(** A check result with nothing left to a default: an id that begins with
    the name of its dimension, a dimension among the selected ones, a pass
    flag and one of the four severities. *)
Definition populated (sel : list string) (c : CheckResult) : Prop :=
  ∃ id dim ok sev,
    check_id c = Some id ∧ dimension c = Some dim ∧ passed c = Some ok ∧
    severity c = Some sev ∧
    dim ∈ sel ∧ dim ∈ all_dimensions ∧
    String.prefix (dim +:+ "_") id = true ∧
    sev ∈ known_severities.

(** The metrics schema of the catalog, as far as the agents downstream read
    it: every rate is a float; [failing_columns] is a list of entries that
    name their column; a column reference is a text; a list of columns is a
    list of texts.  Any of these may be absent. *)
Definition absent_or (p : value → bool) (v : option value) : bool :=
  match v with Some x => p x | None => true end.

Definition is_float (v : value) : bool :=
  match v with VFloat _ => true | _ => false end.

Definition is_str (v : value) : bool :=
  match v with VStr _ => true | _ => false end.

Definition is_strs (v : value) : bool :=
  match v with VList l => forallb is_str l | _ => false end.

Definition names_column (v : value) : bool :=
  match v with
  | VDict d => absent_or is_str (dict_get "column" d) && dict_has "column" d
  | _ => false
  end.

Definition is_column_entries (v : value) : bool :=
  match v with VList l => forallb names_column l | _ => false end.

Definition rate_keys : list string :=
  [ "overall_null_rate"; "overall_duplicate_rate"; "overall_invalid_rate";
    "inconsistent_rate"; "violation_rate"; "excessive_delay_rate";
    "misordered_rate"; "match_rate"; "overall_reconciliation_rate" ].

Definition column_keys : list string :=
  [ "currency_column"; "amount_column"; "status_column"; "txn_id_column";
    "settlement_column"; "event_column" ].

Definition column_list_keys : list string :=
  [ "required_fields"; "key_columns"; "currency_columns"; "amount_columns" ].

Definition shaped_metrics (m : list (string * value)) : bool :=
  forallb (λ k, absent_or is_float (dict_get k m)) rate_keys &&
  absent_or is_column_entries (dict_get "failing_columns" m) &&
  forallb (λ k, absent_or is_str (dict_get k m)) column_keys &&
  forallb (λ k, absent_or is_strs (dict_get k m)) column_list_keys.

Definition shaped (c : CheckResult) : bool := shaped_metrics (metrics c).

(** The state of the profiling loop after the columns [seen]. *)
Definition profiled (df : DataFrame) (types : string → SeriesTypes)
    (seen : list string) : Profile :=
  let column_profile := ProfilerAgent._profile_column df types in
  {| row_count := df_len df;
     column_count := length (df_columns df);
     columns :=
       fold_left (λ d col, dict_set col (column_profile col) d) seen [];
     inferred_types :=
       {| id_columns := List.filter (λ col, is_id_like (column_profile col)) seen;
          timestamp_columns :=
            List.filter (λ col, is_timestamp (column_profile col)) seen;
          enum_columns :=
            List.filter (λ col, is_enum_like (column_profile col)) seen;
          numeric_columns :=
            List.filter (λ col, is_numeric (column_profile col)) seen;
          text_columns :=
            List.filter (λ col, is_text (column_profile col)) seen |} |}.

(** The tests of the first two phases of the remediation plan. *)
Definition in_p0 (i : Issue) : bool :=
  (String.eqb (issue_severity i) "critical" ||
   String.eqb (issue_severity i) "high") && Qltb 50 (priority_score i).

Definition in_p1 (i : Issue) : bool :=
  String.eqb (issue_severity i) "high" ||
  (String.eqb (issue_severity i) "medium" && Qltb 20 (priority_score i)).

(** No two columns of a dbt schema have the same name, names compared as
    Python compares dictionary keys. *)
Fixpoint distinct_columns (cols : list DbtColumn) : bool :=
  match cols with
  | [] => true
  | col :: cols' =>
      forallb (λ other, negb (value_eqb (column_name col) (column_name other)))
        cols' &&
      distinct_columns cols'
  end.

(** The invariant of [columns_dict]: a column is stored under its name, no
    name occurs twice, and a column has at least one test. *)
Definition columns_dict_ok (d : list (value * DbtColumn)) : Prop :=
  Forall (λ e, column_name e.2 = e.1 ∧ tests e.2 ≠ []) d ∧
  distinct_columns (snd <$> d) = true.


(** One upload to [/api/ingest-reference]: what the parser makes of the
    file, the dtypes of its columns, and the reference type of the form. *)
Record upload := {
  upload_parsed : outcome DataFrame;
  upload_types : string → SeriesTypes;
  upload_type : string
}.

(** The reference store after a sequence of uploads; the store is empty
    when the module is loaded. *)
Definition after_uploads `{Hashing} `{Services} (uploads : list upload)
  : gmap string DataFrame :=
  fold_left
    (λ store u,
       (ingest.ingest_reference store (upload_parsed u) (upload_types u)
          (upload_type u)).2)
    uploads ∅.

(** Renderers, serializers and hashes that are enough to run the examples:
    numbers render as the empty text, the hash of a text is the text, and
    a frame is written out cell by cell. *)
Definition plain_rendering : Rendering :=
  {| format_pct := λ _, EmptyString; py_str := λ _, EmptyString |}.

Definition plain_serializer : Serializer :=
  {| yaml_dump := λ _, EmptyString; json_dumps := λ _, EmptyString |}.

Definition plain_hashing : Hashing :=
  {| sha256_hexdigest := λ s, s;
     to_json := λ df _,
       str_join ";"
         ((λ c, c.1 +:+ ":" +:+ str_join "," (default "null" <$> c.2)) <$>
          df_data df) |}.

(** Every column is of dtype [object]. *)
Definition plain_types : string → SeriesTypes :=
  λ _, {| series_dtype := "object";
          is_datetime64_any_dtype := false;
          is_numeric_dtype := false;
          is_string_dtype := false;
          is_object_dtype := true |}.

(** Two payments. *)
Definition payments : DataFrame :=
  {| df_len := 2;
     df_data := [ ("txn_id", [ Some "t1"; Some "t2" ]);
                  ("amount", [ Some "10.0"; Some "20.0" ]);
                  ("currency", [ Some "USD"; Some "EUR" ]) ] |}.

(** Two card numbers and a BIN table that knows the first. *)
Definition cards : DataFrame :=
  {| df_len := 2;
     df_data := [ ("card_number", [ Some "4111111111111111";
                                    Some "5500000000000004" ]) ] |}.

Definition bin_table : DataFrame :=
  {| df_len := 1; df_data := [ ("bin", [ Some "411111" ]) ] |}.

(** Two frames of 101 rows that part in the last row only. *)
Definition long_frame (last : string) : DataFrame :=
  {| df_len := 101;
     df_data := [ ("txn_id", replicate 100 (Some "t") ++ [ Some last ]) ] |}.



(** The invalid count a validity check reports for a column, under
    [invalid_info]. *)
Definition reported_invalid_count (c : CheckResult) (col : string)
  : option value :=
  match dict_get "invalid_info" (metrics c) with
  | Some (VDict info) =>
      match dict_get col info with
      | Some (VDict entry) => dict_get "invalid_count" entry
      | _ => None
      end
  | _ => None
  end.
(** * Properties *)

(** ** Arithmetic *)

Lemma Qltb_lt (x y : Q) : Qltb x y = true ↔ (x < y)%Q.
Proof.
  unfold Qltb. rewrite negb_true_iff. split.
  - intros Hb. apply Qnot_le_lt. intros Hle.
    apply Qle_bool_iff in Hle. congruence.
  - intros Hlt. destruct (Qle_bool y x) eqn:E; [|done].
    apply Qle_bool_iff in E. exfalso. apply (Qlt_not_le _ _ Hlt E).
Qed.

Lemma Qltb_ge (x y : Q) : Qltb x y = false ↔ (y <= x)%Q.
Proof.
  unfold Qltb. rewrite negb_false_iff. apply Qle_bool_iff.
Qed.

Lemma round_half_even_between (x : Q) :
  (Qfloor x <= round_half_even x <= Qfloor x + 1)%Z.
Proof.
  unfold round_half_even.
  destruct (x - inject_Z (Qfloor x) ?= 1 # 2)%Q; [destruct (Z.even _)| |]; lia.
Qed.

(** Rounding never crosses an integer. *)
Lemma round_half_even_le (x : Q) (k : Z) :
  (x <= inject_Z k)%Q → (round_half_even x <= k)%Z.
Proof.
  intros Hx.
  assert (Hf : (Qfloor x <= k)%Z).
  { rewrite <- (Qfloor_Z k). by apply Qfloor_resp_le. }
  destruct (Z.eq_dec (Qfloor x) k) as [Heq|Hne].
  - assert (Hz : (x - inject_Z (Qfloor x) <= 0)%Q) by (rewrite Heq; lra).
    unfold round_half_even.
    destruct (x - inject_Z (Qfloor x) ?= 1 # 2)%Q eqn:E.
    + apply Qeq_alt in E. lra.
    + lia.
    + apply Qgt_alt in E. lra.
  - pose proof (round_half_even_between x). lia.
Qed.

Lemma round_half_even_ge (x : Q) (k : Z) :
  (inject_Z k <= x)%Q → (k <= round_half_even x)%Z.
Proof.
  intros Hx.
  assert (Hf : (k <= Qfloor x)%Z).
  { rewrite <- (Qfloor_Z k). by apply Qfloor_resp_le. }
  pose proof (round_half_even_between x). lia.
Qed.

Lemma round_half_even_proper (x y : Q) :
  (x == y)%Q → round_half_even x = round_half_even y.
Proof.
  intros Hxy. unfold round_half_even.
  assert (Hf : Qfloor x = Qfloor y) by (by apply Qfloor_comp).
  rewrite Hf.
  assert (Hc : (x - inject_Z (Qfloor y) ?= 1 # 2)%Q
               = (y - inject_Z (Qfloor y) ?= 1 # 2)%Q).
  { apply Qcompare_comp; [by rewrite Hxy|reflexivity]. }
  by rewrite Hc.
Qed.

Lemma scale_pos (n : nat) : (0 < inject_Z (10 ^ Z.of_nat n))%Q.
Proof.
  replace 0%Q with (inject_Z 0) by reflexivity. rewrite <- Zlt_Qlt.
  apply Z.pow_pos_nonneg; lia.
Qed.

Lemma py_round_proper (x y : Q) (n : nat) :
  (x == y)%Q → py_round x n = py_round y n.
Proof.
  intros Hxy. unfold py_round.
  rewrite (round_half_even_proper (x * _) (y * inject_Z (10 ^ Z.of_nat n))).
  - reflexivity.
  - by rewrite Hxy.
Qed.

Lemma py_round_le (x : Q) (n : nat) (k : Z) :
  (x <= inject_Z k)%Q → (py_round x n <= inject_Z k)%Q.
Proof.
  intros Hx. unfold py_round.
  pose proof (scale_pos n) as Hs.
  set (s := inject_Z (10 ^ Z.of_nat n)) in *.
  apply Qle_shift_div_r; [done|].
  unfold s. rewrite <- inject_Z_mult, <- Zle_Qle.
  apply round_half_even_le. rewrite inject_Z_mult. fold s.
  apply Qmult_le_compat_r; lra.
Qed.

Lemma py_round_ge (x : Q) (n : nat) (k : Z) :
  (inject_Z k <= x)%Q → (inject_Z k <= py_round x n)%Q.
Proof.
  intros Hx. unfold py_round.
  pose proof (scale_pos n) as Hs.
  set (s := inject_Z (10 ^ Z.of_nat n)) in *.
  apply Qle_shift_div_l; [done|].
  unfold s. rewrite <- inject_Z_mult, <- Zle_Qle.
  apply round_half_even_ge. rewrite inject_Z_mult. fold s.
  apply Qmult_le_compat_r; lra.
Qed.




Lemma Qdiv_by_zero (x y : Q) : (y == 0)%Q → (x / y == 0)%Q.
Proof.
  intros Hy. unfold Qdiv. rewrite Hy. change (/ 0)%Q with 0%Q. ring.
Qed.

Lemma py_max0_nonneg (x : Q) : (0 <= py_max0 x)%Q.
Proof.
  unfold py_max0. destruct (Qltb 0 x) eqn:E; [|lra].
  apply Qltb_lt in E. lra.
Qed.

Lemma py_max0_le (x b : Q) : (0 <= b)%Q → (x <= b)%Q → (py_max0 x <= b)%Q.
Proof. intros Hb Hx. unfold py_max0. by destruct (Qltb 0 x). Qed.

(** ** The exception monad and ordered dictionaries *)

Lemma bind_Ok {A B : Type} (m : result A) (f : A → result B) (b : B) :
  m ≫= f = Ok b ↔ ∃ a, m = Ok a ∧ f a = Ok b.
Proof.
  destruct m as [a|e]; simpl; split.
  - intros Hf. by exists a.
  - by intros (a' & [= <-] & Hf).
  - done.
  - by intros (a' & [=] & _).
Qed.

Lemma foldlM_app {A B : Type} (f : B → A → result B) (acc : B)
    (l1 l2 : list A) :
  foldlM f acc (l1 ++ l2) = foldlM f acc l1 ≫= λ acc', foldlM f acc' l2.
Proof.
  revert acc. induction l1 as [|x l1 IH]; intros acc; simpl; [done|].
  destruct (f acc x) as [acc'|e]; simpl; [apply IH|done].
Qed.

Section dict_facts.
Context {V : Type}.
Implicit Types (d : list (string * V)) (k : string) (v : V).

Lemma dict_get_set_eq k v d : dict_get k (dict_set k v d) = Some v.
Proof.
  induction d as [|[k' v'] d IH]; simpl.
  - by rewrite String.eqb_refl.
  - destruct (String.eqb k k') eqn:E; simpl; rewrite E; [done|apply IH].
Qed.

Lemma dict_get_set_ne k k' v d :
  k ≠ k' → dict_get k' (dict_set k v d) = dict_get k' d.
Proof.
  intros Hne. induction d as [|[k0 v0] d IH]; simpl.
  - destruct (String.eqb k' k) eqn:E; [|done].
    apply String.eqb_eq in E. congruence.
  - destruct (String.eqb k k0) eqn:E; simpl.
    + apply String.eqb_eq in E. subst k0.
      destruct (String.eqb k' k) eqn:E'; [|done].
      apply String.eqb_eq in E'. congruence.
    + by rewrite IH.
Qed.

Lemma dict_has_keys k d : dict_has k d = true ↔ k ∈ dict_keys d.
Proof.
  unfold dict_has, dict_keys. induction d as [|[k' v'] d IH]; simpl.
  - split; [done|]. intros Hin. by apply elem_of_nil in Hin.
  - destruct (String.eqb k k') eqn:E.
    + apply String.eqb_eq in E. subst. split; [|done]. intros _. left.
    + apply String.eqb_neq in E. rewrite IH. split.
      * intros Hin. by right.
      * intros Hin. apply elem_of_cons in Hin as [?|?]; [congruence|done].
Qed.

Lemma dict_get_None_keys k d : dict_get k d = None ↔ k ∉ dict_keys d.
Proof.
  rewrite <- dict_has_keys. unfold dict_has.
  destruct (dict_get k d); split; try done; by intros [].
Qed.

Lemma dict_keys_set k v d :
  dict_keys (dict_set k v d)
  = if dict_has k d then dict_keys d else dict_keys d ++ [k].
Proof.
  unfold dict_has, dict_keys. induction d as [|[k' v'] d IH]; simpl; [done|].
  destruct (String.eqb k k') eqn:E; simpl; [done|].
  rewrite IH. by destruct (dict_get k d).
Qed.

Lemma dict_set_NoDup k v d :
  NoDup (dict_keys d) → NoDup (dict_keys (dict_set k v d)).
Proof.
  intros Hnd. rewrite dict_keys_set.
  destruct (dict_has k d) eqn:E; [done|].
  apply NoDup_app. split_and!; [done| |apply NoDup_singleton].
  intros x Hx Hk. apply list_elem_of_singleton in Hk. subst x.
  apply dict_has_keys in Hx. congruence.
Qed.

Lemma dict_get_elem_of k v d :
  NoDup (dict_keys d) → (k, v) ∈ d → dict_get k d = Some v.
Proof.
  unfold dict_keys. induction d as [|[k' v'] d IH]; simpl; intros Hnd Hin.
  - by apply elem_of_nil in Hin.
  - apply NoDup_cons in Hnd as [Hk' Hnd].
    apply elem_of_cons in Hin as [[= -> ->]|Hin].
    + by rewrite String.eqb_refl.
    + destruct (String.eqb k k') eqn:E; [|by apply IH].
      apply String.eqb_eq in E. subst k'. exfalso. apply Hk'.
      apply list_elem_of_fmap. by exists (k, v).
Qed.

Lemma dict_get_fmap {W : Type} (g : V → W) k d :
  dict_get k ((λ e, (e.1, g e.2)) <$> d) = g <$> dict_get k d.
Proof.
  induction d as [|[k' v'] d IH]; simpl; [done|].
  by destruct (String.eqb k k').
Qed.

Lemma dict_set_fmap {W : Type} (g : V → W) k v d :
  dict_set k (g v) ((λ e, (e.1, g e.2)) <$> d)
  = (λ e, (e.1, g e.2)) <$> dict_set k v d.
Proof.
  induction d as [|[k' v'] d IH]; simpl; [done|].
  destruct (String.eqb k k'); simpl; [done|]. f_equal. apply IH.
Qed.

Lemma dict_keys_fmap {W : Type} (g : V → W) d :
  dict_keys ((λ e, (e.1, g e.2)) <$> d) = dict_keys d.
Proof.
  unfold dict_keys. rewrite <- list_fmap_compose. by apply list_fmap_ext.
Qed.
End dict_facts.

Lemma dict_fold_keys {V : Type} (f : string → V) (l : list string)
    (d : list (string * V)) :
  NoDup (dict_keys d ++ l) →
  dict_keys (fold_left (λ d col, dict_set col (f col) d) l d)
  = dict_keys d ++ l.
Proof.
  revert d. induction l as [|col l IH]; intros d Hnd; simpl.
  - by rewrite app_nil_r.
  - assert (Hcol : dict_has col d = false).
    { destruct (dict_has col d) eqn:E; [|done]. apply dict_has_keys in E.
      apply NoDup_app in Hnd as (_ & Hdis & _). exfalso.
      apply (Hdis col E). left. }
    rewrite IH; rewrite dict_keys_set, Hcol; [by rewrite <- app_assoc|].
    by rewrite <- app_assoc.
Qed.

Lemma dict_fold_get {V : Type} (f : string → V) (l : list string)
    (d : list (string * V)) (col : string) :
  dict_get col (fold_left (λ d col, dict_set col (f col) d) l d)
  = if bool_decide (col ∈ l) then Some (f col) else dict_get col d.
Proof.
  revert d. induction l as [|x l IH]; intros d; [done|].
  simpl fold_left. rewrite IH.
  destruct (bool_decide (col ∈ l)) eqn:El.
  - apply bool_decide_eq_true in El.
    rewrite bool_decide_eq_true_2; [done|by right].
  - apply bool_decide_eq_false in El.
    destruct (decide (x = col)) as [->|Hne].
    + rewrite dict_get_set_eq, bool_decide_eq_true_2; [done|left].
    + rewrite dict_get_set_ne by done.
      rewrite bool_decide_eq_false_2; [done|].
      intros Hin. apply elem_of_cons in Hin as [?|?]; congruence.
Qed.

(** ** The scoring agent *)

Section scoring_facts.
Context `{Runtime}.

Lemma severity_weight_pos (c : CheckResult) : (1 <= severity_weight_of c)%Q.
Proof.
  unfold severity_weight_of, ScoringAgent.severity_weights.
  rewrite !lookup_insert, lookup_singleton.
  repeat case_decide; simpl; lra.
Qed.

Lemma base_weight_ge (dim : string) :
  (2 <= default 2 (ScoringAgent.base_weights !! dim))%Q.
Proof.
  unfold ScoringAgent.base_weights.
  rewrite !lookup_insert, lookup_singleton.
  repeat case_decide; simpl; lra.
Qed.

Lemma dimension_weight_ge (dim : string) (profile : Profile) :
  (2 <= ScoringAgent._get_dimension_weight dim profile)%Q.
Proof.
  unfold ScoringAgent._get_dimension_weight.
  pose proof (base_weight_ge dim) as Hb.
  apply (py_round_ge _ 2 2).
  change (inject_Z 2) with 2%Q.
  destruct (10 <? ScoringAgent.critical_count profile)%Z; lra.
Qed.

Lemma foldlM_add_impacted_Ok (infos : list value) (impacted : list value) :
  forallb absorbable infos = true →
  ∃ impacted', foldlM ScoringAgent.add_impacted impacted infos = Ok impacted'.
Proof.
  revert impacted. induction infos as [|v infos IH]; intros impacted Hall.
  - by eexists.
  - simpl in Hall. apply andb_true_iff in Hall as [Hv Hall]. simpl.
    assert (∃ i', ScoringAgent.add_impacted impacted v = Ok i') as [i' ->].
    { destruct v; simpl; try by eexists.
      simpl in Hv. destruct (dict_get "column" d); [|by eexists].
      unfold set_add. rewrite Hv. by eexists. }
    simpl. by apply IH.
Qed.

(** What one turn of the loop does to the two sums. *)
Lemma score_step_Ok (a a' : ScoringAgent.acc) (c : CheckResult) :
  ScoringAgent.score_step a c = Ok a' →
  ∃ e, ScoringAgent._extract_error_rate c = Ok e ∧
       ScoringAgent.total_error_weight a'
       = (ScoringAgent.total_error_weight a + e * severity_weight_of c)%Q ∧
       ScoringAgent.total_weight a'
       = (ScoringAgent.total_weight a + severity_weight_of c)%Q.
Proof.
  unfold ScoringAgent.score_step. intros Hs.
  apply bind_Ok in Hs as (e & He & Hs).
  apply bind_Ok in Hs as (imp & _ & Hs).
  injection Hs as <-. exists e. by split.
Qed.

Lemma score_step_total (a : ScoringAgent.acc) (c : CheckResult) :
  scorable c = true → ∃ a', ScoringAgent.score_step a c = Ok a'.
Proof.
  unfold scorable, ScoringAgent.score_step. intros Hs.
  destruct (ScoringAgent._extract_error_rate c) as [e|]; [simpl|done].
  destruct (dict_get "failing_columns" (metrics c)) as [cols|]; simpl.
  - destruct (py_iter cols) as [infos|]; [simpl|done].
    destruct (foldlM_add_impacted_Ok infos (ScoringAgent.acc_impacted_columns a) Hs)
      as [i' ->].
    simpl. by eexists.
  - by eexists.
Qed.

Lemma score_fold_total (cs : list CheckResult) (a : ScoringAgent.acc) :
  Forall (λ c, scorable c = true) cs →
  ∃ a', foldlM ScoringAgent.score_step a cs = Ok a'.
Proof.
  intros Hall. revert a. induction Hall as [|c cs Hc _ IH]; intros a.
  - by eexists.
  - simpl. destruct (score_step_total a c Hc) as [a1 ->]. simpl. apply IH.
Qed.

(** The sum of the weights grows with every check, and the weighted sum of
    error rates stays non-negative when every rate is. *)
Lemma score_fold_sums (cs : list CheckResult) (a a' : ScoringAgent.acc) :
  foldlM ScoringAgent.score_step a cs = Ok a' →
  (ScoringAgent.total_weight a + Qnat (length cs)
   <= ScoringAgent.total_weight a')%Q ∧
  (Forall (λ c, rate_nonneg c = true) cs →
   (0 <= ScoringAgent.total_error_weight a)%Q →
   (0 <= ScoringAgent.total_error_weight a')%Q).
Proof.
  revert a. induction cs as [|c cs IH]; intros a Hf.
  - injection Hf as <-. change (Qnat (length [])) with 0%Q.
    split; [lra|done].
  - simpl in Hf. apply bind_Ok in Hf as (a1 & Hstep & Hf).
    apply score_step_Ok in Hstep as (e & He & Htew & Htw).
    destruct (IH a1 Hf) as [IHw IHe].
    pose proof (severity_weight_pos c) as Hw.
    split.
    + rewrite Htw in IHw.
      assert (Hlen : (Qnat (length (c :: cs)) == 1 + Qnat (length cs))%Q).
      { unfold Qnat. simpl length. rewrite Nat2Z.inj_succ, <- Z.add_1_l.
        by rewrite inject_Z_plus. }
      rewrite Hlen. lra.
    + intros Hall Ha. apply Forall_cons in Hall as [Hc Hall].
      apply IHe; [done|]. rewrite Htew.
      unfold rate_nonneg in Hc. rewrite He in Hc.
      apply Qle_bool_iff in Hc. nra.
Qed.

Lemma dimension_score_total (dim : string) (cs : list CheckResult)
    (profile : Profile) :
  Forall (λ c, scorable c = true) cs →
  ∃ ds, ScoringAgent._compute_dimension_score dim cs profile = Ok ds.
Proof.
  intros Hall. unfold ScoringAgent._compute_dimension_score.
  destruct cs as [|c cs]; [by eexists|].
  destruct (score_fold_total (c :: cs)
              {| ScoringAgent.total_error_weight := 0;
                 ScoringAgent.total_weight := 0;
                 ScoringAgent.acc_failing_checks := [];
                 ScoringAgent.acc_metrics_summary := [];
                 ScoringAgent.acc_impacted_columns := [] |} Hall) as [a ->].
  simpl. by eexists.
Qed.

(** The two shapes of a dimension score: the fixed answer for no checks,
    and otherwise the rounded, clamped score with the dimension's weight. *)
Lemma dimension_score_Ok (dim : string) (cs : list CheckResult)
    (profile : Profile) (ds : DimensionScore) :
  ScoringAgent._compute_dimension_score dim cs profile = Ok ds →
  (cs = [] ∧ score ds = 100%Q ∧ weight ds = 1%Q) ∨
  (cs ≠ [] ∧
   weight ds = ScoringAgent._get_dimension_weight dim profile ∧
   ∃ a, foldlM ScoringAgent.score_step
          {| ScoringAgent.total_error_weight := 0;
             ScoringAgent.total_weight := 0;
             ScoringAgent.acc_failing_checks := [];
             ScoringAgent.acc_metrics_summary := [];
             ScoringAgent.acc_impacted_columns := [] |} cs = Ok a ∧
        score ds
        = py_round
            (py_max0
               (100 * (1 - (if Qltb 0 (ScoringAgent.total_weight a)
                            then ScoringAgent.total_error_weight a /
                                 ScoringAgent.total_weight a
                            else 0)))) 2).
Proof.
  unfold ScoringAgent._compute_dimension_score. intros Hds.
  destruct cs as [|c cs].
  - left. injection Hds as <-. by split.
  - right. split; [done|].
    apply bind_Ok in Hds as (a & Hfold & Hds). injection Hds as <-.
    split; [done|]. by exists a.
Qed.

Lemma dimension_score_weight_pos (dim : string) (cs : list CheckResult)
    (profile : Profile) (ds : DimensionScore) :
  ScoringAgent._compute_dimension_score dim cs profile = Ok ds →
  (1 <= weight ds)%Q.
Proof.
  intros Hds. apply dimension_score_Ok in Hds as [(_ & _ & ->)|(_ & -> & _)].
  - lra.
  - pose proof (dimension_weight_ge dim profile). lra.
Qed.

Lemma dimension_score_nonneg (dim : string) (cs : list CheckResult)
    (profile : Profile) (ds : DimensionScore) :
  ScoringAgent._compute_dimension_score dim cs profile = Ok ds →
  (0 <= score ds)%Q.
Proof.
  intros Hds.
  apply dimension_score_Ok in Hds as [(_ & -> & _)|(_ & _ & a & _ & ->)].
  - lra.
  - apply (py_round_ge _ 2 0). apply py_max0_nonneg.
Qed.

Lemma dimension_score_le_100 (dim : string) (cs : list CheckResult)
    (profile : Profile) (ds : DimensionScore) :
  ScoringAgent._compute_dimension_score dim cs profile = Ok ds →
  Forall (λ c, rate_nonneg c = true) cs →
  (score ds <= 100)%Q.
Proof.
  intros Hds Hall.
  apply dimension_score_Ok in Hds as [(_ & -> & _)|(Hne & _ & a & Hfold & ->)].
  - lra.
  - apply (py_round_le _ 2 100). change (inject_Z 100) with 100%Q.
    apply py_max0_le; [lra|].
    destruct (score_fold_sums cs _ a Hfold) as [Hw He].
    simpl in Hw, He. specialize (He Hall ltac:(lra)).
    destruct (Qltb 0 (ScoringAgent.total_weight a)) eqn:E; [|lra].
    apply Qltb_lt in E.
    assert (0 <= ScoringAgent.total_error_weight a /
                 ScoringAgent.total_weight a)%Q.
    { apply Qle_shift_div_l; [done|]. lra. }
    lra.
Qed.

(** The grouping loop files every check under its dimension and keeps the
    order of the check results. *)
Lemma group_check_lookup (cs : list CheckResult)
    (m : gmap string (list CheckResult)) (dim : string) :
  default [] (fold_left ScoringAgent.group_check cs m !! dim)
  = default [] (m !! dim) ++ checks_of dim cs.
Proof.
  revert m. induction cs as [|c cs IH]; intros m; simpl.
  - by rewrite app_nil_r.
  - rewrite IH. unfold ScoringAgent.group_check at 1. fold (dimension_of c).
    destruct (String.eqb (dimension_of c) dim) eqn:E.
    + apply String.eqb_eq in E. rewrite E, lookup_insert_eq. simpl.
      by rewrite <- app_assoc.
    + apply String.eqb_neq in E. by rewrite lookup_insert_ne.
Qed.

Lemma checks_by_dimension_get (cs : list CheckResult) (dim : string) :
  default [] (fold_left ScoringAgent.group_check cs ∅ !! dim)
  = checks_of dim cs.
Proof. by rewrite group_check_lookup, lookup_empty. Qed.

Lemma fold_Qplus_shift (l : list Q) (a : Q) :
  (fold_left Qplus l a == a + Qsum l)%Q.
Proof.
  unfold Qsum. revert a. induction l as [|x l IH]; intros a; simpl; [lra|].
  rewrite (IH (a + x)%Q), (IH (0 + x)%Q). lra.
Qed.

Lemma Qsum_cons (x : Q) (l : list Q) : (Qsum (x :: l) == x + Qsum l)%Q.
Proof. unfold Qsum at 1. simpl. rewrite fold_Qplus_shift. lra. Qed.

(** The loop over the selected dimensions keeps the two dictionaries in
    step: same keys, each once, every score the one computed for its
    dimension, every weight the one of its score. *)
Lemma score_dimension_fold (byd : gmap string (list CheckResult))
    (profile : Profile) (sel : list string)
    (st st' : list (string * DimensionScore) * list (string * Q)) :
  foldlM (ScoringAgent.score_dimension byd profile) st sel = Ok st' →
  NoDup (dict_keys st.1) →
  st.2 = (λ e, (e.1, weight e.2)) <$> st.1 →
  (∀ d ds, dict_get d st.1 = Some ds →
     ScoringAgent._compute_dimension_score d (default [] (byd !! d)) profile
     = Ok ds) →
  NoDup (dict_keys st'.1) ∧
  st'.2 = (λ e, (e.1, weight e.2)) <$> st'.1 ∧
  (∀ d ds, dict_get d st'.1 = Some ds →
     ScoringAgent._compute_dimension_score d (default [] (byd !! d)) profile
     = Ok ds) ∧
  (∀ d, d ∈ dict_keys st'.1 ↔ d ∈ dict_keys st.1 ∨ d ∈ sel).
Proof.
  revert st. induction sel as [|dim sel IH]; intros st Hf Hnd Hw Hs.
  - injection Hf as <-. split_and!; try done.
    intros d. split; [by left|]. intros [?|Hin]; [done|].
    by apply elem_of_nil in Hin.
  - simpl in Hf. apply bind_Ok in Hf as (st1 & Hstep & Hf).
    unfold ScoringAgent.score_dimension in Hstep.
    apply bind_Ok in Hstep as (ds & Hds & Hstep). injection Hstep as <-.
    apply IH in Hf as (Hnd' & Hw' & Hs' & Hk'); simpl.
    + split_and!; try done. intros d. rewrite Hk'. simpl.
      rewrite dict_keys_set. rewrite elem_of_cons.
      destruct (dict_has dim st.1) eqn:E.
      * apply dict_has_keys in E. split; [|intros [?|[->|?]]; auto].
        intros [?|?]; auto.
      * rewrite elem_of_app, list_elem_of_singleton. tauto.
    + by apply dict_set_NoDup.
    + rewrite Hw. apply dict_set_fmap.
    + intros d ds'. destruct (decide (dim = d)) as [->|Hne].
      * rewrite dict_get_set_eq. by intros [= <-].
      * rewrite dict_get_set_ne by done. apply Hs.
Qed.

Lemma score_dimension_fold_total (byd : gmap string (list CheckResult))
    (profile : Profile) (sel : list string)
    (st : list (string * DimensionScore) * list (string * Q)) :
  (∀ d, ∃ ds,
     ScoringAgent._compute_dimension_score d (default [] (byd !! d)) profile
     = Ok ds) →
  ∃ st', foldlM (ScoringAgent.score_dimension byd profile) st sel = Ok st'.
Proof.
  intros Htot. revert st. induction sel as [|dim sel IH]; intros st.
  - by eexists.
  - simpl. unfold ScoringAgent.score_dimension at 2.
    destruct (Htot dim) as [ds ->]. simpl. apply IH.
Qed.

(** The two sums the composite loop accumulates. *)
Lemma composite_fold (weights : list (string * Q))
    (entries : list (string * DimensionScore)) (x y : Q) :
  Forall (λ e, dict_get e.1 weights = Some (weight e.2)) entries →
  let r :=
    fold_left
      (λ '(tws, tw) '(dim, score_data),
         let w := default 1%Q (dict_get dim weights) in
         ((tws + score score_data * w)%Q, (tw + w)%Q))
      entries (x, y) in
  (r.1 == x + weighted_sum entries)%Q ∧ (r.2 == y + weight_sum entries)%Q.
Proof.
  intros Hall. revert x y.
  induction Hall as [|[d ds] entries Hd _ IH]; intros x y; simpl.
  - unfold weighted_sum, weight_sum, Qsum. simpl. split; lra.
  - simpl in Hd. rewrite Hd. simpl.
    destruct (IH (x + score ds * weight ds)%Q (y + weight ds)%Q) as [H1 H2].
    split.
    + rewrite H1. unfold weighted_sum. rewrite fmap_cons, Qsum_cons.
      simpl. lra.
    + rewrite H2. unfold weight_sum. rewrite fmap_cons, Qsum_cons.
      simpl. lra.
Qed.

Lemma weight_sum_ge (entries : list (string * DimensionScore)) :
  Forall (λ e, (1 <= weight e.2)%Q) entries →
  (Qnat (length entries) <= weight_sum entries)%Q.
Proof.
  unfold weight_sum. induction 1 as [|e entries He _ IH].
  - unfold Qsum. simpl. change (Qnat 0) with 0%Q. lra.
  - rewrite fmap_cons, Qsum_cons.
    assert (Hlen : (Qnat (length (e :: entries)) == 1 + Qnat (length entries))%Q).
    { unfold Qnat. simpl length. rewrite Nat2Z.inj_succ, <- Z.add_1_l.
      by rewrite inject_Z_plus. }
    rewrite Hlen. lra.
Qed.

Lemma weighted_sum_bounds (entries : list (string * DimensionScore)) (b : Q) :
  Forall (λ e, (1 <= weight e.2)%Q) entries →
  Forall (λ e, (0 <= score e.2 <= b)%Q) entries →
  (0 <= weighted_sum entries <= b * weight_sum entries)%Q.
Proof.
  unfold weighted_sum, weight_sum. intros Hw Hs.
  induction entries as [|e entries IH].
  - unfold Qsum. simpl. lra.
  - apply Forall_cons in Hw as [Hw1 Hw]. apply Forall_cons in Hs as [Hs1 Hs].
    rewrite !fmap_cons, !Qsum_cons. specialize (IH Hw Hs). nra.
Qed.



(** What [compute_scores] returns, when it returns. *)
Lemma compute_scores_Ok (cs : list CheckResult) (profile : Profile)
    (sel : list string) (r : ScoringResult) :
  ScoringAgent.compute_scores cs profile sel = Ok r →
  NoDup (dict_keys (dimension_scores r)) ∧
  dimension_weights r = (λ e, (e.1, weight e.2)) <$> dimension_scores r ∧
  (∀ d, d ∈ dict_keys (dimension_scores r) ↔ d ∈ sel) ∧
  (∀ d ds, dict_get d (dimension_scores r) = Some ds →
     ScoringAgent._compute_dimension_score d (checks_of d cs) profile = Ok ds) ∧
  composite_dqs r
  = ScoringAgent._compute_composite_score (dimension_scores r)
      (dimension_weights r).
Proof.
  unfold ScoringAgent.compute_scores. intros Hr.
  apply bind_Ok in Hr as (st & Hfold & Hr). injection Hr as <-. simpl.
  apply score_dimension_fold in Hfold as (Hnd & Hw & Hs & Hk); simpl.
  - split_and!; try done.
    + intros d. rewrite Hk. split; [intros [Hin|?]; [|done]|by right].
      by apply elem_of_nil in Hin.
    + intros d ds Hd. rewrite <- checks_by_dimension_get. by apply Hs.
  - apply NoDup_nil_2.
  - done.
  - intros d ds. done.
Qed.

Lemma compute_scores_total (cs : list CheckResult) (profile : Profile)
    (sel : list string) :
  Forall (λ c, scorable c = true) cs →
  ∃ r, ScoringAgent.compute_scores cs profile sel = Ok r.
Proof.
  intros Hall. unfold ScoringAgent.compute_scores.
  destruct (score_dimension_fold_total
              (fold_left ScoringAgent.group_check cs ∅) profile sel ([], []))
    as [st ->].
  - intros d. rewrite checks_by_dimension_get.
    apply dimension_score_total. unfold checks_of.
    apply Forall_forall. intros c Hc. apply list_elem_of_In, filter_In in Hc as [Hc _].
    rewrite Forall_forall in Hall. apply Hall. by apply list_elem_of_In.
  - simpl. by eexists.
Qed.

Lemma scores_weights_agree (r : ScoringResult) :
  NoDup (dict_keys (dimension_scores r)) →
  dimension_weights r = (λ e, (e.1, weight e.2)) <$> dimension_scores r →
  Forall (λ e, dict_get e.1 (dimension_weights r) = Some (weight e.2))
    (dimension_scores r).
Proof.
  intros Hnd Hw. apply Forall_forall. intros [d ds] Hin. simpl.
  rewrite Hw, dict_get_fmap. by rewrite (dict_get_elem_of d ds).
Qed.

(** The composite is the weighted mean of the stored scores, rounded. *)
Lemma composite_value (entries : list (string * DimensionScore))
    (weights : list (string * Q)) :
  Forall (λ e, dict_get e.1 weights = Some (weight e.2)) entries →
  Forall (λ e, (1 <= weight e.2)%Q) entries →
  ScoringAgent._compute_composite_score entries weights
  = py_round (weighted_mean entries) 2.
Proof.
  intros Hagree Hpos. unfold ScoringAgent._compute_composite_score.
  pose proof (composite_fold weights entries 0 0 Hagree) as Hfold.
  simpl in Hfold.
  destruct (fold_left _ entries (0%Q, 0%Q)) as [tws tw]. simpl in Hfold.
  destruct Hfold as [H1 H2]. apply py_round_proper. unfold weighted_mean.
  pose proof (weight_sum_ge entries Hpos) as Hge.
  destruct (Qltb 0 tw) eqn:E.
  - rewrite H1, H2. by rewrite !Qplus_0_l.
  - apply Qltb_ge in E. destruct entries as [|e entries].
    + reflexivity.
    + exfalso.
      assert (Hlen : (1 <= Qnat (length (e :: entries)))%Q).
      { unfold Qnat. change 1%Q with (inject_Z 1). rewrite <- Zle_Qle.
        simpl length. lia. }
      lra.
Qed.
End scoring_facts.

Section scoring_claims.
Context `{Runtime}.









End scoring_claims.

(** ** The remediation agent *)

Section sort_facts.
Context {A : Type} (key : A → Q).

Lemma insert_desc_Permutation (x : A) (l : list A) :
  Permutation (insert_desc key x l) (x :: l).
Proof.
  induction l as [|y l IH]; simpl; [done|].
  destruct (Qltb (key x) (key y)); [|done].
  rewrite IH. apply perm_swap.
Qed.

Lemma sort_desc_Permutation (l : list A) : Permutation (sort_desc key l) l.
Proof.
  unfold sort_desc. induction l as [|x l IH]; simpl; [done|].
  rewrite insert_desc_Permutation. by constructor.
Qed.

Lemma insert_desc_sorted (x : A) (l : list A) :
  StronglySorted (λ a b, (key b <= key a)%Q) l →
  StronglySorted (λ a b, (key b <= key a)%Q) (insert_desc key x l).
Proof.
  induction 1 as [|y l Hs IH Hy]; simpl.
  - repeat constructor.
  - destruct (Qltb (key x) (key y)) eqn:E.
    + apply Qltb_lt in E. constructor; [done|].
      rewrite (insert_desc_Permutation x l). constructor; [lra|done].
    + apply Qltb_ge in E. constructor; [by constructor|].
      constructor; [done|].
      eapply Forall_impl; [exact Hy|]. simpl. intros z Hz. lra.
Qed.

Lemma sort_desc_sorted (l : list A) :
  StronglySorted (λ a b, (key b <= key a)%Q) (sort_desc key l).
Proof.
  unfold sort_desc. induction l as [|x l IH]; simpl; [constructor|].
  by apply insert_desc_sorted.
Qed.

(** Insertion never moves an element past one with the same key. *)
Lemma insert_desc_filter (p : Q) (x : A) (l : list A) :
  List.filter (λ a, Qeq_bool (key a) p) (insert_desc key x l)
  = List.filter (λ a, Qeq_bool (key a) p) (x :: l).
Proof.
  induction l as [|y l IH]; [done|].
  simpl insert_desc. destruct (Qltb (key x) (key y)) eqn:E; [|done].
  apply Qltb_lt in E. simpl. simpl in IH. rewrite IH.
  destruct (Qeq_bool (key x) p) eqn:Ex; [|done].
  destruct (Qeq_bool (key y) p) eqn:Ey; [|done].
  apply Qeq_bool_iff in Ex, Ey. lra.
Qed.

Lemma sort_desc_stable (p : Q) (l : list A) :
  List.filter (λ a, Qeq_bool (key a) p) (sort_desc key l)
  = List.filter (λ a, Qeq_bool (key a) p) l.
Proof.
  unfold sort_desc. induction l as [|x l IH]; [done|].
  simpl foldr. rewrite insert_desc_filter. simpl. by rewrite IH.
Qed.
End sort_facts.

Section remediation_claims.
Context `{Runtime}.

(** The loop of [_rank_issues] makes one issue per failing check, in the
    order of the check results. *)
Lemma collect_issues_mapM (cs : list CheckResult) (sr : ScoringResult)
    (acc : list Issue) :
  foldlM
    (λ issues c,
       if negb (default true (passed c))
       then issue ← RemediationAgent.make_issue sr c; mret (issues ++ [issue])
       else Ok issues)
    acc cs
  = mapM (RemediationAgent.make_issue sr) (List.filter failing cs)
    ≫= λ l, Ok (acc ++ l).
Proof.
  revert acc. induction cs as [|c cs IH]; intros acc; simpl.
  - by rewrite app_nil_r.
  - unfold failing at 1. destruct (negb (default true (passed c))); simpl.
    + destruct (RemediationAgent.make_issue sr c) as [i|]; simpl; [|done].
      rewrite IH.
      destruct (mapM _ (List.filter failing cs)) as [l|]; simpl; [|done].
      by rewrite <- app_assoc.
    + apply IH.
Qed.

(** C9.  On a check result that did not pass, the frequency the
    remediation agent reads is the error rate the scoring agent reads:
    both the same number, or both the same exception. *)
Theorem frequency_is_error_rate (c : CheckResult) :
  passed c = Some false →
  RemediationAgent._extract_frequency c = ScoringAgent._extract_error_rate c.
Proof.
  intros Hp.
  unfold RemediationAgent._extract_frequency, ScoringAgent._extract_error_rate,
    ScoringAgent.rate_fields, ScoringAgent.match_fields.
  rewrite Hp.
  repeat match goal with
         | |- context [first_present ?l (metrics c)] =>
             destruct (first_present l (metrics c))
         end; done.
Qed.

(** C6.  When every failing check yields an issue and the tickets of the
    first five can be written, [generate_remediation] returns, and its
    headline list is the first ten (or all, if fewer) of a ranking that
    holds exactly the issues of the failing checks, in non-increasing order
    of priority score, issues of equal priority score standing in the order
    of the check results they come from. *)
Theorem headline_issues_ranked (cs : list CheckResult) (sr : ScoringResult)
    (summaries : list value) (found : list Issue) (tickets : list Ticket) :
  mapM (RemediationAgent.make_issue sr) (List.filter failing cs) = Ok found →
  RemediationAgent._generate_tickets
    (take 5 (sort_desc priority_score found)) = Ok tickets →
  ∃ r ranked,
    RemediationAgent.generate_remediation cs sr summaries = Ok r ∧
    top_issues r = take 10 ranked ∧
    Permutation ranked found ∧
    StronglySorted (λ a b, (priority_score b <= priority_score a)%Q) ranked ∧
    ∀ p, List.filter (λ i, Qeq_bool (priority_score i) p) ranked
         = List.filter (λ i, Qeq_bool (priority_score i) p) found.
Proof.
  intros Hfound Htickets.
  exists {| top_issues := take 10 (sort_desc priority_score found);
            remediation_plan :=
              RemediationAgent._generate_plan (sort_desc priority_score found);
            ticket_payloads := tickets |},
         (sort_desc priority_score found).
  split_and!.
  - unfold RemediationAgent.generate_remediation, RemediationAgent._rank_issues,
      RemediationAgent.collect_issues.
    rewrite collect_issues_mapM, Hfound. simpl. by rewrite Htickets.
  - done.
  - apply sort_desc_Permutation.
  - apply sort_desc_sorted.
  - intros p. apply sort_desc_stable.
Qed.
End remediation_claims.

(** ** The dimension selector *)

Lemma nonempty_length {A : Type} (l : list A) :
  DimensionSelectorAgent.nonempty l = (0 <? length l)%nat.
Proof. by destruct l. Qed.

Lemma has_ref_available (has_references : gmap string bool) (name : string) :
  DimensionSelectorAgent.has_ref has_references name
  = available has_references name.
Proof.
  unfold DimensionSelectorAgent.has_ref, available.
  destruct (has_references !! name) as [[]|]; done.
Qed.

Lemma existsb_orb {A : Type} (f g : A → bool) (l : list A) :
  existsb (λ x, f x || g x) l = existsb f l || existsb g l.
Proof.
  induction l as [|x l IH]; simpl; [done|]. rewrite IH.
  destruct (f x), (g x), (existsb f l), (existsb g l); done.
Qed.

Lemma existsb_pointwise {A : Type} (f g : A → bool) (l : list A) :
  (∀ x, f x = g x) → existsb f l = existsb g l.
Proof.
  intros Hfg. induction l as [|x l IH]; simpl; [done|]. by rewrite Hfg, IH.
Qed.

Lemma some_column_contains_one (word : string) (profile : Profile) :
  some_column_contains [word] profile
  = DimensionSelectorAgent.any_column word profile.
Proof.
  unfold some_column_contains, DimensionSelectorAgent.any_column, any_in.
  apply existsb_pointwise. intros col. simpl. by rewrite orb_false_r.
Qed.

Lemma some_column_contains_four (a b c d : string) (profile : Profile) :
  some_column_contains [a; b; c; d] profile
  = DimensionSelectorAgent.any_column a profile ||
    DimensionSelectorAgent.any_column b profile ||
    DimensionSelectorAgent.any_column c profile ||
    DimensionSelectorAgent.any_column d profile.
Proof.
  unfold some_column_contains, DimensionSelectorAgent.any_column, any_in.
  rewrite <- !existsb_orb. apply existsb_pointwise. intros col. simpl.
  by rewrite orb_false_r, !orb_assoc.
Qed.

Lemma select_if_selected (c : bool) (d : string) (rs : list string)
    (sd : SelectedDimensions) :
  selected_dimensions (DimensionSelectorAgent.select_if c d rs sd)
  = selected_dimensions sd ++ (if c then [d] else []).
Proof. destruct c; simpl; [done|by rewrite app_nil_r]. Qed.

Lemma select_if_keys (c : bool) (d : string) (rs : list string)
    (sd : SelectedDimensions) :
  dict_keys (rationale sd) = selected_dimensions sd →
  d ∉ selected_dimensions sd →
  dict_keys (rationale (DimensionSelectorAgent.select_if c d rs sd))
  = selected_dimensions (DimensionSelectorAgent.select_if c d rs sd).
Proof.
  intros Hk Hd. destruct c; simpl; [|done].
  rewrite dict_keys_set, Hk.
  destruct (dict_has d (rationale sd)) eqn:E; [|done].
  apply dict_has_keys in E. rewrite Hk in E. done.
Qed.

Lemma filter_cons_app {A : Type} (f : A → bool) (x : A) (l : list A) :
  List.filter f (x :: l) = (if f x then [x] else []) ++ List.filter f l.
Proof. simpl. by destruct (f x). Qed.

Lemma not_in_optional (c : bool) (d d' : string) :
  d ≠ d' → d ∉ (if c then [d'] else []).
Proof.
  intros Hne. destruct c; [|apply not_elem_of_nil].
  by apply not_elem_of_cons; split; [|apply not_elem_of_nil].
Qed.

(** C8.  The selector returns exactly the dimensions whose predicate of the
    specification's table holds, in the table's order; completeness is
    always there, and first; and the rationale has an entry for each
    returned dimension and for no other. *)
Theorem selector_follows_table (profile : Profile)
    (has_references : gmap string bool) :
  selected_dimensions
    (DimensionSelectorAgent.select_dimensions profile has_references)
  = List.filter (spec_included profile has_references) all_dimensions ∧
  head (selected_dimensions
          (DimensionSelectorAgent.select_dimensions profile has_references))
  = Some "completeness" ∧
  dict_keys (rationale
               (DimensionSelectorAgent.select_dimensions profile has_references))
  = selected_dimensions
      (DimensionSelectorAgent.select_dimensions profile has_references).
Proof.
  unfold DimensionSelectorAgent.select_dimensions.
  split_and!.
  - rewrite !select_if_selected. unfold all_dimensions.
    rewrite !filter_cons_app.
    change (spec_included profile has_references "completeness") with true.
    change (spec_included profile has_references "uniqueness")
      with (0 <? length (id_columns (inferred_types profile)))%nat.
    change (spec_included profile has_references "validity")
      with ((0 <? length (enum_columns (inferred_types profile)))%nat ||
            some_column_contains [ "currency"; "country"; "mcc"; "amount" ]
              profile).
    change (spec_included profile has_references "consistency")
      with (some_column_contains [ "status" ] profile ||
            (1 <? length (timestamp_columns (inferred_types profile)))%nat).
    change (spec_included profile has_references "timeliness")
      with (0 <? length (timestamp_columns (inferred_types profile)))%nat.
    change (spec_included profile has_references "integrity")
      with (available has_references "merchants" ||
            available has_references "customers").
    change (spec_included profile has_references "reconciliation")
      with (available has_references "settlement_ledger" ||
            available has_references "bin_map").
    rewrite some_column_contains_one, some_column_contains_four.
    rewrite <- !nonempty_length, <- !has_ref_available, !orb_assoc.
    simpl. by rewrite <- ?app_assoc, ?app_nil_r.
  - rewrite !select_if_selected. by simpl.
  - repeat (apply select_if_keys;
            [|rewrite ?select_if_selected; simpl;
              repeat (rewrite not_elem_of_cons || rewrite not_elem_of_app);
              split_and?;
              first [done | apply not_elem_of_nil | by apply not_in_optional]]).
    done.
Qed.

(** ** The check catalog *)



Lemma Qnat_pos (n : nat) : (0 < n)%nat → (0 < Qnat n)%Q.
Proof.
  intros Hn. unfold Qnat. change 0%Q with (inject_Z 0).
  rewrite <- Zlt_Qlt. lia.
Qed.

Lemma count_if_elem {A : Type} (p : A → bool) (x : A) (l : list A) :
  x ∈ l → p x = true → (1 <= count_if p l)%nat.
Proof.
  unfold count_if. intros Hin Hp.
  assert (Hx : In x (List.filter p l)).
  { apply filter_In. split; [by apply list_elem_of_In|done]. }
  destruct (List.filter p l); [done|simpl; lia].
Qed.

Lemma count_if_zero {A : Type} (p : A → bool) (l : list A) :
  count_if p l = 0%nat ↔ ∀ x, x ∈ l → p x = false.
Proof.
  unfold count_if. induction l as [|x l IH]; simpl.
  - split; [|done]. intros _ x Hx. by apply elem_of_nil in Hx.
  - destruct (p x) eqn:E; simpl.
    + split; [done|]. intros Hall. specialize (Hall x ltac:(left)). congruence.
    + rewrite IH. split.
      * intros Hall y Hy. apply elem_of_cons in Hy as [->|Hy]; [done|by apply Hall].
      * intros Hall y Hy. apply Hall. by right.
Qed.


Lemma columns_where_elem (p : string → bool) (df : DataFrame) (col : string) :
  col ∈ columns_where p df ↔ col ∈ df_columns df ∧ p (str_lower col) = true.
Proof.
  unfold columns_where. rewrite !list_elem_of_In, filter_In. done.
Qed.

Lemma has_column_elem (df : DataFrame) (col : string) :
  has_column col df = true ↔ col ∈ df_columns df.
Proof. apply dict_has_keys. Qed.

Section validity_claims.
Context `{Runtime}.

(** C7, amended.  Each of the currency, country and MCC checks either
    finds none of its columns and answers that it does not apply, or
    reports an overall invalid rate and grades it: the currency check
    "high" above 0.01, "medium" above 0 and "low" at 0; the country and MCC
    checks "medium" above 0.01 and "low" otherwise. *)
Theorem validity_severity_ladders (df : DataFrame)
    (mcc_reference : option DataFrame) :
  (validity.check_currency_validity df
   = not_applicable "validity_currency" "No currency columns found" ∨
   ∃ r, dict_get "overall_invalid_rate"
          (metrics (validity.check_currency_validity df)) = Some (VFloat r) ∧
        severity (validity.check_currency_validity df)
        = Some (currency_severity r)) ∧
  (validity.check_country_validity df
   = not_applicable "validity_country" "No country columns found" ∨
   ∃ r, dict_get "overall_invalid_rate"
          (metrics (validity.check_country_validity df)) = Some (VFloat r) ∧
        severity (validity.check_country_validity df)
        = Some (code_severity r)) ∧
  (validity.check_mcc_validity df mcc_reference
   = not_applicable "validity_mcc" "No MCC columns found" ∨
   ∃ r, dict_get "overall_invalid_rate"
          (metrics (validity.check_mcc_validity df mcc_reference))
        = Some (VFloat r) ∧
        severity (validity.check_mcc_validity df mcc_reference)
        = Some (code_severity r)).
Proof.
  unfold validity.check_currency_validity, validity.check_country_validity,
    validity.check_mcc_validity.
  split_and!.
  - destruct (columns_where (str_in "currency") df); [by left|right].
    eexists. split; reflexivity.
  - destruct (columns_where (str_in "country") df); [by left|right].
    eexists. split; reflexivity.
  - destruct (columns_where (str_in "mcc") df); [by left|right].
    eexists. split; reflexivity.
Qed.




Lemma count_if_fmap {A B : Type} (p : B → bool) (f : A → B) (l : list A) :
  count_if p (f <$> l) = count_if (λ x, p (f x)) l.
Proof.
  unfold count_if. induction l as [|x l IH]; [done|].
  rewrite fmap_cons. simpl. destruct (p (f x)); simpl; by rewrite IH.
Qed.








End validity_claims.

Section catalog_claims.
Context `{Runtime}.






(** A foreign-key check that found the reference's id column passes
    exactly when every cell of the checked column is referenced. *)
Lemma reference_check_against (df : DataFrame) (id table col : string)
    (ref_df : DataFrame) (id_col : string) :
  integrity.ref_id_col ref_df = Ok id_col →
  ∃ c, integrity.reference_check df id table col ref_df = Ok c ∧
       check_id c = Some id ∧
       dict_get "message" (metrics c) = None ∧
       (passed c = Some true ↔
        Forall (referenced (df_col ref_df id_col)) (df_col df col)).
Proof.
  intros Hid. unfold integrity.reference_check. rewrite Hid.
  eexists. split; [reflexivity|]. cbn [check_id passed metrics mk_check].
  split_and!; [done|done|].
  set (valid := str_set (df_col ref_df id_col)).
  assert (Hvalid : ∀ v, isin valid v = true ↔ v ∈ astype_str <$> df_col ref_df id_col).
  { intros v. unfold isin, valid, str_set. rewrite bool_decide_eq_true.
    by rewrite elem_of_list_to_set. }
  assert (Hmask : ∀ v, negb (isin valid (astype_str v)) &&
                       negb (isna (astype_str v)) = false ↔
                       referenced (df_col ref_df id_col) v).
  { intros v. unfold referenced. rewrite <- Hvalid.
    destruct (isin valid (astype_str v)); destruct (astype_str v); simpl;
      intuition discriminate. }
  unfold astype_str_series. rewrite count_if_fmap. rewrite Forall_forall.
  split.
  - intros [= Hz]. apply Nat.eqb_eq in Hz.
    intros v Hv. apply Hmask. by apply (proj1 (count_if_zero _ _) Hz).
  - intros Hall. f_equal. apply Nat.eqb_eq, count_if_zero.
    intros v Hv. apply Hmask. by apply Hall.
Qed.



End catalog_claims.

(** ** What the executor hands to the scoring agent *)

Section executor_facts.
Context `{Runtime}.

Lemma Qnat_nonneg (n : nat) : (0 <= Qnat n)%Q.
Proof. unfold Qnat. change 0%Q with (inject_Z 0). rewrite <- Zle_Qle. lia. Qed.

Lemma Qnat_ratio_nonneg (n d : nat) : (0 <= Qnat n / Qnat d)%Q.
Proof.
  destruct d as [|d].
  - rewrite Qdiv_by_zero by reflexivity. lra.
  - apply Qle_shift_div_l; [apply Qnat_pos; lia|].
    pose proof (Qnat_nonneg n). lra.
Qed.

Lemma rate_nonneg_value (n d : nat) : (0 <= rate n d)%Q.
Proof.
  unfold rate. destruct (0 <? d)%nat; [apply Qnat_ratio_nonneg|lra].
Qed.

Lemma well_rated_check (id : string) (ok : bool) (sev : string) (m : list (string * value)) (e : Q) :
  ScoringAgent._extract_error_rate (mk_check id ok sev m) = Ok e →
  (0 <= e)%Q →
  match dict_get "failing_columns" m with
  | Some (VList l) => forallb absorbable l = true
  | Some _ => False
  | None => True
  end →
  well_rated (mk_check id ok sev m).
Proof.
  intros He Hpos Hcols. unfold well_rated, scorable, rate_nonneg.
  rewrite He. split; [|by apply Qle_bool_iff].
  simpl. destruct (dict_get "failing_columns" m) as [v|]; [|done].
  destruct v; try done.
Qed.


Lemma well_rated_fallback (id : string) (ok : bool) (sev : string) (m : list (string * value)) :
  first_present ScoringAgent.rate_fields m = None →
  first_present ScoringAgent.match_fields m = None →
  dict_get "failing_columns" m = None →
  well_rated (mk_check id ok sev m).
Proof.
  intros Hr Hm Hc. unfold well_rated, scorable, rate_nonneg,
    ScoringAgent._extract_error_rate.
  cbn [metrics mk_check passed]. rewrite Hr, Hm, Hc.
  by destruct ok.
Qed.

Lemma well_rated_not_applicable (id message : string) :
  well_rated (not_applicable id message).
Proof. by apply well_rated_fallback. Qed.

Lemma absorbable_columns (g : string → list (string * value)) (l : list string) :
  forallb absorbable ((λ col, VDict (("column", VStr col) :: g col)) <$> l) = true.
Proof. induction l as [|col l IH]; [done|]. rewrite fmap_cons. simpl. exact IH. Qed.

Lemma overall_rate_nonneg (df : DataFrame) (cols : list string) (n : nat) :
  (0 <= validity.overall_rate df cols n)%Q.
Proof.
  unfold validity.overall_rate.
  destruct (_ && _); [apply Qnat_ratio_nonneg|lra].
Qed.

Lemma count_if_le {A : Type} (p : A → bool) (l : list A) :
  (count_if p l <= length l)%nat.
Proof.
  unfold count_if. induction l as [|x l IH]; simpl; [done|].
  destruct (p x); simpl; lia.
Qed.

Lemma dict_get_elem {V : Type} (k : string) (v : V) (d : list (string * V)) :
  dict_get k d = Some v → (k, v) ∈ d.
Proof.
  induction d as [|[k' v'] d IH]; simpl; [done|].
  destruct (String.eqb k k') eqn:E.
  - apply String.eqb_eq in E. intros [= ->]. subst. left.
  - intros Hd. right. by apply IH.
Qed.

Lemma df_col_length (df : DataFrame) (col : string) :
  df_wf df → col ∈ df_columns df → length (df_col df col) = df_len df.
Proof.
  intros [Hlen _] Hcol. unfold df_col.
  destruct (dict_get col (df_data df)) as [cells|] eqn:E.
  - apply dict_get_elem in E. rewrite Forall_forall in Hlen.
    by apply (Hlen (col, cells)).
  - apply dict_get_None_keys in E. done.
Qed.

Lemma null_rates_rated df p : well_rated (completeness.check_null_rates df p).
Proof.
  unfold completeness.check_null_rates.
  eapply well_rated_check; [reflexivity| |].
  - destruct (0 <? df_len df)%nat; [apply Qnat_ratio_nonneg|lra].
  - simpl. apply (absorbable_columns (λ col, [(_, _)])).
Qed.

Lemma required_fields_rated df fs : well_rated (completeness.check_required_fields df fs).
Proof. by apply well_rated_fallback. Qed.

Lemma duplicates_rated df keys : well_rated (uniqueness.check_duplicates df keys).
Proof.
  unfold uniqueness.check_duplicates. destruct keys as [|k keys].
  - by apply well_rated_fallback.
  - eapply well_rated_check; [reflexivity| |].
    + destruct (0 <? df_len df)%nat; [apply Qnat_ratio_nonneg|lra].
    + simpl. apply (absorbable_columns (λ col, [(_, _); (_, _)])).
Qed.

Lemma currency_rated df : well_rated (validity.check_currency_validity df).
Proof.
  unfold validity.check_currency_validity.
  destruct (columns_where _ df); [apply well_rated_not_applicable|].
  eapply well_rated_check; [reflexivity|apply overall_rate_nonneg|].
  simpl. apply (absorbable_columns (λ col, [(_, _)])).
Qed.

Lemma country_rated df : well_rated (validity.check_country_validity df).
Proof.
  unfold validity.check_country_validity.
  destruct (columns_where _ df); [apply well_rated_not_applicable|].
  eapply well_rated_check; [reflexivity|apply overall_rate_nonneg|].
  simpl. apply (absorbable_columns (λ col, [(_, _)])).
Qed.

Lemma mcc_rated df ref : well_rated (validity.check_mcc_validity df ref).
Proof.
  unfold validity.check_mcc_validity.
  destruct (columns_where _ df); [apply well_rated_not_applicable|].
  eapply well_rated_check; [reflexivity|apply overall_rate_nonneg|].
  simpl. apply (absorbable_columns (λ col, [(_, _)])).
Qed.

Lemma amount_rated df : well_rated (validity.check_amount_validity df).
Proof.
  unfold validity.check_amount_validity.
  destruct (columns_where _ df); [apply well_rated_not_applicable|].
  eapply well_rated_check; [reflexivity|apply overall_rate_nonneg|].
  simpl. apply (absorbable_columns (λ col, [(_, _)])).
Qed.

Lemma status_rated df : well_rated (consistency.check_status_settlement_consistency df).
Proof.
  unfold consistency.check_status_settlement_consistency.
  destruct (columns_where _ df); [apply well_rated_not_applicable|].
  destruct (columns_where _ df); [apply well_rated_not_applicable|].
  eapply well_rated_check; [reflexivity|apply rate_nonneg_value|done].
Qed.

Lemma decimals_rated df rules c :
  consistency.check_currency_decimal_consistency df rules = Ok c → well_rated c.
Proof.
  unfold consistency.check_currency_decimal_consistency.
  destruct (columns_where _ df); [intros [= <-]; apply well_rated_not_applicable|].
  destruct (columns_where _ df); [intros [= <-]; apply well_rated_not_applicable|].
  destruct rules as [r|]; [|intros [= <-]; apply well_rated_not_applicable].
  destruct (_ && _); [|intros [= <-]; apply well_rated_not_applicable].
  intros Hc. apply bind_Ok in Hc as (ds & _ & [= <-]).
  eapply well_rated_check; [reflexivity|apply rate_nonneg_value|done].
Qed.

Lemma time_ordering_rated df : well_rated (consistency.check_time_ordering_consistency df).
Proof.
  unfold consistency.check_time_ordering_consistency.
  destruct (columns_where _ df); [apply well_rated_not_applicable|].
  destruct (columns_where _ df); [apply well_rated_not_applicable|].
  by apply well_rated_fallback.
Qed.

Lemma event_lag_rated df sla : well_rated (timeliness.check_event_lag df sla).
Proof.
  unfold timeliness.check_event_lag.
  destruct (columns_where _ df); [apply well_rated_not_applicable|].
  eapply well_rated_check; [reflexivity|apply rate_nonneg_value|done].
Qed.

Lemma processing_delay_rated df : well_rated (timeliness.check_processing_delay df).
Proof.
  unfold timeliness.check_processing_delay.
  destruct (columns_where _ df); [apply well_rated_not_applicable|].
  destruct (columns_where _ df); [apply well_rated_not_applicable|].
  eapply well_rated_check; [reflexivity|apply rate_nonneg_value|done].
Qed.

Lemma reference_check_rated df id table col ref c :
  integrity.reference_check df id table col ref = Ok c → well_rated c.
Proof.
  unfold integrity.reference_check. intros Hc.
  apply bind_Ok in Hc as (idc & _ & [= <-]). by apply well_rated_fallback.
Qed.

Lemma integrity_rated df refs cs :
  integrity.check_referential_integrity df refs = Ok cs → Forall well_rated cs.
Proof.
  unfold integrity.check_referential_integrity. intros Hcs.
  apply bind_Ok in Hcs as (ms & Hms & Hcs).
  apply bind_Ok in Hcs as (us & Hus & [= <-]).
  assert (Forall well_rated ms).
  { clear Hus. revert Hms.
    destruct (refs !! "merchants"); [|by intros [= <-]].
    destruct (columns_where _ df); [by intros [= <-]|].
    intros Hms. apply bind_Ok in Hms as (c & Hc & [= <-]).
    apply reference_check_rated in Hc. by constructor. }
  assert (Forall well_rated us).
  { clear Hms. revert Hus.
    destruct (refs !! "customers"); [|by intros [= <-]].
    destruct (columns_where _ df); [by intros [= <-]|].
    intros Hus. apply bind_Ok in Hus as (c & Hc & [= <-]).
    apply reference_check_rated in Hc. by constructor. }
  destruct (ms ++ us) eqn:E.
  - constructor; [apply well_rated_not_applicable|done].
  - rewrite <- E. by apply Forall_app.
Qed.

Lemma bin_rated df ref :
  df_wf df → well_rated (reconciliation.check_bin_reconciliation df ref).
Proof.
  intros Hwf. unfold reconciliation.check_bin_reconciliation.
  destruct ref as [r|]; [|apply well_rated_not_applicable].
  destruct (columns_where _ df) as [|card cols] eqn:Ecols;
    [apply well_rated_not_applicable|].
  destruct (negb _); [apply well_rated_not_applicable|].
  eapply well_rated_check; [reflexivity| |done].
  assert (Hcard : card ∈ df_columns df).
  { eapply columns_where_elem. rewrite Ecols. left. }
  pose proof (df_col_length df card Hwf Hcard) as Hlen.
  set (k := count_if _ _).
  assert (Hk : (k <= df_len df)%nat).
  { unfold k. etrans; [apply count_if_le|].
    unfold astype_str_series. by rewrite !length_fmap, Hlen. }
  unfold rate. destruct (0 <? df_len df)%nat eqn:E; [|lra].
  apply Nat.ltb_lt in E.
  assert (Qnat k / Qnat (df_len df) <= 1)%Q; [|lra].
  apply Qle_shift_div_r; [by apply Qnat_pos|].
  unfold Qnat. rewrite Qmult_1_l, <- Zle_Qle. lia.
Qed.

Lemma settlement_rated df ledger :
  well_rated (reconciliation.check_settlement_reconciliation df ledger).
Proof.
  unfold reconciliation.check_settlement_reconciliation.
  destruct ledger as [l|]; [|apply well_rated_not_applicable].
  destruct (columns_where _ df); [apply well_rated_not_applicable|].
  destruct (columns_where _ l); [apply well_rated_not_applicable|].
  eapply well_rated_check; [reflexivity| |done].
  destruct (0 <? df_len df)%nat; [|lra].
  match goal with |- context [(Qnat ?n / Qnat ?d)%Q] =>
    pose proof (Qnat_ratio_nonneg n d) end.
  lra.
Qed.

Lemma set_dimension_rated (dim : string) (c : CheckResult) :
  well_rated c → well_rated (CheckExecutorAgent.set_dimension dim c).
Proof. done. Qed.

Lemma run_if_selected_rated (sel : list string) (dim : string)
    (run : result (list CheckResult)) (acc res : list CheckResult) :
  (∀ cs, run = Ok cs → Forall well_rated cs) →
  Forall well_rated acc →
  CheckExecutorAgent.run_if_selected sel dim run acc = Ok res →
  Forall well_rated res.
Proof.
  intros Hrun Hacc. unfold CheckExecutorAgent.run_if_selected.
  destruct (bool_decide (dim ∈ sel)); [|by intros [= <-]].
  intros Hres. apply bind_Ok in Hres as (cs & Hcs & [= <-]).
  apply Forall_app. split; [done|].
  apply Forall_fmap. eapply Forall_impl; [by apply Hrun|].
  intros c Hc. by apply set_dimension_rated.
Qed.

(** On a well-formed frame every check result the executor returns can be
    scored and has a non-negative error rate: the scoring agent then keeps
    every score within 0 and 100. *)
Lemma executor_results_rated (df : DataFrame) (profile : Profile)
    (sel : list string) (reference_data : option (gmap string DataFrame))
    (res : CheckResults) :
  df_wf df →
  CheckExecutorAgent.execute_checks df profile sel reference_data = Ok res →
  Forall well_rated (check_results res).
Proof.
  intros Hwf. unfold CheckExecutorAgent.execute_checks. intros Hres.
  apply bind_Ok in Hres as (r1 & H1 & Hres).
  apply bind_Ok in Hres as (r2 & H2 & Hres).
  apply bind_Ok in Hres as (r3 & H3 & Hres).
  apply bind_Ok in Hres as (r4 & H4 & Hres).
  apply bind_Ok in Hres as (r5 & H5 & Hres).
  apply bind_Ok in Hres as (r6 & H6 & Hres).
  apply bind_Ok in Hres as (r7 & H7 & [= <-]). simpl.
  assert (A1 : Forall well_rated r1).
  { eapply (run_if_selected_rated _ _ _ [] r1); [|done|exact H1].
    intros cs [= <-]. repeat first [apply Forall_nil_2 | apply Forall_cons_2];
      [apply null_rates_rated|apply required_fields_rated]. }
  assert (A2 : Forall well_rated r2).
  { eapply run_if_selected_rated; [|exact A1|exact H2].
    intros cs Hcs. unfold uniqueness.run_uniqueness_checks in Hcs.
    apply bind_Ok in Hcs as (keys & _ & [= <-]).
    repeat first [apply Forall_nil_2 | apply Forall_cons_2].
    apply duplicates_rated. }
  assert (A3 : Forall well_rated r3).
  { eapply run_if_selected_rated; [|exact A2|exact H3].
    intros cs [= <-]. repeat first [apply Forall_nil_2 | apply Forall_cons_2];
      [apply currency_rated|apply country_rated|apply mcc_rated
      |apply amount_rated]. }
  assert (A4 : Forall well_rated r4).
  { eapply run_if_selected_rated; [|exact A3|exact H4].
    intros cs Hcs. unfold consistency.run_consistency_checks in Hcs.
    apply bind_Ok in Hcs as (c & Hc & [= <-]).
    repeat first [apply Forall_nil_2 | apply Forall_cons_2];
      [apply status_rated|by eapply decimals_rated
      |apply time_ordering_rated]. }
  assert (A5 : Forall well_rated r5).
  { eapply run_if_selected_rated; [|exact A4|exact H5].
    intros cs [= <-]. repeat first [apply Forall_nil_2 | apply Forall_cons_2];
      [apply event_lag_rated|apply processing_delay_rated]. }
  assert (A6 : Forall well_rated r6).
  { eapply run_if_selected_rated; [|exact A5|exact H6].
    intros cs Hcs. by eapply integrity_rated. }
  eapply run_if_selected_rated; [|exact A6|exact H7].
  intros cs [= <-]. repeat first [apply Forall_nil_2 | apply Forall_cons_2];
    [by apply bin_rated|apply settlement_rated].
Qed.
End executor_facts.

(** * More of the pipeline *)

(** ** What the executor returns *)

Section executor_results.
Context `{Runtime}.

Lemma run_if_selected_catalog (df : DataFrame) (sel : list string) (dim : string)
    (run : result (list CheckResult)) (acc res : list CheckResult) :
  (∀ cs c0, run = Ok cs → c0 ∈ cs →
     ∃ i cs', invocation_frame i = df ∧ invocation_dimension i = dim ∧
              run_check i = Ok cs' ∧ c0 ∈ cs') →
  Forall (from_catalog df sel) acc →
  CheckExecutorAgent.run_if_selected sel dim run acc = Ok res →
  Forall (from_catalog df sel) res.
Proof.
  intros Hrun Hacc. unfold CheckExecutorAgent.run_if_selected.
  destruct (bool_decide (dim ∈ sel)) eqn:E; [|by intros [= <-]].
  apply bool_decide_eq_true in E.
  intros Hres. apply bind_Ok in Hres as (cs & Hcs & [= <-]).
  apply Forall_app. split; [done|].
  apply Forall_fmap, Forall_forall. intros c0 Hc0.
  destruct (Hrun cs c0 Hcs Hc0) as (i & cs' & Hf & Hd & Hi & Hin).
  exists i, cs', c0. rewrite Hd. by split_and!.
Qed.

Ltac pick i := exists i; eexists; split_and!; [reflexivity|reflexivity|reflexivity|set_solver].

(** Every result of the executor is the result of a check of the catalog,
    run on the frame and labelled with its dimension. *)
Lemma executor_results_catalog (df : DataFrame) (profile : Profile)
    (sel : list string) (reference_data : option (gmap string DataFrame))
    (res : CheckResults) :
  CheckExecutorAgent.execute_checks df profile sel reference_data = Ok res →
  Forall (from_catalog df sel) (check_results res).
Proof.
  unfold CheckExecutorAgent.execute_checks. intros Hres.
  apply bind_Ok in Hres as (r1 & H1 & Hres).
  apply bind_Ok in Hres as (r2 & H2 & Hres).
  apply bind_Ok in Hres as (r3 & H3 & Hres).
  apply bind_Ok in Hres as (r4 & H4 & Hres).
  apply bind_Ok in Hres as (r5 & H5 & Hres).
  apply bind_Ok in Hres as (r6 & H6 & Hres).
  apply bind_Ok in Hres as (r7 & H7 & [= <-]). simpl.
  set (refs := default ∅ reference_data) in *.
  assert (A1 : Forall (from_catalog df sel) r1).
  { eapply (run_if_selected_catalog df _ _ _ [] r1); [|done|exact H1].
    intros cs c0 [= <-] Hc0.
    apply elem_of_cons in Hc0 as [->|Hc0]; [pick (NullRates df profile)|].
    apply list_elem_of_singleton in Hc0 as ->. pick (RequiredFields df None). }
  assert (A2 : Forall (from_catalog df sel) r2).
  { eapply run_if_selected_catalog; [|exact A1|exact H2].
    intros cs c0 Hcs Hc0. unfold uniqueness.run_uniqueness_checks in Hcs.
    apply bind_Ok in Hcs as (keys & _ & [= <-]).
    apply list_elem_of_singleton in Hc0 as ->. pick (Duplicates df keys). }
  assert (A3 : Forall (from_catalog df sel) r3).
  { eapply run_if_selected_catalog; [|exact A2|exact H3].
    intros cs c0 [= <-] Hc0.
    apply elem_of_cons in Hc0 as [->|Hc0]; [pick (CurrencyValidity df)|].
    apply elem_of_cons in Hc0 as [->|Hc0]; [pick (CountryValidity df)|].
    apply elem_of_cons in Hc0 as [->|Hc0];
      [pick (MccValidity df (refs !! "mcc_codes"))|].
    apply list_elem_of_singleton in Hc0 as ->. pick (AmountValidity df). }
  assert (A4 : Forall (from_catalog df sel) r4).
  { eapply run_if_selected_catalog; [|exact A3|exact H4].
    intros cs c0 Hcs Hc0. unfold consistency.run_consistency_checks in Hcs.
    apply bind_Ok in Hcs as (c & Hc & [= <-]).
    apply elem_of_cons in Hc0 as [->|Hc0]; [pick (StatusSettlement df)|].
    apply elem_of_cons in Hc0 as [->|Hc0].
    { exists (CurrencyDecimals df (refs !! "currency_rules")). eexists.
      split_and!; [reflexivity|reflexivity|simpl; by rewrite Hc|set_solver]. }
    apply list_elem_of_singleton in Hc0 as ->. pick (TimeOrdering df). }
  assert (A5 : Forall (from_catalog df sel) r5).
  { eapply run_if_selected_catalog; [|exact A4|exact H5].
    intros cs c0 [= <-] Hc0.
    apply elem_of_cons in Hc0 as [->|Hc0]; [pick (EventLag df 24)|].
    apply list_elem_of_singleton in Hc0 as ->. pick (ProcessingDelay df). }
  assert (A6 : Forall (from_catalog df sel) r6).
  { eapply run_if_selected_catalog; [|exact A5|exact H6].
    intros cs c0 Hcs Hc0.
    exists (ReferentialIntegrity df refs), cs. by split_and!. }
  eapply run_if_selected_catalog; [|exact A6|exact H7].
  intros cs c0 [= <-] Hc0.
  apply elem_of_cons in Hc0 as [->|Hc0];
    [pick (BinReconciliation df (refs !! "bin_map"))|].
  apply list_elem_of_singleton in Hc0 as ->.
  pick (SettlementReconciliation df (refs !! "settlement_ledger")).
Qed.

(** A property of every result of every catalog check holds of every
    result of the executor, once the dimension label is on. *)
Lemma executor_results_Forall (P : CheckResult → Prop) (df : DataFrame)
    (profile : Profile) (sel : list string)
    (reference_data : option (gmap string DataFrame)) (res : CheckResults) :
  (∀ i cs c0, invocation_frame i = df → invocation_dimension i ∈ sel →
     run_check i = Ok cs → c0 ∈ cs →
     P (CheckExecutorAgent.set_dimension (invocation_dimension i) c0)) →
  CheckExecutorAgent.execute_checks df profile sel reference_data = Ok res →
  Forall P (check_results res).
Proof.
  intros HP Hres. apply executor_results_catalog in Hres.
  eapply Forall_impl; [exact Hres|].
  intros c (i & cs & c0 & Hf & Hd & Hi & Hin & ->). by eapply HP.
Qed.

Lemma known_severity_if (b : bool) (x y : string) :
  x ∈ known_severities → y ∈ known_severities →
  (if b then x else y) ∈ known_severities.
Proof. by destruct b. Qed.

Lemma populated_mk (sel : list string) (dim id : string) (ok : bool)
    (sev : string) (m : list (string * value)) :
  dim ∈ sel → dim ∈ all_dimensions →
  String.prefix (dim +:+ "_") id = true → sev ∈ known_severities →
  populated sel (CheckExecutorAgent.set_dimension dim (mk_check id ok sev m)).
Proof. intros. by exists id, dim, ok, sev. Qed.

Ltac known_severity :=
  repeat apply known_severity_if; unfold known_severities; set_solver.

Ltac populated_mk :=
  apply populated_mk;
  [done|unfold all_dimensions; set_solver|reflexivity|known_severity].

Lemma catalog_populated (sel : list string) (i : invocation)
    (cs : list CheckResult) (c0 : CheckResult) :
  invocation_dimension i ∈ sel → run_check i = Ok cs → c0 ∈ cs →
  populated sel (CheckExecutorAgent.set_dimension (invocation_dimension i) c0).
Proof.
  intros Hsel Hrun Hin.
  destruct i as [df p|df fs|df keys|df|df|df ref|df|df|df rules|df|df sla|df
                |df refs|df ref|df ledger]; simpl in Hrun, Hsel |- *;
    try (injection Hrun as <-; apply list_elem_of_singleton in Hin as ->).
  - unfold completeness.check_null_rates. populated_mk.
  - unfold completeness.check_required_fields. populated_mk.
  - unfold uniqueness.check_duplicates. destruct keys; populated_mk.
  - unfold validity.check_currency_validity.
    destruct (columns_where _ df); populated_mk.
  - unfold validity.check_country_validity.
    destruct (columns_where _ df); populated_mk.
  - unfold validity.check_mcc_validity.
    destruct (columns_where _ df); populated_mk.
  - unfold validity.check_amount_validity.
    destruct (columns_where _ df); populated_mk.
  - unfold consistency.check_status_settlement_consistency.
    destruct (columns_where _ df); [populated_mk|].
    destruct (columns_where _ df); populated_mk.
  - apply bind_Ok in Hrun as (c & Hc & [= <-]).
    apply list_elem_of_singleton in Hin as ->. revert Hc.
    unfold consistency.check_currency_decimal_consistency.
    destruct (columns_where _ df); [intros [= <-]; populated_mk|].
    destruct (columns_where _ df); [intros [= <-]; populated_mk|].
    destruct rules as [r|]; [|intros [= <-]; populated_mk].
    destruct (_ && _); [|intros [= <-]; populated_mk].
    intros Hc. apply bind_Ok in Hc as (ds & _ & [= <-]). populated_mk.
  - unfold consistency.check_time_ordering_consistency.
    destruct (columns_where _ df); [populated_mk|].
    destruct (columns_where _ df); populated_mk.
  - unfold timeliness.check_event_lag.
    destruct (columns_where _ df); populated_mk.
  - unfold timeliness.check_processing_delay.
    destruct (columns_where _ df); [populated_mk|].
    destruct (columns_where _ df); populated_mk.
  - revert Hrun. unfold integrity.check_referential_integrity. intros Hcs.
    apply bind_Ok in Hcs as (ms & Hms & Hcs).
    apply bind_Ok in Hcs as (us & Hus & [= <-]).
    assert (Hone : ∀ id table col ref c,
              String.prefix "integrity_" id = true →
              integrity.reference_check df id table col ref = Ok c →
              populated sel (CheckExecutorAgent.set_dimension "integrity" c)).
    { intros id table col ref c Hid Hc. unfold integrity.reference_check in Hc.
      apply bind_Ok in Hc as (idc & _ & [= <-]).
      apply populated_mk;
        [done|unfold all_dimensions; set_solver|done|known_severity]. }
    assert (Forall (λ c, populated sel
                           (CheckExecutorAgent.set_dimension "integrity" c)) ms).
    { clear Hus. revert Hms.
      destruct (refs !! "merchants"); [|by intros [= <-]].
      destruct (columns_where _ df); [by intros [= <-]|].
      intros Hms. apply bind_Ok in Hms as (c & Hc & [= <-]).
      apply Hone in Hc; [|done]. by constructor. }
    assert (Forall (λ c, populated sel
                           (CheckExecutorAgent.set_dimension "integrity" c)) us).
    { clear Hms. revert Hus.
      destruct (refs !! "customers"); [|by intros [= <-]].
      destruct (columns_where _ df); [by intros [= <-]|].
      intros Hus. apply bind_Ok in Hus as (c & Hc & [= <-]).
      apply Hone in Hc; [|done]. by constructor. }
    assert (Hall : Forall (λ c, populated sel
                           (CheckExecutorAgent.set_dimension "integrity" c))
                     (ms ++ us)) by (by apply Forall_app).
    destruct (ms ++ us) eqn:E.
    + apply list_elem_of_singleton in Hin as ->. populated_mk.
    + rewrite Forall_forall in Hall. by apply Hall.
  - unfold reconciliation.check_bin_reconciliation.
    destruct ref; [|populated_mk].
    destruct (columns_where _ df); [populated_mk|].
    destruct (negb _); populated_mk.
  - unfold reconciliation.check_settlement_reconciliation.
    destruct ledger as [l|]; [|populated_mk].
    destruct (columns_where _ df); [populated_mk|].
    destruct (columns_where _ l); populated_mk.
Qed.

(** X3.  Every result the executor returns carries a check id, a
    dimension, a pass flag and a severity: the dimension is one of the
    selected ones and one of the seven known ones, the id begins with the
    dimension's name and an underscore, and the severity is critical, high,
    medium or low.  [total_checks] is the number of results. *)
Theorem executor_results_populated (df : DataFrame) (profile : Profile)
    (sel : list string) (reference_data : option (gmap string DataFrame))
    (res : CheckResults) :
  CheckExecutorAgent.execute_checks df profile sel reference_data = Ok res →
  Forall (populated sel) (check_results res) ∧
  total_checks res = length (check_results res).
Proof.
  intros Hres. split.
  - eapply executor_results_Forall; [|exact Hres].
    intros i cs c0 _ Hsel Hrun Hin. by eapply catalog_populated.
  - unfold CheckExecutorAgent.execute_checks in Hres.
    repeat (apply bind_Ok in Hres as (? & _ & Hres)). by injection Hres as <-.
Qed.
End executor_results.

(** ** The metrics schema of the catalog *)

Lemma forallb_fmap_true {A : Type} (p : value → bool) (f : A → value)
    (l : list A) :
  (∀ x, p (f x) = true) → forallb p (f <$> l) = true.
Proof.
  intros Hp. induction l as [|x l IH]; [done|].
  rewrite fmap_cons. simpl. by rewrite Hp, IH.
Qed.

Section shape.
Context `{Runtime}.

Ltac shaped_mk :=
  unfold shaped, shaped_metrics; cbn -[rate Qltb Qeq_bool count_if];
  rewrite ?forallb_fmap_true by done; reflexivity.

Lemma catalog_shaped (i : invocation) (cs : list CheckResult) (c0 : CheckResult) :
  run_check i = Ok cs → c0 ∈ cs → shaped c0 = true.
Proof.
  intros Hrun Hin.
  destruct i as [df p|df fs|df keys|df|df|df ref|df|df|df rules|df|df sla|df
                |df refs|df ref|df ledger]; simpl in Hrun;
    try (injection Hrun as <-; apply list_elem_of_singleton in Hin as ->).
  - unfold completeness.check_null_rates. shaped_mk.
  - unfold completeness.check_required_fields. shaped_mk.
  - unfold uniqueness.check_duplicates. destruct keys; [done|]. shaped_mk.
  - unfold validity.check_currency_validity.
    destruct (columns_where _ df) eqn:E; [done|]. shaped_mk.
  - unfold validity.check_country_validity.
    destruct (columns_where _ df) eqn:E; [done|]. shaped_mk.
  - unfold validity.check_mcc_validity.
    destruct (columns_where _ df) eqn:E; [done|]. shaped_mk.
  - unfold validity.check_amount_validity.
    destruct (columns_where _ df) eqn:E; [done|]. shaped_mk.
  - unfold consistency.check_status_settlement_consistency.
    destruct (columns_where _ df); [done|].
    destruct (columns_where _ df); done.
  - apply bind_Ok in Hrun as (c & Hc & [= <-]).
    apply list_elem_of_singleton in Hin as ->. revert Hc.
    unfold consistency.check_currency_decimal_consistency.
    destruct (columns_where _ df); [by intros [= <-]|].
    destruct (columns_where _ df); [by intros [= <-]|].
    destruct rules as [r|]; [|by intros [= <-]].
    destruct (_ && _); [|by intros [= <-]].
    intros Hc. by apply bind_Ok in Hc as (ds & _ & [= <-]).
  - unfold consistency.check_time_ordering_consistency.
    destruct (columns_where _ df); [done|].
    destruct (columns_where _ df); done.
  - unfold timeliness.check_event_lag.
    destruct (columns_where _ df); done.
  - unfold timeliness.check_processing_delay.
    destruct (columns_where _ df); [done|].
    destruct (columns_where _ df); done.
  - revert Hrun. unfold integrity.check_referential_integrity. intros Hcs.
    apply bind_Ok in Hcs as (ms & Hms & Hcs).
    apply bind_Ok in Hcs as (us & Hus & [= <-]).
    assert (Hone : ∀ id table col ref c,
              integrity.reference_check df id table col ref = Ok c →
              shaped c = true).
    { intros id table col ref c Hc. unfold integrity.reference_check in Hc.
      by apply bind_Ok in Hc as (idc & _ & [= <-]). }
    assert (Forall (λ c, shaped c = true) ms).
    { clear Hus. revert Hms.
      destruct (refs !! "merchants"); [|by intros [= <-]].
      destruct (columns_where _ df); [by intros [= <-]|].
      intros Hms. apply bind_Ok in Hms as (c & Hc & [= <-]).
      apply Hone in Hc. by constructor. }
    assert (Forall (λ c, shaped c = true) us).
    { clear Hms. revert Hus.
      destruct (refs !! "customers"); [|by intros [= <-]].
      destruct (columns_where _ df); [by intros [= <-]|].
      intros Hus. apply bind_Ok in Hus as (c & Hc & [= <-]).
      apply Hone in Hc. by constructor. }
    assert (Hall : Forall (λ c, shaped c = true) (ms ++ us))
      by (by apply Forall_app).
    destruct (ms ++ us) eqn:E.
    + by apply list_elem_of_singleton in Hin as ->.
    + rewrite Forall_forall in Hall. by apply Hall.
  - unfold reconciliation.check_bin_reconciliation.
    destruct ref; [|done].
    destruct (columns_where _ df); [done|].
    destruct (negb _); done.
  - unfold reconciliation.check_settlement_reconciliation.
    destruct ledger as [l|]; [|done].
    destruct (columns_where _ df); [done|].
    destruct (columns_where _ l); done.
Qed.
End shape.

(** ** The remediation agent on results of the catalog *)

Lemma bind_ret {A B : Type} (a : A) (f : A → result B) : Ok a ≫= f = f a.
Proof. reflexivity. Qed.

Lemma Ok_inj {A : Type} (a b : A) : Ok a = Ok b → a = b.
Proof. by intros [= ->]. Qed.

Lemma first_present_elem (fields : list string) (m : list (string * value))
    (v : value) :
  first_present fields m = Some v → ∃ k, k ∈ fields ∧ dict_get k m = Some v.
Proof.
  induction fields as [|f fields IH]; simpl; [done|].
  destruct (dict_get f m) as [v'|] eqn:E.
  - intros [= <-]. exists f. split; [left|done].
  - intros Hv. destruct (IH Hv) as (k & Hk & Hd). exists k. split; [by right|done].
Qed.

Lemma forallb_elem {A : Type} (p : A → bool) (l : list A) (x : A) :
  forallb p l = true → x ∈ l → p x = true.
Proof.
  intros Hall Hin. rewrite forallb_forall in Hall. apply Hall.
  by apply list_elem_of_In.
Qed.

Lemma shaped_rate (c : CheckResult) (k : string) (v : value) :
  shaped c = true → k ∈ rate_keys → dict_get k (metrics c) = Some v →
  ∃ q, v = VFloat q.
Proof.
  unfold shaped, shaped_metrics. intros Hs Hk Hd.
  apply andb_true_iff in Hs as [Hs _]. apply andb_true_iff in Hs as [Hs _].
  apply andb_true_iff in Hs as [Hs _].
  pose proof (forallb_elem _ _ k Hs Hk) as Hf. simpl in Hf. rewrite Hd in Hf.
  destruct v; try done. by eexists.
Qed.

Lemma py_eq_names (l : list string) :
  py_eq (VList (VStr <$> l)) (VList (VStr <$> l)) = true.
Proof.
  simpl. induction l as [|s l IH]; [done|].
  rewrite fmap_cons. simpl. unfold value_eqb. simpl.
  rewrite String.eqb_refl. exact IH.
Qed.

Lemma py_join_names (sep : string) (l : list string) :
  py_join sep (VList (VStr <$> l)) = Ok (str_join sep l).
Proof.
  unfold py_join. simpl.
  assert (mapM (λ e, match e with VStr s => Ok s | _ => Raise TypeError end)
            (VStr <$> l) = Ok l) as ->; [|done].
  induction l as [|s l IH]; [done|]. rewrite fmap_cons. simpl.
  by rewrite IH.
Qed.

(** The columns the entries of a [failing_columns] list name. *)
Lemma column_entries_names (l : list value) :
  forallb names_column l = true →
  ∃ names, mapM (py_item "column") l = Ok (VStr <$> names) ∧
           length names = length l.
Proof.
  induction l as [|v l IH]; simpl; intros Hall.
  - by exists [].
  - apply andb_true_iff in Hall as [Hv Hall].
    destruct (IH Hall) as (names & -> & Hlen).
    destruct v as [| | | | |?|d]; try done. simpl in Hv |- *.
    unfold dict_has in Hv.
    destruct (dict_get "column" d) as [[| | | |s| |]|]; try done.
    exists (s :: names). simpl. by rewrite Hlen.
Qed.

Section remediation_facts.
Context `{Runtime}.

Lemma shaped_frequency (c : CheckResult) :
  shaped c = true → ∃ f, RemediationAgent._extract_frequency c = Ok f.
Proof.
  intros Hs. unfold RemediationAgent._extract_frequency.
  destruct (first_present _ (metrics c)) as [v|] eqn:E1.
  - apply first_present_elem in E1 as (k & Hk & Hd).
    assert (Hr : k ∈ rate_keys).
    { repeat (apply elem_of_cons in Hk as [->|Hk]);
        [..|by apply elem_of_nil in Hk];
        unfold rate_keys;
        repeat first [apply list_elem_of_here | apply list_elem_of_further]. }
    destruct (shaped_rate c k v Hs Hr Hd) as [q ->]. simpl. eexists; reflexivity.
  - clear E1. destruct (first_present _ (metrics c)) as [v|] eqn:E2; [|by eexists].
    apply first_present_elem in E2 as (k & Hk & Hd).
    assert (Hr : k ∈ rate_keys).
    { repeat (apply elem_of_cons in Hk as [->|Hk]);
        [..|by apply elem_of_nil in Hk];
        unfold rate_keys;
        repeat first [apply list_elem_of_here | apply list_elem_of_further]. }
    destruct (shaped_rate c k v Hs Hr Hd) as [q ->]. simpl. eexists; reflexivity.
Qed.

Lemma shaped_column_refs (m : list (string * value)) (keys : list string) :
  forallb (λ k, absent_or is_str (dict_get k m)) keys = true →
  ∃ names, omap (λ key, dict_get key m) keys = VStr <$> names.
Proof.
  induction keys as [|k keys IH]; intros Hall.
  - by exists [].
  - simpl in Hall. apply andb_true_iff in Hall as [Hk Hall].
    destruct (IH Hall) as (names & Hn).
    change (omap (λ key, dict_get key m) (k :: keys))
      with (match dict_get k m with
            | Some y => y :: omap (λ key, dict_get key m) keys
            | None => omap (λ key, dict_get key m) keys
            end).
    rewrite Hn.
    destruct (dict_get k m) as [[| | | |s| |]|]; try done.
    + by exists (s :: names).
    + by exists names.
Qed.

Lemma shaped_affected_columns (c : CheckResult) :
  shaped c = true →
  ∃ names, RemediationAgent._get_affected_columns c = Ok (VList (VStr <$> names)).
Proof.
  unfold shaped, shaped_metrics. intros Hs.
  apply andb_true_iff in Hs as [Hs _]. apply andb_true_iff in Hs as [Hs Hcols].
  apply andb_true_iff in Hs as [_ Hfc].
  unfold RemediationAgent._get_affected_columns.
  assert (Hfallback :
    ∃ names,
      (let cols := omap (λ key, dict_get key (metrics c)) column_keys in
       @Ok value (VList (match cols with [] => [VStr "multiple"] | _ => cols end)))
      = Ok (VList (VStr <$> names))).
  { destruct (shaped_column_refs _ _ Hcols) as (names & Hn). cbv zeta.
    rewrite Hn.
    destruct names as [|n names]; [by exists ["multiple"]|by exists (n :: names)]. }
  destruct (dict_get "failing_columns" (metrics c)) as [v|]; simpl; [|exact Hfallback].
  destruct v as [| | | | |l|]; try done. simpl in Hfc.
  destruct l as [|v l]; [exact Hfallback|].
  change (py_truthy (VList (v :: l))) with true. cbv iota.
  destruct (column_entries_names (v :: l) Hfc) as (names & Hn & _).
  simpl in Hfc. apply andb_true_iff in Hfc as [Hv _].
  destruct v; try done. simpl py_index0. simpl.
  simpl in Hn. rewrite Hn. simpl. by exists names.
Qed.

(** The issue of a failing check, field by field. *)
Lemma make_issue_Ok (sr : ScoringResult) (c : CheckResult) (i : Issue) :
  RemediationAgent.make_issue sr c = Ok i →
  ∃ f cols,
    RemediationAgent._extract_frequency c = Ok f ∧
    RemediationAgent._get_affected_columns c = Ok cols ∧
    check_id c = Some (issue_check_id i) ∧
    issue_dimension i = dimension_of c ∧
    issue_severity i = default "medium" (severity c) ∧
    priority_score i
    = py_round
        (inject_Z (default 4%Z (RemediationAgent.severity_scores
                                  !! default "medium" (severity c))) * f *
         default 1%Q (weight <$> dict_get (dimension_of c) (dimension_scores sr)))%Q
        2 ∧
    where_ i = cols ∧
    frequency i = py_round f 4 ∧
    expected_score_gain i
    = py_round
        (py_min
           (f * 100 *
            default (4 # 10)%Q (RemediationAgent.severity_multiplier
                                !! default "medium" (severity c)))%Q
           (100 - default 100%Q (score <$> dict_get (dimension_of c)
                                             (dimension_scores sr)))%Q) 2.
Proof.
  unfold RemediationAgent.make_issue, RemediationAgent._estimate_score_gain,
    RemediationAgent._describe_issue, RemediationAgent._infer_root_cause,
    RemediationAgent._generate_fix_steps, RemediationAgent.require_check_id.
  intros Hi.
  apply bind_Ok in Hi as (f & Hf & Hi). rewrite Hf, !bind_ret in Hi.
  destruct (check_id c) as [id|] eqn:Eid; [|done]. rewrite !bind_ret in Hi.
  apply bind_Ok in Hi as (cols & Hcols & Hi). rewrite !bind_ret in Hi.
  apply Ok_inj in Hi. subst i. exists f, cols. split_and!; reflexivity || assumption.
Qed.

Lemma make_issue_total (sr : ScoringResult) (c : CheckResult) :
  shaped c = true → is_Some (check_id c) →
  ∃ i names, RemediationAgent.make_issue sr c = Ok i ∧
             where_ i = VList (VStr <$> names).
Proof.
  intros Hs [id Hid].
  destruct (shaped_frequency c Hs) as [f Hf].
  destruct (shaped_affected_columns c Hs) as [names Hn].
  unfold RemediationAgent.make_issue, RemediationAgent._estimate_score_gain,
    RemediationAgent._describe_issue, RemediationAgent._infer_root_cause,
    RemediationAgent._generate_fix_steps, RemediationAgent.require_check_id.
  rewrite Hf, Hid, !bind_ret, Hn, !bind_ret. by eexists _, names.
Qed.

Lemma mapM_total {A B : Type} (f : A → result B) (P : B → Prop) (l : list A) :
  Forall (λ x, ∃ y, f x = Ok y ∧ P y) l →
  ∃ l', mapM f l = Ok l' ∧ Forall P l' ∧ length l' = length l.
Proof.
  induction 1 as [|x l (y & Hy & HP) _ (l' & IH & HP' & Hlen)].
  - by exists [].
  - exists (y :: l'). simpl. rewrite Hy. simpl. rewrite IH. simpl.
    split_and!; [done|by constructor|by rewrite Hlen].
Qed.

Lemma make_ticket_total (i : Issue) (names : list string) :
  where_ i = VList (VStr <$> names) →
  ∃ t, RemediationAgent.make_ticket i = Ok t.
Proof.
  intros Hw. unfold RemediationAgent.make_ticket.
  rewrite Hw, py_join_names. simpl. by eexists.
Qed.
End remediation_facts.

(** ** Rounding is monotone *)

Lemma round_half_even_mono (x y : Q) :
  (x <= y)%Q → (round_half_even x <= round_half_even y)%Z.
Proof.
  intros Hxy.
  assert (Hf : (Qfloor x <= Qfloor y)%Z) by (by apply Qfloor_resp_le).
  pose proof (round_half_even_between x) as Hx.
  pose proof (round_half_even_between y) as Hy.
  destruct (Z.eq_dec (Qfloor x) (Qfloor y)) as [Heq|Hne]; [|lia].
  unfold round_half_even. rewrite <- Heq.
  destruct (x - inject_Z (Qfloor x) ?= 1 # 2)%Q eqn:Ex;
    destruct (y - inject_Z (Qfloor x) ?= 1 # 2)%Q eqn:Ey;
    try (destruct (Z.even (Qfloor x))); try lia;
    first [apply Qeq_alt in Ex | apply Qlt_alt in Ex | apply Qgt_alt in Ex];
    first [apply Qeq_alt in Ey | apply Qlt_alt in Ey | apply Qgt_alt in Ey];
    lra.
Qed.

Lemma py_round_mono (x y : Q) (n : nat) :
  (x <= y)%Q → (py_round x n <= py_round y n)%Q.
Proof.
  intros Hxy. unfold py_round.
  pose proof (scale_pos n) as Hs.
  set (s := inject_Z (10 ^ Z.of_nat n)) in *.
  apply Qmult_le_compat_r; [|apply Qlt_le_weak, Qinv_lt_0_compat; exact Hs].
  rewrite <- Zle_Qle. apply round_half_even_mono.
  apply Qmult_le_compat_r; lra.
Qed.

Lemma py_min_le_l (a b : Q) : (py_min a b <= a)%Q.
Proof.
  unfold py_min. destruct (Qltb b a) eqn:E; [|lra].
  apply Qltb_lt in E. lra.
Qed.

Lemma py_min_le_r (a b : Q) : (py_min a b <= b)%Q.
Proof.
  unfold py_min. destruct (Qltb b a) eqn:E; [lra|].
  by apply Qltb_ge in E.
Qed.

Lemma py_min_ge (a b c : Q) : (c <= a)%Q → (c <= b)%Q → (c <= py_min a b)%Q.
Proof. intros. unfold py_min. by destruct (Qltb b a). Qed.

(** ** The remediation plan *)

Lemma Qltb_proper (a x y : Q) : (x == y)%Q → Qltb a x = Qltb a y.
Proof.
  intros Hxy. destruct (Qltb a y) eqn:E.
  - apply Qltb_lt. apply Qltb_lt in E. by rewrite Hxy.
  - apply Qltb_ge. apply Qltb_ge in E. by rewrite Hxy.
Qed.

Lemma issue_eqb_fields (i j : Issue) :
  RemediationAgent.issue_eqb i j = true →
  issue_severity i = issue_severity j ∧
  (priority_score i == priority_score j)%Q.
Proof.
  unfold RemediationAgent.issue_eqb. intros Heq.
  repeat (apply andb_true_iff in Heq as [Heq ?]).
  split; [by apply String.eqb_eq|by apply Qeq_bool_iff].
Qed.

Lemma issue_eqb_phase (i j : Issue) :
  RemediationAgent.issue_eqb i j = true → in_p0 i = in_p0 j ∧ in_p1 i = in_p1 j.
Proof.
  intros Heq. apply issue_eqb_fields in Heq as [Hs Hp].
  unfold in_p0, in_p1. rewrite Hs.
  by rewrite (Qltb_proper 50 _ _ Hp), (Qltb_proper 20 _ _ Hp).
Qed.

Lemma issue_in_filter (p : Issue → bool) (l : list Issue) (i : Issue) :
  (∀ j, RemediationAgent.issue_eqb i j = true → p i = p j) →
  RemediationAgent.issue_in i (List.filter p l) = true → p i = true.
Proof.
  intros Hp. unfold RemediationAgent.issue_in. rewrite existsb_exists.
  intros (j & Hj & Heq). apply filter_In in Hj as [_ Hj].
  by rewrite (Hp j Heq).
Qed.

Lemma issue_in_self (p : Issue → bool) (l : list Issue) (i : Issue) :
  RemediationAgent.issue_eqb i i = true → i ∈ l → p i = true →
  RemediationAgent.issue_in i (List.filter p l) = true.
Proof.
  intros Hrefl Hin Hp. unfold RemediationAgent.issue_in. apply existsb_exists.
  exists i. split; [|done]. apply filter_In. split; [|done].
  by apply list_elem_of_In.
Qed.

Lemma filter_ext_elem {A : Type} (f g : A → bool) (l : list A) :
  (∀ x, x ∈ l → f x = g x) → List.filter f l = List.filter g l.
Proof.
  intros Hfg. induction l as [|x l IH]; [done|]. simpl.
  rewrite (Hfg x) by left. rewrite IH; [done|].
  intros y Hy. apply Hfg. by right.
Qed.

Lemma filter_three {A : Type} (a b : A → bool) (l : list A) :
  (length (List.filter a l) +
   length (List.filter (λ x, negb (a x) && b x) l) +
   length (List.filter (λ x, negb (a x) && negb (negb (a x) && b x)) l)
   = length l)%nat.
Proof.
  induction l as [|x l IH]; [done|]. simpl.
  destruct (a x), (b x); simpl; lia.
Qed.

(** The three phases, when every issue equals itself. *)
Lemma plan_phases (ranked : list Issue) :
  Forall (λ i, RemediationAgent.issue_eqb i i = true) ranked →
  let plan := RemediationAgent._generate_plan ranked in
  issues (P0_immediate plan) = issue_check_id <$> List.filter in_p0 ranked ∧
  issues (P1_next_sprint plan)
  = issue_check_id <$> List.filter (λ i, negb (in_p0 i) && in_p1 i) ranked ∧
  issues (P2_backlog plan)
  = issue_check_id <$>
    List.filter (λ i, negb (in_p0 i) && negb (negb (in_p0 i) && in_p1 i))
      ranked ∧
  count (P0_immediate plan) = length (issues (P0_immediate plan)) ∧
  count (P1_next_sprint plan) = length (issues (P1_next_sprint plan)) ∧
  count (P2_backlog plan) = length (issues (P2_backlog plan)).
Proof.
  intros Hrefl. rewrite Forall_forall in Hrefl.
  unfold RemediationAgent._generate_plan. fold in_p0. cbv zeta.
  set (p0 := List.filter in_p0 ranked).
  assert (H0 : ∀ i, i ∈ ranked → RemediationAgent.issue_in i p0 = in_p0 i).
  { intros i Hi. destruct (in_p0 i) eqn:E.
    - by apply issue_in_self; [apply Hrefl| |].
    - destruct (RemediationAgent.issue_in i p0) eqn:E'; [|done].
      apply issue_in_filter in E'; [congruence|].
      intros j Hj. by apply issue_eqb_phase in Hj as [? _]. }
  assert (E1 : List.filter
                 (λ i, negb (RemediationAgent.issue_in i p0) &&
                       (String.eqb (issue_severity i) "high" ||
                        String.eqb (issue_severity i) "medium" &&
                        Qltb 20 (priority_score i))) ranked
               = List.filter (λ i, negb (in_p0 i) && in_p1 i) ranked).
  { apply filter_ext_elem. intros i Hi. by rewrite H0. }
  rewrite E1. set (p1 := List.filter (λ i, negb (in_p0 i) && in_p1 i) ranked).
  assert (H1 : ∀ i, i ∈ ranked → RemediationAgent.issue_in i p1 = negb (in_p0 i) && in_p1 i).
  { intros i Hi. destruct (negb (in_p0 i) && in_p1 i) eqn:E.
    - by apply (issue_in_self (λ i, negb (in_p0 i) && in_p1 i));
        [apply Hrefl| |].
    - destruct (RemediationAgent.issue_in i p1) eqn:E'; [|done].
      apply (issue_in_filter (λ i, negb (in_p0 i) && in_p1 i)) in E';
        [congruence|].
      intros j Hj. by apply issue_eqb_phase in Hj as [-> ->]. }
  assert (E2 : List.filter (λ i, negb (RemediationAgent.issue_in i p0) && negb (RemediationAgent.issue_in i p1))
                 ranked
               = List.filter
                   (λ i, negb (in_p0 i) && negb (negb (in_p0 i) && in_p1 i))
                   ranked).
  { apply filter_ext_elem. intros i Hi. by rewrite H0, H1. }
  rewrite E2. simpl. by rewrite !length_fmap.
Qed.

(** ** What the remediation agent returns *)

Lemma zip_with_eqb_refl (l : list string) :
  forallb id (zip_with String.eqb l l) = true.
Proof. induction l as [|s l IH]; [done|]. simpl. by rewrite String.eqb_refl. Qed.

Lemma issue_eqb_refl (i : Issue) (names : list string) :
  where_ i = VList (VStr <$> names) → RemediationAgent.issue_eqb i i = true.
Proof.
  intros Hw. unfold RemediationAgent.issue_eqb.
  rewrite !String.eqb_refl, Hw, py_eq_names, zip_with_eqb_refl, Nat.eqb_refl.
  assert (Hq : ∀ q, Qeq_bool q q = true) by (intros q; by apply Qeq_bool_iff).
  by rewrite !Hq.
Qed.

Lemma filter_none {A : Type} (l : list A) : List.filter (λ _, false) l = [].
Proof. by induction l. Qed.

Section remediation_plan_facts.
Context `{Runtime}.

Lemma rank_issues_Ok (cs : list CheckResult) (sr : ScoringResult)
    (ranked : list Issue) :
  RemediationAgent._rank_issues cs sr = Ok ranked ↔
  ∃ found, mapM (RemediationAgent.make_issue sr) (List.filter failing cs)
           = Ok found ∧
           ranked = sort_desc priority_score found.
Proof.
  unfold RemediationAgent._rank_issues, RemediationAgent.collect_issues.
  rewrite collect_issues_mapM.
  destruct (mapM _ (List.filter failing cs)) as [found|e]; simpl.
  - split.
    + intros [= <-]. by exists found.
    + by intros (found' & [= <-] & ->).
  - split; [done|]. by intros (found' & [=] & _).
Qed.

Lemma mapM_Ok_Forall2 {A B : Type} (f : A → result B) (l : list A)
    (l' : list B) :
  mapM f l = Ok l' → Forall2 (λ x y, f x = Ok y) l l'.
Proof.
  revert l'. induction l as [|x l IH]; intros l'; simpl.
  - intros [= <-]. constructor.
  - destruct (f x) as [y|] eqn:E; [|done]. simpl.
    destruct (mapM f l) as [l0|]; [|done]. simpl. intros [= <-].
    constructor; [done|]. by apply IH.
Qed.

Lemma generate_remediation_ranked (cs : list CheckResult) (sr : ScoringResult)
    (summaries : list value) :
  Forall (λ c, failing c = true → shaped c = true ∧ is_Some (check_id c)) cs →
  ∃ ranked tickets,
    RemediationAgent.generate_remediation cs sr summaries
    = Ok {| top_issues := take 10 ranked;
            remediation_plan := RemediationAgent._generate_plan ranked;
            ticket_payloads := tickets |} ∧
    length ranked = count_if failing cs ∧
    length tickets = length (take 5 ranked) ∧
    Forall (λ i, ∃ names, where_ i = VList (VStr <$> names)) ranked.
Proof.
  intros Hall.
  assert (Hfail : Forall (λ c, ∃ i, RemediationAgent.make_issue sr c = Ok i ∧
                               ∃ names, where_ i = VList (VStr <$> names))
                    (List.filter failing cs)).
  { apply Forall_forall. intros c Hc.
    apply list_elem_of_In, filter_In in Hc as [Hc Hf].
    rewrite Forall_forall in Hall.
    destruct (Hall c (proj2 (list_elem_of_In _ _) Hc) Hf) as [Hs Hid].
    destruct (make_issue_total sr c Hs Hid) as (i & names & Hi & Hw).
    exists i. split; [done|by exists names]. }
  apply mapM_total in Hfail as (found & Hfound & Hwhere & Hlen).
  set (ranked := sort_desc priority_score found).
  assert (Hperm : Permutation ranked found) by apply sort_desc_Permutation.
  assert (Hranked : Forall (λ i, ∃ names, where_ i = VList (VStr <$> names))
                      ranked).
  { by rewrite Hperm. }
  assert (Hrlen : length ranked = count_if failing cs).
  { unfold count_if. by rewrite <- Hlen, Hperm. }
  destruct (mapM_total RemediationAgent.make_ticket (λ _, True) (take 5 ranked))
    as (tickets & Ht & _ & Htl).
  { apply Forall_take. eapply Forall_impl; [exact Hranked|].
    intros i (names & Hw). destruct (make_ticket_total i names Hw) as [t Ht].
    by exists t. }
  exists ranked, tickets. split_and!; try done.
  unfold RemediationAgent.generate_remediation.
  rewrite (proj2 (rank_issues_Ok cs sr ranked)) by (by exists found).
  rewrite bind_ret. unfold RemediationAgent._generate_tickets.
  rewrite Ht. reflexivity.
Qed.

(** X11.  When every failing check result follows the metrics schema of the
    catalog and has a check id, the remediation agent returns: it lists
    min(10, n) top issues and min(5, n) tickets, and the three phases of its
    plan count n issues together, n being the number of failing checks. *)
Theorem remediation_returns (cs : list CheckResult) (sr : ScoringResult)
    (summaries : list value) :
  Forall (λ c, failing c = true → shaped c = true ∧ is_Some (check_id c)) cs →
  ∃ r,
    RemediationAgent.generate_remediation cs sr summaries = Ok r ∧
    length (top_issues r) = Nat.min 10 (count_if failing cs) ∧
    length (ticket_payloads r) = Nat.min 5 (count_if failing cs) ∧
    (count (P0_immediate (remediation_plan r)) +
     count (P1_next_sprint (remediation_plan r)) +
     count (P2_backlog (remediation_plan r)) = count_if failing cs)%nat.
Proof.
  intros Hall.
  destruct (generate_remediation_ranked cs sr summaries Hall)
    as (ranked & tickets & Hr & Hrlen & Htl & Hranked).
  eexists. split; [exact Hr|]. split_and!.
  - simpl. by rewrite length_take, Hrlen.
  - simpl. by rewrite Htl, length_take, Hrlen.
  - cbn [remediation_plan].
    destruct (plan_phases ranked) as (E0 & E1 & E2 & C0 & C1 & C2).
    { eapply Forall_impl; [exact Hranked|].
      intros i (names & Hw). by eapply issue_eqb_refl. }
    rewrite C0, C1, C2, E0, E1, E2, !length_fmap, <- Hrlen.
    apply filter_three.
Qed.

Lemma base_weight_le (dim : string) :
  (default 2 (ScoringAgent.base_weights !! dim) <= 3)%Q.
Proof.
  unfold ScoringAgent.base_weights.
  rewrite !lookup_insert, lookup_singleton.
  repeat case_decide; simpl; lra.
Qed.

Lemma dimension_weight_le (dim : string) (profile : Profile) :
  (ScoringAgent._get_dimension_weight dim profile <= 4)%Q.
Proof.
  unfold ScoringAgent._get_dimension_weight.
  pose proof (base_weight_le dim) as Hb.
  pose proof (base_weight_ge dim) as Hg.
  apply (py_round_le _ 2 4).
  change (inject_Z 4) with 4%Q.
  destruct (10 <? ScoringAgent.critical_count profile)%Z; lra.
Qed.

(** The weight of every dimension score [compute_scores] returns is
    between 1 and 4. *)
Lemma computed_weight_bounds (cs : list CheckResult) (profile : Profile)
    (sel : list string) (sr : ScoringResult) (d : string) :
  ScoringAgent.compute_scores cs profile sel = Ok sr →
  (1 <= default 1 (weight <$> dict_get d (dimension_scores sr)) <= 4)%Q.
Proof.
  intros Hsr.
  destruct (compute_scores_Ok cs profile sel sr Hsr) as (_ & _ & _ & Hs & _).
  destruct (dict_get d (dimension_scores sr)) as [ds|] eqn:E; simpl; [|lra].
  apply Hs in E. split; [by eapply dimension_score_weight_pos|].
  apply dimension_score_Ok in E as [(_ & _ & ->)|(_ & -> & _)]; [lra|].
  apply dimension_weight_le.
Qed.

Lemma severity_score_bounds (sev : string) :
  (0 <= default 4 (RemediationAgent.severity_scores !! sev) <= 10)%Z ∧
  (sev = "medium" → default 4%Z (RemediationAgent.severity_scores !! sev) = 4%Z).
Proof.
  unfold RemediationAgent.severity_scores.
  rewrite !lookup_insert, lookup_singleton.
  repeat case_decide; simpl; split; try lia; try done; intros ->; done.
Qed.

(** X12.  When the scoring result comes from the scoring agent and no
    failing check has a frequency above 1, no issue reaches the immediate
    phase of the plan: the next-sprint phase holds exactly the high-severity
    issues, and every other issue of the ranking, the critical ones
    included, is in the backlog. *)
Theorem critical_issues_wait_in_backlog (cs0 cs : list CheckResult)
    (profile : Profile) (sel : list string) (sr : ScoringResult)
    (ranked : list Issue) :
  ScoringAgent.compute_scores cs0 profile sel = Ok sr →
  RemediationAgent._rank_issues cs sr = Ok ranked →
  Forall (λ c, ∀ f, RemediationAgent._extract_frequency c = Ok f → (f <= 1)%Q)
    (List.filter failing cs) →
  let plan := RemediationAgent._generate_plan ranked in
  count (P0_immediate plan) = 0%nat ∧
  issues (P0_immediate plan) = [] ∧
  issues (P1_next_sprint plan)
  = issue_check_id <$>
    List.filter (λ i, String.eqb (issue_severity i) "high") ranked ∧
  ∀ i, i ∈ ranked → issue_severity i ≠ "high" →
       issue_check_id i ∈ issues (P2_backlog plan).
Proof.
  intros Hsr Hranked Hfreq.
  apply rank_issues_Ok in Hranked as (found & Hfound & ->).
  apply mapM_Ok_Forall2 in Hfound.
  assert (Hprio : Forall (λ i, (priority_score i <= 40)%Q ∧
                               (issue_severity i = "medium" →
                                (priority_score i <= 20)%Q)) found).
  { revert Hfreq Hfound. generalize (List.filter failing cs).
    intros l0 Hfreq Hfound.
    induction Hfound as [|c i l found Hi _ IH]; [constructor|].
    apply Forall_cons in Hfreq as [Hf Hfreq]. constructor; [|by apply IH].
    apply make_issue_Ok in Hi
      as (f & cols & Hfr & _ & _ & _ & Hsev & Hp & _).
    specialize (Hf f Hfr).
    pose proof (computed_weight_bounds cs0 profile sel sr (dimension_of c) Hsr)
      as Hw.
    destruct (severity_score_bounds (default "medium" (severity c)))
      as [Hs Hm].
    set (w := default 1%Q (weight <$> _)) in *.
    set (s := default 4%Z _) in *.
    assert (Hs' : (0 <= inject_Z s <= 10)%Q).
    { change 0%Q with (inject_Z 0). change 10%Q with (inject_Z 10).
      rewrite <- !Zle_Qle. lia. }
    assert (Hsw : (0 <= inject_Z s * w)%Q) by nra.
    assert (Hprod : (inject_Z s * f * w <= inject_Z s * w)%Q).
    { assert (0 <= inject_Z s * w * (1 - f))%Q by (apply Qmult_le_0_compat; lra).
      lra. }
    rewrite Hp. split.
    - apply (py_round_le _ 2 40). change (inject_Z 40) with 40%Q. nra.
    - intros Hmed. rewrite Hsev in Hmed. specialize (Hm Hmed).
      apply (py_round_le _ 2 20). change (inject_Z 20) with 20%Q.
      assert (Hs4 : (inject_Z s == 4)%Q) by (by rewrite Hm).
      nra. }
  set (ranked := sort_desc priority_score found).
  assert (Hprio' : Forall (λ i, (priority_score i <= 40)%Q ∧
                                (issue_severity i = "medium" →
                                 (priority_score i <= 20)%Q)) ranked).
  { unfold ranked. by rewrite sort_desc_Permutation. }
  rewrite Forall_forall in Hprio'.
  unfold RemediationAgent._generate_plan. cbv zeta.
  assert (E0 : List.filter
                 (λ i, (String.eqb (issue_severity i) "critical" ||
                        String.eqb (issue_severity i) "high") &&
                       Qltb 50 (priority_score i)) ranked = []).
  { rewrite (filter_ext_elem _ (λ _, false)).
    - apply filter_none.
    - intros i Hi. destruct (Hprio' i Hi) as [Hp _].
      assert (Qltb 50 (priority_score i) = false) as ->.
      { apply Qltb_ge. lra. }
      apply andb_false_r. }
  rewrite E0.
  assert (E1 : List.filter
                 (λ i, negb (RemediationAgent.issue_in i []) &&
                       (String.eqb (issue_severity i) "high" ||
                        String.eqb (issue_severity i) "medium" &&
                        Qltb 20 (priority_score i))) ranked
               = List.filter (λ i, String.eqb (issue_severity i) "high") ranked).
  { apply filter_ext_elem. intros i Hi. destruct (Hprio' i Hi) as [_ Hm].
    simpl. destruct (String.eqb (issue_severity i) "medium") eqn:E; simpl;
      [|by rewrite orb_false_r].
    apply String.eqb_eq in E.
    assert (Qltb 20 (priority_score i) = false) as ->.
    { apply Qltb_ge. by apply Hm. }
    by rewrite orb_false_r. }
  rewrite E1. simpl. split_and!; try done.
  intros i Hi Hsev. apply list_elem_of_fmap. exists i. split; [done|].
  apply list_elem_of_In, filter_In. split; [by apply list_elem_of_In|].
  destruct (RemediationAgent.issue_in i _) eqn:E; [|done].
  apply (issue_in_filter (λ i, String.eqb (issue_severity i) "high")) in E.
  - by apply String.eqb_eq in E.
  - intros j Hj. apply issue_eqb_fields in Hj as [-> _]. done.
Qed.

(** X13.  The expected score gain of an issue never exceeds the headroom of
    its dimension: 100 minus the dimension's current score (100 when the
    dimension has no score), rounded to two decimals.  It is not negative
    when the current score is at most 100 and the frequency of the check is
    not negative. *)
Theorem expected_gain_within_headroom (sr : ScoringResult) (c : CheckResult)
    (i : Issue) :
  RemediationAgent.make_issue sr c = Ok i →
  let current_score :=
    default 100%Q (score <$> dict_get (dimension_of c) (dimension_scores sr)) in
  (expected_score_gain i <= py_round (100 - current_score) 2)%Q ∧
  ((current_score <= 100)%Q →
   (∀ f, RemediationAgent._extract_frequency c = Ok f → (0 <= f)%Q) →
   (0 <= expected_score_gain i)%Q).
Proof.
  intros Hi. apply make_issue_Ok in Hi
    as (f & cols & Hfr & _ & _ & _ & _ & _ & _ & _ & Hg).
  cbv zeta. rewrite Hg. split.
  - apply py_round_mono, py_min_le_r.
  - intros Hs Hf. specialize (Hf f Hfr).
    apply (py_round_ge _ 2 0). change (inject_Z 0) with 0%Q.
    apply py_min_ge; [|lra].
    assert (0 <= default (4 # 10)%Q
                   (RemediationAgent.severity_multiplier
                    !! default "medium" (severity c)))%Q.
    { unfold RemediationAgent.severity_multiplier.
      rewrite !lookup_insert, lookup_singleton.
      repeat case_decide; simpl; lra. }
    nra.
Qed.
End remediation_plan_facts.

(** ** Scores of executed checks *)

Section scoring_bounds.
Context `{Runtime}.

(** Scoring returns, and stays within 0 and 100, on checks that can be
    scored and whose error rates are not negative. *)
Lemma compute_scores_bounded (cs : list CheckResult) (profile : Profile)
    (sel : list string) :
  Forall well_rated cs →
  ∃ r,
    ScoringAgent.compute_scores cs profile sel = Ok r ∧
    (∀ d ds, dict_get d (dimension_scores r) = Some ds →
       (0 <= score ds <= 100)%Q) ∧
    (0 <= composite_dqs r <= 100)%Q.
Proof.
  intros Hall.
  assert (Hsc : Forall (λ c, scorable c = true) cs).
  { eapply Forall_impl; [exact Hall|]. by intros c [? _]. }
  assert (Hnn : Forall (λ c, rate_nonneg c = true) cs).
  { eapply Forall_impl; [exact Hall|]. by intros c [_ ?]. }
  destruct (compute_scores_total cs profile sel Hsc) as [r Hr].
  destruct (compute_scores_Ok cs profile sel r Hr) as (Hnd & Hw & Hk & Hs & Hc).
  assert (Hpos : Forall (λ e, (1 <= weight e.2)%Q) (dimension_scores r)).
  { apply Forall_forall. intros [d ds] Hin. simpl.
    apply (dimension_score_weight_pos d (checks_of d cs) profile).
    apply Hs. by apply dict_get_elem_of. }
  assert (Hone : ∀ d ds, dict_get d (dimension_scores r) = Some ds →
            (0 <= score ds <= 100)%Q).
  { intros d ds Hd. apply Hs in Hd. split.
    - by apply (dimension_score_nonneg d (checks_of d cs) profile).
    - apply (dimension_score_le_100 d (checks_of d cs) profile); [done|].
      unfold checks_of. apply Forall_forall. intros c Hin.
      apply list_elem_of_In, filter_In in Hin as [Hin _].
      rewrite Forall_forall in Hnn. apply Hnn. by apply list_elem_of_In. }
  assert (Hbounds : Forall (λ e, (0 <= score e.2 <= 100)%Q) (dimension_scores r)).
  { apply Forall_forall. intros [d ds] Hin. simpl.
    apply (Hone d). by apply dict_get_elem_of. }
  exists r. split_and!; [done|done| |].
  - rewrite Hc, composite_value by (by try apply scores_weights_agree).
    apply (py_round_ge _ 2 0). change (inject_Z 0) with 0%Q.
    pose proof (weighted_sum_bounds _ 100 Hpos Hbounds) as Hsum.
    pose proof (weight_sum_ge _ Hpos) as Hws.
    pose proof (Qnat_nonneg (length (dimension_scores r))).
    unfold weighted_mean.
    destruct (Qlt_le_dec 0 (weight_sum (dimension_scores r))) as [Hlt|Hle].
    + apply Qle_shift_div_l; [done|lra].
    + rewrite Qdiv_by_zero by lra. lra.
  - rewrite Hc, composite_value by (by try apply scores_weights_agree).
    apply (py_round_le _ 2 100). change (inject_Z 100) with 100%Q.
    pose proof (weighted_sum_bounds _ 100 Hpos Hbounds) as Hsum.
    pose proof (weight_sum_ge _ Hpos) as Hws.
    pose proof (Qnat_nonneg (length (dimension_scores r))).
    unfold weighted_mean.
    destruct (Qlt_le_dec 0 (weight_sum (dimension_scores r))) as [Hlt|Hle].
    + apply Qle_shift_div_r; [done|lra].
    + rewrite Qdiv_by_zero by lra. lra.
Qed.

(** X5.  Whatever the executor returns for a well-formed frame, the scoring
    agent takes, under any profile and any selection: it returns, and every
    dimension score and the composite lie between 0 and 100. *)
Theorem executed_checks_score_within_bounds (df : DataFrame)
    (profile profile' : Profile) (sel sel' : list string)
    (reference_data : option (gmap string DataFrame)) (res : CheckResults) :
  df_wf df →
  CheckExecutorAgent.execute_checks df profile sel reference_data = Ok res →
  ∃ r,
    ScoringAgent.compute_scores (check_results res) profile' sel' = Ok r ∧
    (∀ d ds, dict_get d (dimension_scores r) = Some ds →
       (0 <= score ds <= 100)%Q) ∧
    (0 <= composite_dqs r <= 100)%Q.
Proof.
  intros Hwf Hres. apply compute_scores_bounded.
  by eapply executor_results_rated.
Qed.

Lemma run_if_selected_Ok (sel : list string) (dim : string)
    (run : result (list CheckResult)) (acc : list CheckResult) :
  (dim ∈ sel → ∃ cs, run = Ok cs) →
  ∃ res, CheckExecutorAgent.run_if_selected sel dim run acc = Ok res.
Proof.
  intros Hrun. unfold CheckExecutorAgent.run_if_selected.
  destruct (bool_decide (dim ∈ sel)) eqn:E; [|by eexists].
  apply bool_decide_eq_true in E. destruct (Hrun E) as [cs ->]. by eexists.
Qed.

Lemma run_if_selected_Raise (sel : list string) (dim : string) (e : exn)
    (acc : list CheckResult) :
  dim ∈ sel →
  CheckExecutorAgent.run_if_selected sel dim (Raise e) acc = Raise e.
Proof.
  intros Hin. unfold CheckExecutorAgent.run_if_selected.
  by rewrite bool_decide_eq_true_2.
Qed.

(** The key inference raises exactly on a frame with a column and no
    row. *)
Lemma infer_key_columns_cases (df : DataFrame) (profile : Profile) :
  match df_len df, df_columns df with
  | 0%nat, _ :: _ =>
      uniqueness.infer_key_columns df profile = Raise ZeroDivisionError
  | _, _ => ∃ keys, uniqueness.infer_key_columns df profile = Ok keys
  end.
Proof.
  unfold uniqueness.infer_key_columns.
  destruct (df_len df) as [|n] eqn:En.
  - destruct (df_columns df) as [|col cols] eqn:Ec; [by eexists|].
    assert (List.filter
              (λ col0, any_in [ "id"; "key"; "uuid"; "guid"; "reference"; "ref" ]
                         (str_lower col0) &&
                       Qltb (95 # 100) (rate (nunique (df_col df col0)) 0))
              (col :: cols) = []) as ->; [|done].
    rewrite (filter_ext_elem _ (λ _, false)); [apply filter_none|].
    intros x _. apply andb_false_r.
  - destruct (List.filter _ (df_columns df)) as [|k ks]; [|by eexists].
    destruct (df_columns df); by eexists.
Qed.

(** The uniqueness block of the executor raises exactly when uniqueness is
    selected and the frame has a column and no row. *)
Lemma uniqueness_block_cases (df : DataFrame) (profile : Profile)
    (sel : list string) (acc : list CheckResult) :
  if bool_decide ("uniqueness" ∈ sel) && (df_len df =? 0)%nat &&
     negb (length (df_columns df) =? 0)%nat
  then CheckExecutorAgent.run_if_selected sel "uniqueness"
         (uniqueness.run_uniqueness_checks df profile) acc
       = Raise ZeroDivisionError
  else ∃ r, CheckExecutorAgent.run_if_selected sel "uniqueness"
              (uniqueness.run_uniqueness_checks df profile) acc
            = Ok r.
Proof.
  pose proof (infer_key_columns_cases df profile) as Hkeys.
  unfold uniqueness.run_uniqueness_checks.
  destruct (bool_decide ("uniqueness" ∈ sel)) eqn:Eu; simpl;
    [|apply run_if_selected_Ok; intros Hin;
      apply bool_decide_eq_false in Eu; done].
  apply bool_decide_eq_true in Eu.
  destruct (df_len df) as [|n]; simpl;
    [destruct (df_columns df) as [|col cols]; simpl|].
  - destruct Hkeys as [keys ->]. apply run_if_selected_Ok. by eexists.
  - rewrite Hkeys. by apply run_if_selected_Raise.
  - destruct Hkeys as [keys ->]. apply run_if_selected_Ok. by eexists.
Qed.

(** X4.  On a well-formed frame with at least one column and no row the
    executor raises [ZeroDivisionError] whenever uniqueness is among the
    selected dimensions, whatever the profile, the other selected
    dimensions and the references: the completeness checks, which come
    first, return, and the key inference of the uniqueness checks divides
    by the number of rows. *)
Theorem executor_raises_on_empty_frame (df : DataFrame) (profile : Profile)
    (sel : list string) (reference_data : option (gmap string DataFrame)) :
  df_wf df →
  "uniqueness" ∈ sel →
  df_len df = 0%nat →
  df_columns df ≠ [] →
  CheckExecutorAgent.execute_checks df profile sel reference_data
  = Raise ZeroDivisionError.
Proof.
  intros _ Hsel Hrows Hcols.
  unfold CheckExecutorAgent.execute_checks.
  destruct (run_if_selected_Ok sel "completeness"
              (Ok (completeness.run_completeness_checks df profile)) [])
    as [r1 ->]; [by eexists|]. rewrite bind_ret.
  pose proof (uniqueness_block_cases df profile sel r1) as Hu.
  rewrite bool_decide_eq_true_2, Hrows in Hu by done.
  destruct (df_columns df) as [|col cols]; [done|].
  simpl in Hu. by rewrite Hu.
Qed.
End scoring_bounds.

(** ** Counting *)

Lemma sum_list_zero {A : Type} (f : A → nat) (l : list A) :
  sum_list (f <$> l) = 0%nat ↔ ∀ x, x ∈ l → f x = 0%nat.
Proof.
  induction l as [|x l IH]; [|rewrite fmap_cons]; simpl.
  - split; [|done]. intros _ x Hx. by apply elem_of_nil in Hx.
  - split.
    + intros Hs y Hy. apply elem_of_cons in Hy as [->|Hy]; [lia|].
      apply IH; [lia|done].
    + intros Hall. rewrite (Hall x) by left. simpl. apply IH.
      intros y Hy. apply Hall. by right.
Qed.

Lemma Qnat_ratio_zero (n d : nat) :
  (0 < d)%nat → Qeq_bool (Qnat n / Qnat d) 0 = true ↔ n = 0%nat.
Proof.
  intros Hd. pose proof (Qnat_pos d Hd) as Hpos.
  rewrite Qeq_bool_iff. split.
  - intros Hq.
    assert (Hn : (Qnat n == 0)%Q).
    { assert (Hnz : ¬ (Qnat d == 0)%Q) by (intros Hz; rewrite Hz in Hpos; lra).
      assert (Hm : (Qnat n == Qnat n / Qnat d * Qnat d)%Q) by (by field).
      rewrite Hm, Hq. ring. }
    unfold Qnat, Qeq in Hn. simpl in Hn. lia.
  - intros ->. change (Qnat 0) with 0%Q. unfold Qdiv. ring.
Qed.

(** [duplicated] marks no cell exactly when the cells are pairwise
    different. *)
Lemma duplicated_from_none (seen s : list cell) :
  count_if id (duplicated_from seen s) = 0%nat ↔
  NoDup s ∧ ∀ c, c ∈ s → c ∉ seen.
Proof.
  revert seen. induction s as [|c s IH]; intros seen.
  - split; [|done]. intros _. split; [constructor|].
    intros c Hc. by apply elem_of_nil in Hc.
  - simpl duplicated_from. unfold count_if in *. simpl List.filter.
    destruct (bool_decide (c ∈ seen)) eqn:E; simpl.
    + apply bool_decide_eq_true in E. split; [done|].
      intros [_ Hall]. exfalso. by apply (Hall c); [left|].
    + apply bool_decide_eq_false in E. rewrite IH. split.
      * intros [Hnd Hall]. split.
        -- constructor; [|done]. intros Hin. apply (Hall c Hin). left.
        -- intros x Hx. apply elem_of_cons in Hx as [->|Hx]; [done|].
           intros Hseen. apply (Hall x Hx). by right.
      * intros [Hnd Hall]. apply NoDup_cons in Hnd as [Hc Hnd].
        split; [done|]. intros x Hx Hseen.
        apply elem_of_cons in Hseen as [->|Hseen]; [done|].
        apply (Hall x); [by right|done].
Qed.

Lemma duplicated_none (s : list cell) :
  count_if id (duplicated s) = 0%nat ↔ NoDup s.
Proof.
  unfold duplicated. rewrite duplicated_from_none. split; [by intros [? _]|].
  intros Hnd. split; [done|]. intros c _ Hc. by apply elem_of_nil in Hc.
Qed.

(** X8.  On a well-formed frame the duplicates check passes exactly when no
    key column that is in the frame holds a cell twice, a missing cell
    included; key columns that are not in the frame are not looked at. *)
Theorem duplicates_check_passes_iff (df : DataFrame) (key_columns : list string) :
  df_wf df →
  passed (uniqueness.check_duplicates df key_columns) = Some true ↔
  ∀ col, col ∈ key_columns → col ∈ df_columns df → NoDup (df_col df col).
Proof.
  intros Hwf. unfold uniqueness.check_duplicates.
  destruct key_columns as [|k ks].
  { simpl. split; [|done]. intros _ col Hcol. by apply elem_of_nil in Hcol. }
  set (keys := k :: ks).
  set (cols := List.filter (λ col, has_column col df) keys).
  set (dup_count := λ col, count_if id (duplicated (df_col df col))).
  cbn [passed mk_check].
  assert (Hcols : ∀ col, col ∈ cols ↔ col ∈ keys ∧ col ∈ df_columns df).
  { intros col. unfold cols.
    rewrite list_elem_of_In, filter_In, <- list_elem_of_In.
    by rewrite has_column_elem. }
  assert (Hzero : sum_list (dup_count <$> cols) = 0%nat ↔
                  ∀ col, col ∈ keys → col ∈ df_columns df →
                         NoDup (df_col df col)).
  { rewrite sum_list_zero. split.
    - intros Hall col Hk Hc. apply duplicated_none. apply Hall. by apply Hcols.
    - intros Hall col Hc. apply Hcols in Hc as [Hk Hc].
      apply duplicated_none. by apply Hall. }
  rewrite <- Hzero.
  destruct (0 <? df_len df)%nat eqn:Elen.
  - apply Nat.ltb_lt in Elen.
    split.
    + intros [= Hq]. apply Qnat_ratio_zero in Hq; [done|]. simpl length. nia.
    + intros Hs. f_equal. apply Qnat_ratio_zero; [simpl length; nia|done].
  - apply Nat.ltb_ge in Elen. split; [|done]. intros _.
    apply sum_list_zero. intros col Hc. apply Hcols in Hc as [_ Hc].
    pose proof (df_col_length df col Hwf Hc) as Hl.
    unfold dup_count. destruct (df_col df col); [done|simpl in Hl; lia].
Qed.

(** X7.  When no required fields are given, the required-fields check takes
    them from a well-formed frame: the columns whose lower-cased name
    contains one of txn_id, transaction_id, event_id, id, amount, currency
    and status.  None of them is reported missing, the check passes exactly
    when none of these columns holds a null, and when it fails its severity
    is critical. *)
Theorem inferred_required_fields (df : DataFrame) :
  df_wf df →
  let c := completeness.check_required_fields df None in
  let required :=
    columns_where
      (any_in [ "txn_id"; "transaction_id"; "event_id"; "id"; "amount";
                "currency"; "status" ]) df in
  dict_get "required_fields" (metrics c) = Some (VList (VStr <$> required)) ∧
  dict_get "missing_fields" (metrics c) = Some (VList []) ∧
  (passed c = Some true ↔ ∀ col, col ∈ required → None ∉ df_col df col) ∧
  (passed c = Some false → severity c = Some "critical").
Proof.
  intros Hwf. cbv zeta. unfold completeness.check_required_fields.
  set (required := columns_where _ df).
  assert (Hreq : ∀ col, col ∈ required → has_column col df = true).
  { intros col Hcol. apply columns_where_elem in Hcol as [Hcol _].
    by apply has_column_elem. }
  assert (Hmissing : List.filter (λ field, negb (has_column field df)) required
                     = []).
  { rewrite (filter_ext_elem _ (λ _, false)); [apply filter_none|].
    intros col Hcol. by rewrite Hreq. }
  rewrite Hmissing. cbn [metrics mk_check passed severity dict_get String.eqb
                         Ascii.eqb Bool.eqb].
  split_and!; [done|done| |].
  - rewrite ?length_fmap. simpl length. simpl andb.
    set (failing := List.filter _ required).
    assert (Hfail : failing = [] ↔ ∀ col, col ∈ required → None ∉ df_col df col).
    { unfold failing. split.
      - intros Hnil col Hcol Hnone.
        assert (Hin : col ∈ List.filter
                          (λ field, has_column field df &&
                                    Qltb 0 (rate (count_if isna (df_col df field))
                                              (df_len df))) required).
        { apply list_elem_of_In, filter_In. split; [by apply list_elem_of_In|].
          rewrite Hreq by done. simpl. apply Qltb_lt.
          pose proof (count_if_elem isna None _ Hnone eq_refl) as Hc.
          pose proof (count_if_le isna (df_col df col)) as Hle.
          assert (Hl : length (df_col df col) = df_len df).
          { apply df_col_length; [done|]. apply has_column_elem. by apply Hreq. }
          unfold cell in Hl.
          unfold rate.
          assert ((0 <? df_len df)%nat = true) as -> by (apply Nat.ltb_lt; lia).
          apply Qlt_shift_div_l; [apply Qnat_pos; lia|].
          rewrite Qmult_0_l. apply Qnat_pos. lia. }
        rewrite Hnil in Hin. by apply elem_of_nil in Hin.
      - intros Hall. rewrite (filter_ext_elem _ (λ _, false)); [apply filter_none|].
        intros col Hcol. rewrite Hreq by done. simpl. apply Qltb_ge.
        assert (count_if isna (df_col df col) = 0%nat) as ->.
        { apply count_if_zero. intros [s|] Hx; [done|]. by apply Hall in Hx. }
        unfold rate. destruct (0 <? df_len df)%nat; [|lra].
        change (Qnat 0) with 0%Q. unfold Qdiv. lra. }
    rewrite <- Hfail. clear Hfail. clearbody failing.
    destruct failing; simpl; split; done.
  - rewrite ?length_fmap. simpl length. simpl andb. simpl orb.
    clear Hmissing. by destruct (List.filter _ required).
Qed.

(** ** Reference checks *)

Section reference_facts.
Context `{Runtime}.

(** X9.  When a foreign-key check returns, the reference table has an id
    column and the check passes exactly when every cell of the checked
    column is referenced: it stays missing when read as text, or its text
    is among the texts of that id column. *)
Theorem reference_check_passes_iff (df : DataFrame) (id table col : string)
    (ref_df : DataFrame) (c : CheckResult) :
  integrity.reference_check df id table col ref_df = Ok c →
  ∃ id_col,
    integrity.ref_id_col ref_df = Ok id_col ∧
    (passed c = Some true ↔
     Forall (referenced (df_col ref_df id_col)) (df_col df col)).
Proof.
  intros Hc.
  destruct (integrity.ref_id_col ref_df) as [id_col|e] eqn:Hid.
  - exists id_col. split; [done|].
    destruct (reference_check_against df id table col ref_df id_col Hid)
      as (c' & Hc' & _ & _ & Hpassed).
    rewrite Hc in Hc'. by injection Hc' as ->.
  - unfold integrity.reference_check in Hc. rewrite Hid in Hc. done.
Qed.

Lemma count_if_split {A : Type} (p : A → bool) (l : list A) :
  (count_if p l + count_if (λ x, negb (p x)) l = length l)%nat.
Proof.
  unfold count_if. induction l as [|x l IH]; [done|]. simpl.
  destruct (p x); simpl; lia.
Qed.

Lemma count_if_mono {A : Type} (p q : A → bool) (l : list A) :
  (∀ x, p x = true → q x = true) → (count_if p l <= count_if q l)%nat.
Proof.
  intros Hpq. unfold count_if. induction l as [|x l IH]; [done|]. simpl.
  destruct (p x) eqn:Ep; [rewrite (Hpq x Ep); simpl; lia|].
  destruct (q x); simpl; lia.
Qed.

Lemma count_if_ext {A : Type} (p q : A → bool) (l : list A) :
  (∀ x, x ∈ l → p x = q x) → count_if p l = count_if q l.
Proof. intros Hpq. unfold count_if. by rewrite (filter_ext_elem p q). Qed.

(** X10.  When a well-formed frame has a card column and the BIN table a
    [bin] column, no row is counted twice: the matched and unmatched counts
    add up to at most the number of rows, and to exactly that number when
    no cell of the card column stays missing when read as text; the match
    rate is the matched count over the number of rows, and the check passes
    exactly when that rate is above 0.95. *)
Theorem bin_reconciliation_counts (df bin_ref : DataFrame) (card_col : string) :
  df_wf df →
  head (columns_where (any_in [ "card"; "pan"; "bin" ]) df) = Some card_col →
  has_column "bin" bin_ref = true →
  let c := reconciliation.check_bin_reconciliation df (Some bin_ref) in
  ∃ matched unmatched,
    dict_get "matched_count" (metrics c) = Some (VNat matched) ∧
    dict_get "unmatched_count" (metrics c) = Some (VNat unmatched) ∧
    (matched + unmatched <= df_len df)%nat ∧
    (Forall (λ v, astype_str v ≠ None) (df_col df card_col) →
     (matched + unmatched = df_len df)%nat) ∧
    dict_get "match_rate" (metrics c)
    = Some (VFloat (rate matched (df_len df))) ∧
    passed c = Some (Qltb (95 # 100) (rate matched (df_len df))).
Proof.
  intros Hwf Hcard Hbin. cbv zeta.
  unfold reconciliation.check_bin_reconciliation.
  destruct (columns_where _ df) as [|col cols] eqn:Ecols; [done|].
  injection Hcard as ->. rewrite Hbin. cbn [negb].
  set (bins := reconciliation.first6 <$> astype_str_series (df_col df card_col)).
  set (valid := str_set (df_col bin_ref "bin")).
  exists (count_if (isin valid) bins),
         (count_if (λ v, negb (isin valid v) && negb (isna v)) bins).
  assert (Hcol : card_col ∈ df_columns df).
  { eapply columns_where_elem. rewrite Ecols. left. }
  assert (Hlen : length bins = df_len df).
  { unfold bins, astype_str_series. rewrite !length_fmap.
    by apply df_col_length. }
  pose proof (count_if_split (isin valid) bins) as Hsplit.
  split_and!; try reflexivity.
  - pose proof (count_if_mono (λ v, negb (isin valid v) && negb (isna v))
                  (λ v, negb (isin valid v)) bins) as Hmono.
    rewrite <- Hlen, <- Hsplit. apply Nat.add_le_mono_l, Hmono.
    intros v Hv. by apply andb_true_iff in Hv as [-> _].
  - intros Hpresent. rewrite <- Hlen, <- Hsplit. f_equal.
    apply count_if_ext. intros x Hx. unfold bins, astype_str_series in Hx.
    apply list_elem_of_fmap in Hx as (y & -> & Hy).
    apply list_elem_of_fmap in Hy as (z & -> & Hz).
    rewrite Forall_forall in Hpresent. specialize (Hpresent z Hz).
    destruct (astype_str z); [simpl; apply andb_true_r|done].
Qed.
End reference_facts.

(** ** The profiler *)

Lemma filter_snoc {A : Type} (f : A → bool) (l : list A) (x : A) :
  List.filter f (l ++ [x]) = List.filter f l ++ (if f x then [x] else []).
Proof.
  induction l as [|y l IH]; simpl; [by destruct (f x)|].
  rewrite IH. by destruct (f y).
Qed.

Lemma append_if_snoc (f : string → bool) (seen : list string) (col : string) :
  ProfilerAgent.append_if (f col) col (List.filter f seen)
  = List.filter f (seen ++ [col]).
Proof.
  rewrite filter_snoc. unfold ProfilerAgent.append_if.
  destruct (f col); [done|by rewrite app_nil_r].
Qed.

Section profiler.
Context (df : DataFrame) (types : string → SeriesTypes).

Lemma profile_loop (seen rest : list string) :
  fold_left (ProfilerAgent.profile_column_step df types) rest (profiled df types seen)
  = profiled df types (seen ++ rest).
Proof.
  revert seen. induction rest as [|col rest IH]; intros seen.
  - by rewrite app_nil_r.
  - assert (Hstep : ProfilerAgent.profile_column_step df types (profiled df types seen) col
                    = profiled df types (seen ++ [col])).
    { unfold ProfilerAgent.profile_column_step, profiled.
      cbn [row_count column_count columns inferred_types id_columns
           timestamp_columns enum_columns numeric_columns text_columns].
      rewrite fold_left_app. cbn [fold_left].
      f_equal. f_equal.
      - apply (append_if_snoc (λ col, is_id_like (ProfilerAgent._profile_column df types col))).
      - apply (append_if_snoc (λ col, is_timestamp (ProfilerAgent._profile_column df types col))).
      - apply (append_if_snoc (λ col, is_enum_like (ProfilerAgent._profile_column df types col))).
      - apply (append_if_snoc (λ col, is_numeric (ProfilerAgent._profile_column df types col))).
      - apply (append_if_snoc (λ col, is_text (ProfilerAgent._profile_column df types col))). }
    simpl fold_left. by rewrite Hstep, IH, <- app_assoc.
Qed.

Lemma profile_profiled :
  ProfilerAgent.profile df types = profiled df types (df_columns df).
Proof. exact (profile_loop [] (df_columns df)). Qed.

(** X1.  On a frame whose column names are distinct the profiler reports
    the frame's row and column counts, keeps one column profile per column,
    in the frame's column order, each being what [_profile_column] computes
    for that column, and lists under each inferred type exactly the columns
    whose profile has that flag, in column order. *)
Theorem profile_structure :
  NoDup (df_columns df) →
  let p := ProfilerAgent.profile df types in
  let column_profile := ProfilerAgent._profile_column df types in
  row_count p = df_len df ∧
  column_count p = length (df_columns df) ∧
  dict_keys (columns p) = df_columns df ∧
  (∀ col, col ∈ df_columns df →
          dict_get col (columns p) = Some (column_profile col)) ∧
  id_columns (inferred_types p)
  = List.filter (λ col, is_id_like (column_profile col)) (df_columns df) ∧
  timestamp_columns (inferred_types p)
  = List.filter (λ col, is_timestamp (column_profile col)) (df_columns df) ∧
  enum_columns (inferred_types p)
  = List.filter (λ col, is_enum_like (column_profile col)) (df_columns df) ∧
  numeric_columns (inferred_types p)
  = List.filter (λ col, is_numeric (column_profile col)) (df_columns df) ∧
  text_columns (inferred_types p)
  = List.filter (λ col, is_text (column_profile col)) (df_columns df).
Proof.
  intros Hnd. cbv zeta. rewrite profile_profiled. unfold profiled.
  cbn [row_count column_count columns inferred_types id_columns
       timestamp_columns enum_columns numeric_columns text_columns].
  split_and!; try reflexivity.
  - by rewrite dict_fold_keys.
  - intros col Hcol. by rewrite dict_fold_get, bool_decide_eq_true_2.
Qed.

Lemma unique_from_length {A : Type} `{EqDecision A} (seen l : list A) :
  (length (unique_from seen l) <= length l)%nat.
Proof.
  revert seen. induction l as [|x l IH]; intros seen; simpl; [done|].
  destruct (bool_decide (x ∈ seen)); simpl.
  - specialize (IH seen). lia.
  - specialize (IH (x :: seen)). lia.
Qed.

Lemma omap_id_length (s : list cell) :
  (length (omap id s) + count_if isna s = length s)%nat.
Proof.
  unfold count_if, cell. induction s as [|[x|] s IH]; [done| |].
  - change (omap id (Some x :: s)) with (x :: omap id s).
    change (List.filter isna (Some x :: s)) with (List.filter isna s).
    simpl length. lia.
  - change (omap id (None :: s)) with (omap (@id (option string)) s).
    change (List.filter isna (@None string :: s))
      with (@None string :: List.filter isna s).
    simpl length. lia.
Qed.

Lemma nunique_le (s : list cell) : (nunique s + count_if isna s <= length s)%nat.
Proof.
  unfold nunique, unique.
  pose proof (unique_from_length [] (omap id s)).
  pose proof (omap_id_length s). lia.
Qed.

Lemma rate_le_1 (n d : nat) : (n <= d)%nat → (0 <= rate n d <= 1)%Q.
Proof.
  intros Hnd. split; [apply rate_nonneg_value|].
  unfold rate. destruct (0 <? d)%nat eqn:E; [|lra].
  apply Nat.ltb_lt in E.
  apply Qle_shift_div_r; [by apply Qnat_pos|].
  unfold Qnat. rewrite Qmult_1_l, <- Zle_Qle. lia.
Qed.

(** X2.  In the profile of a column of a well-formed frame the null count
    and the unique count are not negative and together do not exceed the
    number of rows, the null rate and the cardinality ratio lie between 0
    and 1, and an id-like column is never enum-like.  On a frame without
    rows no column is id-like and every column is enum-like. *)
Theorem column_profile_aggregates (col : string) :
  df_wf df → col ∈ df_columns df →
  let cp := ProfilerAgent._profile_column df types col in
  (0 <= null_count cp)%Z ∧ (0 <= unique_count cp)%Z ∧
  (null_count cp + unique_count cp <= Z.of_nat (df_len df))%Z ∧
  (0 <= null_rate cp <= 1)%Q ∧ (0 <= cardinality_ratio cp <= 1)%Q ∧
  (is_id_like cp = true → is_enum_like cp = false) ∧
  (df_len df = 0%nat → is_id_like cp = false ∧ is_enum_like cp = true).
Proof.
  intros Hwf Hcol. cbv zeta.
  pose proof (df_col_length df col Hwf Hcol) as Hlen.
  pose proof (nunique_le (df_col df col)) as Hn. unfold cell in *.
  unfold ProfilerAgent._profile_column.
  cbn [null_count unique_count null_rate cardinality_ratio is_id_like
       is_enum_like].
  split_and!; try lia.
  - apply rate_le_1. lia.
  - apply rate_le_1. lia.
  - apply rate_le_1. lia.
  - apply rate_le_1. lia.
  - intros Hid. apply andb_true_iff in Hid as [_ Hid]. apply Qltb_lt in Hid.
    apply andb_false_iff. right. apply Qltb_ge. lra.
  - intros Hz. rewrite Hz in *. unfold rate. simpl.
    split; [apply andb_false_r|].
    assert (nunique (df_col df col) = 0%nat) as -> by lia. done.
Qed.
End profiler.

(** ** The ascending sort *)

Section sort_by_facts.
Context {A : Type} (key : A → Q).

Lemma insert_asc_by_Permutation (x : A) (l : list A) :
  Permutation (insert_asc_by key x l) (x :: l).
Proof.
  induction l as [|y l IH]; simpl; [done|].
  destruct (Qltb (key y) (key x)); [|done].
  rewrite IH. apply perm_swap.
Qed.

Lemma sort_asc_by_Permutation (l : list A) : Permutation (sort_asc_by key l) l.
Proof.
  unfold sort_asc_by. induction l as [|x l IH]; simpl; [done|].
  rewrite insert_asc_by_Permutation. by constructor.
Qed.

Lemma insert_asc_by_sorted (x : A) (l : list A) :
  StronglySorted (λ a b, (key a <= key b)%Q) l →
  StronglySorted (λ a b, (key a <= key b)%Q) (insert_asc_by key x l).
Proof.
  induction 1 as [|y l Hs IH Hy]; simpl.
  - repeat constructor.
  - destruct (Qltb (key y) (key x)) eqn:E.
    + apply Qltb_lt in E. constructor; [done|].
      rewrite (insert_asc_by_Permutation x l). constructor; [lra|done].
    + apply Qltb_ge in E. constructor; [by constructor|].
      constructor; [done|].
      eapply Forall_impl; [exact Hy|]. simpl. intros z Hz. lra.
Qed.

Lemma sort_asc_by_sorted (l : list A) :
  StronglySorted (λ a b, (key a <= key b)%Q) (sort_asc_by key l).
Proof.
  unfold sort_asc_by. induction l as [|x l IH]; simpl; [constructor|].
  by apply insert_asc_by_sorted.
Qed.

Lemma insert_asc_by_filter (p : Q) (x : A) (l : list A) :
  List.filter (λ a, Qeq_bool (key a) p) (insert_asc_by key x l)
  = List.filter (λ a, Qeq_bool (key a) p) (x :: l).
Proof.
  induction l as [|y l IH]; [done|].
  simpl insert_asc_by. destruct (Qltb (key y) (key x)) eqn:E; [|done].
  apply Qltb_lt in E. simpl. simpl in IH. rewrite IH.
  destruct (Qeq_bool (key x) p) eqn:Ex; [|done].
  destruct (Qeq_bool (key y) p) eqn:Ey; [|done].
  apply Qeq_bool_iff in Ex, Ey. lra.
Qed.

Lemma sort_asc_by_stable (p : Q) (l : list A) :
  List.filter (λ a, Qeq_bool (key a) p) (sort_asc_by key l)
  = List.filter (λ a, Qeq_bool (key a) p) l.
Proof.
  unfold sort_asc_by. induction l as [|x l IH]; [done|].
  simpl foldr. rewrite insert_asc_by_filter. simpl. by rewrite IH.
Qed.
End sort_by_facts.

(** ** The explainer *)

Section explainer.
Context `{Runtime} `{Rendering}.

Lemma summaries_mapM (cs : list CheckResult) (acc : list IssueSummary) :
  foldlM
    (λ summaries c,
       if negb (default true (passed c))
       then summary ← ExplainerAgent.summarize c; mret (summaries ++ [summary])
       else Ok summaries)
    acc cs
  = mapM ExplainerAgent.summarize (List.filter failing cs)
    ≫= λ l, Ok (acc ++ l).
Proof.
  revert acc. induction cs as [|c cs IH]; intros acc; simpl.
  - by rewrite app_nil_r.
  - unfold failing at 1. destruct (negb (default true (passed c))); simpl.
    + destruct (ExplainerAgent.summarize c) as [i|]; simpl; [|done].
      rewrite IH.
      destruct (mapM _ (List.filter failing cs)) as [l|]; simpl; [|done].
      by rewrite <- app_assoc.
    + apply IH.
Qed.

Lemma issue_summaries_Ok (cs : list CheckResult) (l : list IssueSummary) :
  ExplainerAgent._generate_issue_summaries cs = Ok l ↔
  ∃ found, mapM ExplainerAgent.summarize (List.filter failing cs) = Ok found ∧
           l = sort_asc_by ExplainerAgent.severity_rank found.
Proof.
  unfold ExplainerAgent._generate_issue_summaries.
  rewrite summaries_mapM.
  destruct (mapM _ (List.filter failing cs)) as [found|e]; simpl.
  - split.
    + intros [= <-]. by exists found.
    + by intros (found' & [= <-] & ->).
  - split; [done|]. by intros (found' & [=] & _).
Qed.

(** X14.  The issue summaries are the summaries of the failing checks,
    reordered by severity rank (critical, high, medium, then low and every
    other severity); summaries of the same rank keep the order of their
    check results. *)
Theorem issue_summaries_by_severity (cs : list CheckResult)
    (l : list IssueSummary) :
  ExplainerAgent._generate_issue_summaries cs = Ok l →
  ∃ found,
    mapM ExplainerAgent.summarize (List.filter failing cs) = Ok found ∧
    Permutation l found ∧
    StronglySorted
      (λ a b, (ExplainerAgent.severity_rank a
               <= ExplainerAgent.severity_rank b)%Q) l ∧
    ∀ r, List.filter (λ s, Qeq_bool (ExplainerAgent.severity_rank s) r) l
         = List.filter (λ s, Qeq_bool (ExplainerAgent.severity_rank s) r) found.
Proof.
  intros Hl. apply issue_summaries_Ok in Hl as (found & Hfound & ->).
  exists found. split_and!; [done| | |].
  - apply sort_asc_by_Permutation.
  - apply sort_asc_by_sorted.
  - intros r. apply sort_asc_by_stable.
Qed.

Lemma summarize_fields (c : CheckResult) (s : IssueSummary) :
  ExplainerAgent.summarize c = Ok s →
  check_id c = Some (summary_check_id s) ∧
  dimension c = Some (summary_dimension s) ∧
  severity c = Some (summary_severity s).
Proof.
  unfold ExplainerAgent.summarize, ExplainerAgent.require. intros Hs.
  destruct (check_id c) as [id|]; [|done].
  destruct (dimension c) as [d|]; [|done].
  destruct (severity c) as [sev|]; [|done].
  rewrite !bind_ret in Hs.
  apply bind_Ok in Hs as (w & _ & Hs). apply bind_Ok in Hs as (wh & _ & Hs).
  apply bind_Ok in Hs as (rc & _ & Hs). apply Ok_inj in Hs. by subst s.
Qed.

Lemma summaries_have_dimensions (cs : list CheckResult)
    (found : list IssueSummary) :
  mapM ExplainerAgent.summarize cs = Ok found →
  Forall (λ c, is_Some (check_id c) ∧ is_Some (dimension c) ∧
               is_Some (severity c)) cs.
Proof.
  intros Hf. apply mapM_Ok_Forall2 in Hf.
  induction Hf as [|c s cs found Hs _ IH]; constructor; [|done].
  apply summarize_fields in Hs as (-> & -> & ->). by split_and!.
Qed.

Lemma failing_at_failing (level : string) (cs : list CheckResult) (c : CheckResult) :
  c ∈ ExplainerAgent.failing_at level cs → c ∈ List.filter failing cs.
Proof.
  unfold ExplainerAgent.failing_at. rewrite !list_elem_of_In, !filter_In.
  intros [Hin Hc]. split; [done|]. by apply andb_true_iff in Hc as [_ ?].
Qed.

Lemma summary_data_total (sr : ScoringResult) (cs : list CheckResult)
    (profile : Profile) :
  Forall (λ c, is_Some (check_id c) ∧ is_Some (dimension c) ∧
               is_Some (severity c)) (List.filter failing cs) →
  ∃ data, ExplainerAgent.summary_data sr cs profile = Ok data.
Proof.
  intros Hall. unfold ExplainerAgent.summary_data.
  assert (∀ acc, ∃ l,
            foldlM
              (λ failing0 c,
                 if negb (default true (passed c))
                 then
                   check_id ← ExplainerAgent.require (check_id c);
                   dimension ← ExplainerAgent.require (dimension c);
                   severity ← ExplainerAgent.require (severity c);
                   mret (failing0 ++ [(check_id, dimension, severity, metrics c)])
                 else Ok failing0) acc cs = Ok l) as Hfold.
  { induction cs as [|c cs IH]; intros acc; [by eexists|]. simpl.
    simpl in Hall. fold (failing c) in *.
    destruct (failing c) eqn:E.
    - apply Forall_cons in Hall as [([id ->] & [d ->] & [sev ->]) Hall].
      simpl. by apply IH.
    - by apply IH. }
  destruct (Hfold []) as [l ->]. by eexists.
Qed.

Lemma stub_summaries (sr : ScoringResult) (cs : list CheckResult)
    (profile : Profile) (r : string * list IssueSummary) :
  ExplainerAgent._explain_with_stub sr cs profile = Ok r →
  ExplainerAgent._generate_issue_summaries cs = Ok r.2.
Proof.
  intros Hr. unfold ExplainerAgent._explain_with_stub in Hr.
  destruct (if Qle_bool 90 _ then _ else _) as [level assessment].
  apply bind_Ok in Hr as (pa & _ & Hr).
  apply bind_Ok in Hr as (l & Hl & Hr). apply Ok_inj in Hr. by subst r.
Qed.

Lemma stub_returns (sr : ScoringResult) (cs : list CheckResult)
    (profile : Profile) (l : list IssueSummary) :
  ExplainerAgent._generate_issue_summaries cs = Ok l →
  ∃ r, ExplainerAgent._explain_with_stub sr cs profile = Ok r ∧ r.2 = l.
Proof.
  intros Hl. unfold ExplainerAgent._explain_with_stub.
  destruct (if Qle_bool 90 _ then _ else _) as [level assessment].
  rewrite Hl.
  apply issue_summaries_Ok in Hl as (found & Hfound & _).
  apply summaries_have_dimensions in Hfound. rewrite Forall_forall in Hfound.
  destruct (ExplainerAgent.failing_at "critical" cs) as [|c0 crit] eqn:Ec.
  - destruct (ExplainerAgent.failing_at "high" cs); rewrite !bind_ret;
      by eexists.
  - assert (Hc0 : c0 ∈ List.filter failing cs).
    { apply (failing_at_failing "critical"). rewrite Ec. left. }
    destruct (Hfound c0 Hc0) as (_ & [d Hd] & _). rewrite Hd.
    simpl ExplainerAgent.require. rewrite !bind_ret. by eexists.
Qed.

Lemma explain_returns (self : ExplainerAgent) (sr : ScoringResult)
    (cs : list CheckResult) (profile : Profile) (l : list IssueSummary) :
  ExplainerAgent._generate_issue_summaries cs = Ok l →
  ∃ r, ExplainerAgent.explain self sr cs profile = Ok r ∧
       issue_summaries r = l ∧
       mode r = if use_llm self then "llm" else "stub".
Proof.
  intros Hl. unfold ExplainerAgent.explain.
  assert (∃ x, match use_llm self, client self with
               | true, Some chat =>
                   ExplainerAgent._explain_with_llm chat sr cs profile
               | _, _ => ExplainerAgent._explain_with_stub sr cs profile
               end = Ok x ∧ x.2 = l) as (x & -> & Hx).
  { destruct (use_llm self); [destruct (client self) as [chat|]|];
      try (by apply stub_returns).
    unfold ExplainerAgent._explain_with_llm.
    destruct (summary_data_total sr cs profile) as [data ->].
    { pose proof Hl as Hl'.
      apply issue_summaries_Ok in Hl' as (found & Hfound & _).
      by apply summaries_have_dimensions in Hfound. }
    rewrite bind_ret. destruct (chat _ _); [|by apply stub_returns].
    rewrite Hl, bind_ret. by eexists. }
  rewrite bind_ret. eexists. split; [reflexivity|]. by split.
Qed.

(** X15.  The explainer's issue summaries do not depend on its mode:
    whatever the agent's configuration and whatever its chat client answers,
    [explain] returns exactly when [_generate_issue_summaries] does, with
    those summaries; the mode it reports is llm when [use_llm] is set and
    stub otherwise. *)
Theorem explainer_summaries_independent_of_mode (self : ExplainerAgent)
    (sr : ScoringResult) (cs : list CheckResult) (profile : Profile) :
  (∀ r, ExplainerAgent.explain self sr cs profile = Ok r →
        ExplainerAgent._generate_issue_summaries cs = Ok (issue_summaries r)) ∧
  (∀ l, ExplainerAgent._generate_issue_summaries cs = Ok l →
        ∃ r, ExplainerAgent.explain self sr cs profile = Ok r ∧
             issue_summaries r = l ∧
             mode r = if use_llm self then "llm" else "stub").
Proof.
  split; [|apply explain_returns].
  intros r Hr. unfold ExplainerAgent.explain in Hr.
  apply bind_Ok in Hr as (x & Hx & Hr). apply Ok_inj in Hr. subst r.
  cbn [issue_summaries].
  destruct (use_llm self); [destruct (client self) as [chat|]|];
    try (by eapply stub_summaries).
  unfold ExplainerAgent._explain_with_llm in Hx.
  apply bind_Ok in Hx as (data & _ & Hx).
  destruct (chat _ _); [|by eapply stub_summaries].
  apply bind_Ok in Hx as (l & Hl & Hx). apply Ok_inj in Hx. by subst x.
Qed.
End explainer.

(** ** The explainer on results of the catalog *)

Lemma rate_keys_elem (k : string) :
  k ∈ rate_keys ↔
  k = "overall_null_rate" ∨ k = "overall_duplicate_rate" ∨
  k = "overall_invalid_rate" ∨ k = "inconsistent_rate" ∨
  k = "violation_rate" ∨ k = "excessive_delay_rate" ∨
  k = "misordered_rate" ∨ k = "match_rate" ∨
  k = "overall_reconciliation_rate".
Proof.
  unfold rate_keys. rewrite !elem_of_cons, elem_of_nil. tauto.
Qed.

Section explainer_returns.
Context `{Runtime} `{Rendering}.

Lemma shaped_pct_of (c : CheckResult) (k : string) :
  shaped c = true → k ∈ rate_keys →
  ∃ s, ExplainerAgent.pct_of k (metrics c) = Ok s.
Proof.
  intros Hs Hk. unfold ExplainerAgent.pct_of.
  destruct (dict_get k (metrics c)) as [v|] eqn:E; [|by eexists].
  destruct (shaped_rate c k v Hs Hk E) as [q ->]. by eexists.
Qed.

Lemma shaped_pct_of_complement (c : CheckResult) (k : string) :
  shaped c = true → k ∈ rate_keys →
  ∃ s, ExplainerAgent.pct_of_complement k (metrics c) = Ok s.
Proof.
  intros Hs Hk. unfold ExplainerAgent.pct_of_complement.
  destruct (dict_get k (metrics c)) as [v|] eqn:E; [|by eexists].
  destruct (shaped_rate c k v Hs Hk E) as [q ->]. by eexists.
Qed.

Lemma describe_what_total (c : CheckResult) :
  shaped c = true → is_Some (check_id c) →
  ∃ s, ExplainerAgent._describe_what c = Ok s.
Proof.
  intros Hs [id Hid]. unfold ExplainerAgent._describe_what.
  rewrite Hid. simpl ExplainerAgent.require. rewrite bind_ret.
  repeat match goal with
  | |- context [ExplainerAgent.pct_of ?k (metrics c)] =>
      let s := fresh "s" in
      destruct (shaped_pct_of c k Hs) as [s ->];
      [apply rate_keys_elem; tauto|rewrite ?bind_ret]
  | |- context [ExplainerAgent.pct_of_complement ?k (metrics c)] =>
      let s := fresh "s" in
      destruct (shaped_pct_of_complement c k Hs) as [s ->];
      [apply rate_keys_elem; tauto|rewrite ?bind_ret]
  end.
  by eexists.
Qed.

Lemma describe_where_total (c : CheckResult) :
  shaped c = true → ∃ s, ExplainerAgent._describe_where c = Ok s.
Proof.
  unfold shaped, shaped_metrics. intros Hs.
  apply andb_true_iff in Hs as [Hs _]. apply andb_true_iff in Hs as [Hs _].
  apply andb_true_iff in Hs as [_ Hfc].
  unfold ExplainerAgent._describe_where.
  assert (Hfallback :
    ∃ s, match first_present [ "currency_column"; "amount_column";
                               "status_column"; "txn_id_column" ] (metrics c) with
         | Some v => Ok ("Column: " +:+ py_str v)
         | None => Ok "Multiple columns affected"
         end = Ok s).
  { destruct (first_present _ _); by eexists. }
  destruct (dict_get "failing_columns" (metrics c)) as [v|]; simpl default;
    [|exact Hfallback].
  destruct v as [| | | | |l|]; try done. simpl in Hfc.
  destruct l as [|v l]; [exact Hfallback|].
  change (py_truthy (VList (v :: l))) with true. cbv iota.
  assert (Htake : forallb names_column (take 3 (v :: l)) = true).
  { apply forallb_forall. intros x Hx. rewrite forallb_forall in Hfc.
    apply Hfc. apply list_elem_of_In. apply list_elem_of_In in Hx.
    by apply (subseteq_take 3 (v :: l)). }
  destruct (column_entries_names _ Htake) as (names & Hn & _).
  simpl in Hfc. apply andb_true_iff in Hfc as [Hv _].
  destruct v; try done. cbn [py_index0]. rewrite bind_ret.
  cbn [py_slice]. rewrite bind_ret. cbn [py_iter]. rewrite bind_ret.
  rewrite Hn, !bind_ret, py_join_names, bind_ret. by eexists.
Qed.

Lemma summarize_total (c : CheckResult) :
  shaped c = true → is_Some (check_id c) → is_Some (dimension c) →
  is_Some (severity c) →
  ∃ s, ExplainerAgent.summarize c = Ok s.
Proof.
  intros Hs [id Hid] [d Hd] [sev Hsev].
  destruct (describe_what_total c Hs) as [w Hw]; [by rewrite Hid|].
  destruct (describe_where_total c Hs) as [wh Hwh].
  unfold ExplainerAgent.summarize, ExplainerAgent._infer_root_cause.
  rewrite Hid, Hd, Hsev. simpl ExplainerAgent.require.
  rewrite !bind_ret, Hw, bind_ret, Hwh, !bind_ret. by eexists.
Qed.

Lemma explain_total (self : ExplainerAgent) (sr : ScoringResult)
    (cs : list CheckResult) (profile : Profile) :
  Forall (λ c, failing c = true →
               shaped c = true ∧ is_Some (check_id c) ∧
               is_Some (dimension c) ∧ is_Some (severity c)) cs →
  ∃ r,
    ExplainerAgent.explain self sr cs profile = Ok r ∧
    length (issue_summaries r) = count_if failing cs.
Proof.
  intros Hall.
  destruct (mapM_total ExplainerAgent.summarize (λ _, True)
              (List.filter failing cs)) as (found & Hfound & _ & Hlen).
  { apply Forall_forall. intros c Hc.
    apply list_elem_of_In, filter_In in Hc as [Hc Hf].
    rewrite Forall_forall in Hall.
    destruct (Hall c (proj2 (list_elem_of_In _ _) Hc) Hf)
      as (Hs & Hid & Hd & Hsev).
    destruct (summarize_total c Hs Hid Hd Hsev) as [s Hsum]. by exists s. }
  destruct (explain_returns self sr cs profile
              (sort_asc_by ExplainerAgent.severity_rank found))
    as (r & Hr & Hsum & _).
  { apply issue_summaries_Ok. by exists found. }
  exists r. split; [done|].
  rewrite Hsum, sort_asc_by_Permutation. exact Hlen.
Qed.
End explainer_returns.

(** ** The test exporter *)

Lemma value_eqb_sym (a b : value) : value_eqb a b = value_eqb b a.
Proof.
  unfold value_eqb.
  destruct (value_num a) as [x|] eqn:Ea, (value_num b) as [y|] eqn:Eb.
  - destruct (Qeq_bool x y) eqn:E1, (Qeq_bool y x) eqn:E2; try done.
    + apply Qeq_bool_iff in E1. symmetry in E1. apply Qeq_bool_iff in E1.
      congruence.
    + apply Qeq_bool_iff in E2. symmetry in E2. apply Qeq_bool_iff in E2.
      congruence.
  - destruct a, b; try done.
  - destruct a, b; try done.
  - destruct a, b; try done. apply String.eqb_sym.
Qed.

Lemma value_eqb_refl (a : value) : hashable a = true → value_eqb a a = true.
Proof.
  destruct a; try done; intros _; unfold value_eqb; simpl;
    try (by apply Qeq_bool_iff). apply String.eqb_refl.
Qed.

Section exporter.
Context `{Rendering} `{Serializer}.

Lemma append_test_names (field : value) (test : DbtTest)
    (d : list (value * DbtColumn)) :
  (λ e, column_name e.2) <$> TestExportAgent.append_test field test d
  = (λ e, column_name e.2) <$> d.
Proof.
  unfold TestExportAgent.append_test. induction d as [|e d IH]; [done|].
  rewrite !fmap_cons, IH. by destruct (value_eqb field e.1).
Qed.

Lemma distinct_columns_names (c1 c2 : list DbtColumn) :
  column_name <$> c1 = column_name <$> c2 →
  distinct_columns c1 = distinct_columns c2.
Proof.
  revert c2. induction c1 as [|a c1 IH]; intros [|b c2]; try done.
  rewrite !fmap_cons. intros [= Hab Hrest]. simpl.
  rewrite (IH c2 Hrest), Hab. f_equal.
  clear IH. revert c2 Hrest. induction c1 as [|x c1 IH]; intros [|y c2]; try done.
  rewrite !fmap_cons. intros [= Hxy Hrest]. simpl. by rewrite Hxy, (IH c2).
Qed.

Lemma distinct_columns_snoc (cols : list DbtColumn) (col : DbtColumn) :
  distinct_columns cols = true →
  forallb (λ other, negb (value_eqb (column_name col) (column_name other))) cols
  = true →
  distinct_columns (cols ++ [col]) = true.
Proof.
  induction cols as [|a cols IH]; [done|]. simpl.
  intros Hd Hall. apply andb_true_iff in Hd as [Ha Hd].
  apply andb_true_iff in Hall as [Hca Hall].
  rewrite IH by done. rewrite andb_true_r.
  rewrite forallb_app, Ha. simpl. rewrite andb_true_r.
  by rewrite value_eqb_sym.
Qed.

Lemma add_test_ok (test : value → DbtTest) (d d' : list (value * DbtColumn))
    (field : value) :
  columns_dict_ok d →
  TestExportAgent.add_test test d field = Ok d' →
  columns_dict_ok d'.
Proof.
  intros [Hnamed Hdist]. unfold TestExportAgent.add_test.
  destruct (hashable field) eqn:Eh; [|done]. intros Hd'. apply Ok_inj in Hd'.
  subst d'.
  set (d1 := if TestExportAgent.has_key field d then d else d ++ [_]).
  assert (Hd1 : Forall (λ e, column_name e.2 = e.1 ∧
                             (tests e.2 ≠ [] ∨ value_eqb field e.1 = true)) d1 ∧
                distinct_columns (snd <$> d1) = true).
  { unfold d1. destruct (TestExportAgent.has_key field d) eqn:Ek.
    - split; [|done]. eapply Forall_impl; [exact Hnamed|].
      intros e [? ?]. split; [done|by left].
    - split.
      + apply Forall_app. split.
        * eapply Forall_impl; [exact Hnamed|]. intros e [? ?]. split; [done|by left].
        * constructor; [|done]. simpl. split; [done|]. right.
          by apply value_eqb_refl.
      + rewrite fmap_app. apply distinct_columns_snoc; [done|]. simpl.
        unfold TestExportAgent.has_key in Ek.
        apply forallb_forall. intros col Hcol.
        apply list_elem_of_In, list_elem_of_fmap in Hcol as (e & -> & He).
        rewrite Forall_forall in Hnamed. destruct (Hnamed e He) as [-> _].
        apply negb_true_iff.
        destruct (value_eqb field e.1) eqn:E; [|done].
        assert (existsb (λ e0, value_eqb field e0.1) d = true); [|congruence].
        apply existsb_exists. exists e. split; [by apply list_elem_of_In|done]. }
  clearbody d1. destruct Hd1 as [Hn1 Hdist1]. split.
  - unfold TestExportAgent.append_test. apply Forall_fmap.
    eapply Forall_impl; [exact Hn1|]. intros e [Hname Htests]. simpl.
    destruct (value_eqb field e.1) eqn:E; simpl.
    + split; [done|]. by destruct (tests e.2).
    + split; [done|]. by destruct Htests.
  - rewrite <- Hdist1. apply distinct_columns_names.
    rewrite <- !list_fmap_compose. apply append_test_names.
Qed.

Lemma foldlM_invariant {A B : Type} (P : B → Prop) (f : B → A → result B)
    (l : list A) (b b' : B) :
  (∀ b x b', P b → f b x = Ok b' → P b') →
  P b → foldlM f b l = Ok b' → P b'.
Proof.
  intros Hstep. revert b. induction l as [|x l IH]; intros b Hb; simpl.
  - by intros [= <-].
  - intros Hf. apply bind_Ok in Hf as (b1 & Hb1 & Hf).
    eapply IH; [|exact Hf]. by eapply Hstep.
Qed.

Lemma add_tests_ok (key : string) (test : value → DbtTest)
    (m : list (string * value)) (d d' : list (value * DbtColumn)) :
  columns_dict_ok d →
  TestExportAgent.add_tests key test m d = Ok d' →
  columns_dict_ok d'.
Proof.
  intros Hd. unfold TestExportAgent.add_tests. intros Hd'.
  apply bind_Ok in Hd' as (fields & _ & Hd').
  eapply (foldlM_invariant columns_dict_ok); [|exact Hd|exact Hd'].
  intros b x b' Hb Hx. by eapply add_test_ok.
Qed.

(** X16.  In the dbt schema no two columns have the same name, names
    compared as Python compares dictionary keys, and every column has at
    least one test. *)
Theorem dbt_schema_columns (cs : list CheckResult) (s : DbtSchema) :
  TestExportAgent.dbt_schema cs = Ok s →
  distinct_columns (model_columns s) = true ∧
  Forall (λ col, tests col ≠ []) (model_columns s).
Proof.
  unfold TestExportAgent.dbt_schema. intros Hs.
  apply bind_Ok in Hs as (d & Hd & Hs). apply Ok_inj in Hs. subst s.
  cbn [model_columns].
  assert (Hok : columns_dict_ok d).
  { eapply (foldlM_invariant columns_dict_ok); [|split; [constructor|done]
                                                |exact Hd].
    intros b c b' Hb. unfold TestExportAgent.dbt_step.
    repeat destruct (str_in _ _); try (by apply add_tests_ok).
    by intros [= <-]. }
  destruct Hok as [Hnamed Hdist]. split; [done|].
  apply Forall_fmap. eapply Forall_impl; [exact Hnamed|]. by intros e [_ ?].
Qed.

Lemma shaped_column_list (c : CheckResult) (k : string) :
  shaped c = true → k ∈ column_list_keys →
  ∃ names, py_iter (default (VList []) (dict_get k (metrics c)))
           = Ok (VStr <$> names).
Proof.
  unfold shaped, shaped_metrics. intros Hs Hk.
  apply andb_true_iff in Hs as [_ Hs].
  pose proof (forallb_elem _ _ k Hs Hk) as Hf. simpl in Hf.
  destruct (dict_get k (metrics c)) as [v|]; [|by exists []].
  destruct v as [| | | | |l|]; try done. simpl in Hf. simpl.
  clear -Hf. induction l as [|v l IH]; [by exists []|].
  simpl in Hf. apply andb_true_iff in Hf as [Hv Hf].
  destruct (IH Hf) as (names & Hn). destruct v; try done.
  eexists (_ :: names). rewrite fmap_cons. by injection Hn as ->.
Qed.

Lemma add_tests_total (test : value → DbtTest) (names : list string)
    (d : list (value * DbtColumn)) :
  ∃ d', foldlM (TestExportAgent.add_test test) d (VStr <$> names) = Ok d'.
Proof.
  revert d. induction names as [|n names IH]; intros d; [by eexists|].
  rewrite fmap_cons. simpl. apply IH.
Qed.

Lemma dbt_step_total (d : list (value * DbtColumn)) (c : CheckResult) :
  shaped c = true → ∃ d', TestExportAgent.dbt_step d c = Ok d'.
Proof.
  intros Hs. unfold TestExportAgent.dbt_step, TestExportAgent.add_tests.
  repeat destruct (str_in _ _); try (by eexists);
    match goal with
    | |- context [dict_get ?k (metrics c)] =>
        destruct (shaped_column_list c k Hs) as [names ->];
        [unfold column_list_keys;
         repeat first [apply list_elem_of_here | apply list_elem_of_further]
        |rewrite bind_ret; apply add_tests_total]
    end.
Qed.

Lemma ge_step_total (es : list Expectation) (c : CheckResult) :
  shaped c = true → ∃ es', TestExportAgent.ge_step es c = Ok es'.
Proof.
  intros Hs. unfold TestExportAgent.ge_step, TestExportAgent.add_expectations.
  repeat destruct (str_in _ _); try (by eexists);
    try match goal with
    | |- context [py_iter (default (VList []) (dict_get ?k (metrics c)))] =>
        destruct (shaped_column_list c k Hs) as [names ->];
        [unfold column_list_keys;
         repeat first [apply list_elem_of_here | apply list_elem_of_further]
        |rewrite bind_ret; by eexists]
    end.
  destruct (_ && _); by eexists.
Qed.

Lemma foldlM_total {A B : Type} (f : B → A → result B) (l : list A) (b : B) :
  Forall (λ x, ∀ b, ∃ b', f b x = Ok b') l → ∃ b', foldlM f b l = Ok b'.
Proof.
  intros Hall. revert b. induction Hall as [|x l Hx _ IH]; intros b.
  - by eexists.
  - simpl. destruct (Hx b) as [b1 ->]. rewrite bind_ret. apply IH.
Qed.

Lemma export_tests_total (cs : list CheckResult) (profile : Profile) :
  Forall (λ c, shaped c = true) cs →
  ∃ r s g,
    TestExportAgent.export_tests cs profile = Ok r ∧
    TestExportAgent.dbt_schema cs = Ok s ∧
    TestExportAgent._generate_ge_suite cs profile = Ok g ∧
    dbt_yaml r = yaml_dump s ∧ ge_suite_json r = json_dumps g.
Proof.
  intros Hall.
  destruct (foldlM_total TestExportAgent.dbt_step cs []) as [d Hd].
  { eapply Forall_impl; [exact Hall|]. intros c Hc b. by apply dbt_step_total. }
  destruct (foldlM_total TestExportAgent.ge_step cs []) as [es Hes].
  { eapply Forall_impl; [exact Hall|]. intros c Hc b. by apply ge_step_total. }
  unfold TestExportAgent.export_tests, TestExportAgent._generate_dbt_tests,
    TestExportAgent._generate_ge_suite, TestExportAgent.dbt_schema.
  rewrite Hd, Hes, !bind_ret. by eexists _, _, _.
Qed.
End exporter.

(** ** Fingerprints *)

Lemma df_head_sample (df : DataFrame) (n : nat) :
  df_wf df → df_head (Nat.min n (df_len df)) df = df_head n df.
Proof.
  intros [Hlen _]. unfold df_head. f_equal; [lia|].
  apply Forall_fmap_ext_1. eapply Forall_impl; [exact Hlen|].
  intros [col s] Hs. simpl in *. f_equal.
  destruct (Nat.le_ge_cases n (df_len df)) as [Hn|Hn].
  - by rewrite Nat.min_l.
  - rewrite Nat.min_r by done. by rewrite !take_ge by lia.
Qed.

Lemma df_head_columns (df : DataFrame) (n : nat) :
  df_columns (df_head n df) = df_columns df.
Proof.
  unfold df_columns, dict_keys, df_head. simpl.
  rewrite <- list_fmap_compose. by apply Forall_fmap_ext_1, Forall_true.
Qed.

Section fingerprint_facts.
Context `{Hashing}.

(** X17.  Two well-formed frames with the same number of rows whose first
    hundred rows agree, column names included, get the same dataset
    fingerprint under the same dtypes: the rows past the hundredth are not
    read. *)
Theorem fingerprint_reads_sample_only (df1 df2 : DataFrame)
    (types : string → SeriesTypes) :
  df_wf df1 → df_wf df2 →
  df_len df1 = df_len df2 →
  df_head 100 df1 = df_head 100 df2 →
  hashing.compute_dataset_fingerprint df1 types
  = hashing.compute_dataset_fingerprint df2 types.
Proof.
  intros Hwf1 Hwf2 Hlen Hhead.
  unfold hashing.compute_dataset_fingerprint, hashing.schema_str.
  rewrite !df_head_sample by done.
  rewrite <- (df_head_columns df1 100), <- (df_head_columns df2 100).
  by rewrite Hhead, Hlen.
Qed.
End fingerprint_facts.

(** ** The ingestion routes *)

Section route_facts.
Context `{Hashing} `{Services}.

(** X18.  The dataset route returns only when the file parses to a frame
    that is not empty and the orchestrator returns, and then with the run id
    and the frame's row and column counts.  Otherwise it raises an
    [HTTPException]: 400 with the detail Invalid CSV file, or 500 with a
    detail that begins with Processing failed.  An empty frame gives 500:
    the 400 raised for it inside the [try] block is caught by the handler of
    every exception. *)
Theorem ingest_dataset_answers (reference_store : gmap string DataFrame)
    (parsed : outcome DataFrame) (filename dataset_name : option string) :
  match ingest.ingest_dataset reference_store parsed filename dataset_name with
  | Returns receipt =>
      ∃ df run_id,
        parsed = Returns df ∧ ingest.df_empty df = false ∧
        process_dataset df (ingest.py_or dataset_name filename)
          (ingest.passed_references reference_store) = Returns run_id ∧
        receipt_run_id receipt = run_id ∧
        receipt_row_count receipt = df_len df ∧
        receipt_column_count receipt = length (df_columns df)
  | Raises e =>
      e = HTTPException 400 "Invalid CSV file" ∨
      ∃ detail, e = HTTPException 500 ("Processing failed: " +:+ detail)
  end ∧
  ∀ df, parsed = Returns df → ingest.df_empty df = true →
        ingest.ingest_dataset reference_store parsed filename dataset_name
        = Raises (HTTPException 500
                    ("Processing failed: " +:+
                     str_http_exception 400 "Dataset is empty")).
Proof.
  unfold ingest.ingest_dataset, ingest.ingest_dataset_body. split.
  - destruct parsed as [df|e]; simpl.
    + destruct (ingest.df_empty df) eqn:Ee; simpl; [right; by eexists|].
      destruct (process_dataset _ _ _) as [run_id|e] eqn:Ep; simpl.
      * by exists df, run_id.
      * destruct e; [by left|right; by eexists..].
    + destruct e; [by left|right; by eexists..].
  - intros df -> Hempty. simpl. by rewrite Hempty.
Qed.

(** X19.  The reference route returns only for one of the four valid
    reference types and a file that parses to a frame that is not empty, and
    then the store holds that frame under that type.  When the route raises
    the store is unchanged, and what it raises is an [HTTPException]: 400
    with the detail Invalid CSV file, or 500 with a detail that begins with
    Ingestion failed.  An invalid reference type gives 500, not 400. *)
Theorem ingest_reference_answers (reference_store : gmap string DataFrame)
    (parsed : outcome DataFrame) (types : string → SeriesTypes)
    (reference_type : string) :
  let r := ingest.ingest_reference reference_store parsed types reference_type in
  match r.1 with
  | Returns receipt =>
      reference_type ∈ ingest.valid_types ∧
      ∃ df,
        parsed = Returns df ∧ ingest.df_empty df = false ∧
        r.2 = <[ reference_type := df ]> reference_store ∧
        receipt_reference_type receipt = reference_type ∧
        reference_row_count receipt = df_len df
  | Raises e =>
      r.2 = reference_store ∧
      (e = HTTPException 400 "Invalid CSV file" ∨
       ∃ detail, e = HTTPException 500 ("Ingestion failed: " +:+ detail))
  end ∧
  (reference_type ∉ ingest.valid_types →
   r.1 = Raises
           (HTTPException 500
              ("Ingestion failed: " +:+
               str_http_exception 400
                 "Invalid reference_type. Must be one of: bin_map, currency_rules, mcc_codes, settlement_ledger"))).
Proof.
  cbv zeta. unfold ingest.ingest_reference, ingest.ingest_reference_body.
  destruct (bool_decide (reference_type ∈ ingest.valid_types)) eqn:Et.
  - apply bool_decide_eq_true in Et. split; [|done]. cbn [negb].
    destruct parsed as [df|e]; cbn [fst snd].
    + destruct (ingest.df_empty df) eqn:Ee; cbn [fst snd ingest.handle].
      { split; [done|]. right. by eexists. }
      destruct (create_reference _ _ _ _) as [[]|e]; cbn [fst snd ingest.handle].
      * split; [done|]. by exists df.
      * destruct e; cbn [fst snd ingest.handle]; (split; [done|]);
          [by left|right; by eexists..].
    + destruct e; cbn [fst snd ingest.handle]; (split; [done|]);
        [by left|right; by eexists..].
  - apply bool_decide_eq_false in Et. cbn [negb fst snd ingest.handle].
    split; [|done]. split; [done|]. right. by eexists.
Qed.

Lemma ingest_reference_keeps (reference_store : gmap string DataFrame)
    (parsed : outcome DataFrame) (types : string → SeriesTypes)
    (reference_type : string) (P : string → DataFrame → Prop) :
  (∀ df, reference_type ∈ ingest.valid_types → ingest.df_empty df = false →
         P reference_type df) →
  map_Forall P reference_store →
  map_Forall P
    (ingest.ingest_reference reference_store parsed types reference_type).2.
Proof.
  intros HP Hstore.
  unfold ingest.ingest_reference, ingest.ingest_reference_body. cbn [snd].
  destruct (bool_decide (reference_type ∈ ingest.valid_types)) eqn:Et;
    [|done].
  apply bool_decide_eq_true in Et. cbn [negb].
  destruct parsed as [df|e]; [|done].
  destruct (ingest.df_empty df) eqn:Ee; [done|].
  destruct (create_reference _ _ _ _) as [[]|e]; [|done]. cbn [snd].
  apply map_Forall_insert_2; [by apply HP|done].
Qed.

Lemma after_uploads_keeps (P : string → DataFrame → Prop)
    (uploads : list upload) :
  (∀ ty df, ty ∈ ingest.valid_types → ingest.df_empty df = false → P ty df) →
  map_Forall P (after_uploads uploads).
Proof.
  intros HP. unfold after_uploads.
  assert (Hgen : ∀ store, map_Forall P store →
            map_Forall P
              (fold_left
                 (λ store u,
                    (ingest.ingest_reference store (upload_parsed u)
                       (upload_types u) (upload_type u)).2) uploads store)).
  { induction uploads as [|u uploads IH]; intros store Hs; [done|].
    simpl. apply IH. apply ingest_reference_keeps; [|done].
    intros df. apply HP. }
  apply Hgen, map_Forall_empty.
Qed.

Lemma integrity_selected (profile : Profile) (has_references : gmap string bool) :
  "integrity" ∈
    selected_dimensions
      (DimensionSelectorAgent.select_dimensions profile has_references) →
  DimensionSelectorAgent.has_ref has_references "merchants" ||
  DimensionSelectorAgent.has_ref has_references "customers" = true.
Proof.
  destruct (DimensionSelectorAgent.has_ref has_references "merchants" ||
            DimensionSelectorAgent.has_ref has_references "customers") eqn:E;
    [done|].
  unfold DimensionSelectorAgent.select_dimensions. cbv zeta.
  rewrite !select_if_selected, E. cbn [selected_dimensions app].
  rewrite !elem_of_cons, !elem_of_app.
  repeat match goal with
         | |- context [if ?c then [?d] else []] => destruct c
         end; rewrite ?elem_of_cons, ?elem_of_nil; intuition discriminate.
Qed.

Lemma has_references_lookup (reference_data : option (gmap string DataFrame))
    (name : string) :
  DimensionSelectorAgent.has_ref (Orchestrator.has_references reference_data)
    name = true →
  ∃ refs df, reference_data = Some refs ∧ refs !! name = Some df.
Proof.
  unfold DimensionSelectorAgent.has_ref, Orchestrator.has_references.
  destruct reference_data as [refs|]; [|done].
  destruct (bool_decide (refs = ∅)); [done|].
  intros Hname.
  destruct (list_to_map _ !! name) as [b|] eqn:E; [|done].
  simpl in Hname. subst b.
  apply elem_of_list_to_map_2 in E. cbn [fmap list_fmap] in E.
  repeat (apply elem_of_cons in E as [E|E];
          [injection E as -> Hb; symmetry in Hb;
           apply bool_decide_eq_true in Hb as [df Hdf]; by exists refs, df|]).
  by apply elem_of_nil in E.
Qed.

(** X20.  After any sequence of reference uploads the store holds only
    frames that are not empty, under the four valid reference types; so with
    the references the dataset route passes on, the selector never selects
    integrity, whatever the profile. *)
Theorem integrity_not_selected_after_uploads (uploads : list upload)
    (profile : Profile) :
  map_Forall
    (λ ty df, ty ∈ ingest.valid_types ∧ ingest.df_empty df = false)
    (after_uploads uploads) ∧
  "integrity" ∉
    selected_dimensions
      (DimensionSelectorAgent.select_dimensions profile
         (Orchestrator.has_references
            (ingest.passed_references (after_uploads uploads)))).
Proof.
  assert (Hstore : map_Forall
            (λ ty df, ty ∈ ingest.valid_types ∧ ingest.df_empty df = false)
            (after_uploads uploads)).
  { by apply after_uploads_keeps. }
  split; [done|]. intros Hin. apply integrity_selected in Hin.
  apply orb_true_iff in Hin as [Hin|Hin];
    apply has_references_lookup in Hin as (refs & df & Hrefs & Hdf);
    unfold ingest.passed_references in Hrefs;
    destruct (bool_decide (after_uploads uploads = ∅)); try done;
    injection Hrefs as <-; apply Hstore in Hdf as [Hty _];
    unfold ingest.valid_types in Hty;
    rewrite !elem_of_cons, elem_of_nil in Hty; intuition discriminate.
Qed.
End route_facts.

(** ** The agents downstream of the executor *)

(** The selector selects uniqueness only under a profile with an id-like
    column, and the profile of a frame without rows has none: with the
    selector's dimensions the executor does not reach the division of the
    key inference. *)
Lemma uniqueness_selected (profile : Profile) (has_references : gmap string bool) :
  "uniqueness" ∈
    selected_dimensions
      (DimensionSelectorAgent.select_dimensions profile has_references) →
  id_columns (inferred_types profile) ≠ [].
Proof.
  destruct (id_columns (inferred_types profile)) as [|col cols] eqn:E; [|done].
  unfold DimensionSelectorAgent.select_dimensions. cbv zeta.
  rewrite !select_if_selected, E. cbn [selected_dimensions app
    DimensionSelectorAgent.nonempty].
  rewrite !elem_of_cons, !elem_of_app.
  repeat match goal with
         | |- context [if ?c then [?d] else []] => destruct c
         end; rewrite ?elem_of_cons, ?elem_of_nil; intuition discriminate.
Qed.

Lemma no_id_columns_without_rows (df : DataFrame) (types : string → SeriesTypes) :
  df_len df = 0%nat →
  id_columns (inferred_types (ProfilerAgent.profile df types)) = [].
Proof.
  intros Hz. rewrite profile_profiled. unfold profiled.
  cbn [inferred_types id_columns].
  rewrite (filter_ext_elem _ (λ _, false)); [apply filter_none|].
  intros col _. unfold ProfilerAgent._profile_column. cbn [is_id_like].
  rewrite Hz. unfold rate. simpl. apply andb_false_r.
Qed.

Section pipeline.
Context `{Runtime} `{Rendering} `{Serializer}.

Lemma executor_results_shaped (df : DataFrame) (profile : Profile)
    (sel : list string) (reference_data : option (gmap string DataFrame))
    (res : CheckResults) :
  CheckExecutorAgent.execute_checks df profile sel reference_data = Ok res →
  Forall (λ c, shaped c = true ∧ populated sel c) (check_results res).
Proof.
  intros Hres. eapply executor_results_Forall; [|exact Hres].
  intros i cs c0 _ Hsel Hrun Hin. split.
  - unfold shaped. cbn [CheckExecutorAgent.set_dimension metrics].
    by eapply catalog_shaped.
  - by eapply catalog_populated.
Qed.

(** X21.  Whatever the executor returns for a well-formed frame, the
    four agents that read check results accept, in the order the
    orchestrator calls them: the results are scored, with every dimension
    score and the composite between 0 and 100, explained, turned into a
    remediation plan with the explainer's issue summaries, and exported as
    tests. *)
Theorem executed_checks_flow_downstream (self : ExplainerAgent)
    (df : DataFrame) (profile : Profile) (selected : list string)
    (reference_data : option (gmap string DataFrame)) (checks : CheckResults) :
  df_wf df →
  CheckExecutorAgent.execute_checks df profile selected reference_data
  = Ok checks →
  ∃ scores explained remediation exported,
    ScoringAgent.compute_scores (check_results checks) profile selected
    = Ok scores ∧
    (∀ d ds, dict_get d (dimension_scores scores) = Some ds →
       (0 <= score ds <= 100)%Q) ∧
    (0 <= composite_dqs scores <= 100)%Q ∧
    ExplainerAgent.explain self scores (check_results checks) profile
    = Ok explained ∧
    RemediationAgent.generate_remediation (check_results checks) scores
      (summary_dict <$> issue_summaries explained) = Ok remediation ∧
    TestExportAgent.export_tests (check_results checks) profile = Ok exported.
Proof.
  intros Hwf Hchecks.
  pose proof (executor_results_shaped _ _ _ _ _ Hchecks) as Hshape.
  destruct (compute_scores_bounded (check_results checks) profile selected)
    as (scores & Hscores & Hdims & Hdqs).
  { by eapply executor_results_rated. }
  exists scores.
  destruct (explain_total self scores (check_results checks) profile)
    as (explained & Hexplained & _).
  { eapply Forall_impl; [exact Hshape|].
    intros c [Hs (id & dim & ok & sev & -> & -> & _ & -> & _)] _.
    by split_and!. }
  exists explained.
  destruct (generate_remediation_ranked (check_results checks) scores
              (summary_dict <$> issue_summaries explained))
    as (ranked & tickets & Hrem & _).
  { eapply Forall_impl; [exact Hshape|].
    intros c [Hs (id & dim & ok & sev & -> & _)] _. by split. }
  eexists.
  destruct (export_tests_total (check_results checks) profile)
    as (exported & s & g & Hexp & _).
  { eapply Forall_impl; [exact Hshape|]. by intros c [Hs _]. }
  exists exported. destruct Hdqs. by split_and!.
Qed.
End pipeline.

(** ** The properties at concrete inputs *)

#[local] Existing Instance plain_runtime.



(** The same check on a frame without columns: the two scores are 0 and
    the weight is the base weight. *)
Example dimension_weight_without_boost :
  ∃ r ds,
    ScoringAgent.compute_scores [ clean_completeness ] empty_profile
      [ "completeness" ] = Ok r ∧
    dict_get "completeness" (dimension_scores r) = Some ds ∧
    criticality_score spec_field_criticality empty_profile = 0%Z ∧
    ScoringAgent.critical_count empty_profile = 0%Z ∧
    (weight ds == 2)%Q.
Proof. eexists _, _. split_and!; reflexivity. Qed.





(** An error rate of 3/2 is clamped: the dimension scores 0. *)
Example overcounted_scores_zero :
  ScoringAgent._extract_error_rate overcounted = Ok (1 - (-1 # 2))%Q ∧
  (score <$>
   ScoringAgent._compute_dimension_score "reconciliation" [ overcounted ]
     empty_profile) = Ok (0 # 100)%Q.
Proof. split; reflexivity. Qed.

Lemma frequency_is_error_rate_witness :
  RemediationAgent._extract_frequency broken_validity
  = ScoringAgent._extract_error_rate broken_validity.
Proof. apply (frequency_is_error_rate broken_validity). reflexivity. Defined.

(** The two readings part on a check that passed and carries no rate. *)
Example passing_check_rates_differ :
  RemediationAgent._extract_frequency
    (not_applicable "validity_currency" "No currency columns found")
  = Ok (5 # 100)%Q ∧
  ScoringAgent._extract_error_rate
    (not_applicable "validity_currency" "No currency columns found")
  = Ok 0%Q.
Proof. split; reflexivity. Qed.

Lemma headline_issues_ranked_witness :
  ∃ found r ranked,
    mapM (RemediationAgent.make_issue no_scores)
      (List.filter failing three_failures) = Ok found ∧
    RemediationAgent.generate_remediation three_failures no_scores [] = Ok r ∧
    top_issues r = take 10 ranked ∧
    Permutation ranked found ∧
    StronglySorted (λ a b, (priority_score b <= priority_score a)%Q) ranked ∧
    ∀ p, List.filter (λ i, Qeq_bool (priority_score i) p) ranked
         = List.filter (λ i, Qeq_bool (priority_score i) p) found.
Proof.
  assert (∃ found,
            mapM (RemediationAgent.make_issue no_scores)
              (List.filter failing three_failures) = Ok found) as [found Hfound].
  { eexists. vm_compute. reflexivity. }
  assert (∃ tickets,
            RemediationAgent._generate_tickets
              (take 5 (sort_desc priority_score found)) = Ok tickets)
    as [tickets Htickets].
  { vm_compute in Hfound. injection Hfound as <-.
    eexists. vm_compute. reflexivity. }
  destruct (headline_issues_ranked three_failures no_scores [] found tickets
              Hfound Htickets) as (r & ranked & Hr).
  by exists found, r, ranked.
Defined.

(** The ranking puts the critical issue first and keeps the two issues of
    equal priority in the order of their check results. *)
Example ranking_keeps_ties_in_order :
  (λ r, (λ i, (issue_check_id i, priority_score i)) <$> top_issues r) <$>
  RemediationAgent.generate_remediation three_failures no_scores []
  = Ok [ ("validity_amount", 500 # 100); ("validity_currency", 200 # 100);
         ("validity_country", 200 # 100) ]%Q.
Proof. vm_compute. reflexivity. Qed.



(** A reference that is missing altogether: the BIN check answers that it
    does not apply. *)
Example missing_bin_reference :
  reconciliation.check_bin_reconciliation no_country None
  = not_applicable "reconciliation_bin" "No BIN reference data provided".
Proof. reflexivity. Qed.

(** C3: on a frame with a column and no row the key inference divides by the
    number of rows, so the uniqueness checks raise instead of returning a
    result, and so does the executor when uniqueness is selected. *)
Theorem uniqueness_zero_rows_raises :
  uniqueness.infer_key_columns zero_rows empty_profile
  = Raise ZeroDivisionError ∧
  uniqueness.run_uniqueness_checks zero_rows empty_profile
  = Raise ZeroDivisionError ∧
  CheckExecutorAgent.execute_checks zero_rows empty_profile
    [ "completeness"; "uniqueness" ] None
  = Raise ZeroDivisionError.
Proof. split_and!; reflexivity. Qed.

(** The guarded ratio ten lines above the fallback: with a row the same
    inference returns. *)
Example uniqueness_one_row_returns :
  uniqueness.infer_key_columns
    {| df_len := 1; df_data := [ ("txn_id", [ Some "t1" ]) ] |} empty_profile
  = Ok [ "txn_id" ].
Proof. reflexivity. Qed.

(** C7 as stated fails for the currency check between 0 and 0.01: one
    unknown code among two hundred is an invalid rate of 0.005, and the
    severity is medium, not low. *)
Lemma small_currency_rate_is_medium :
  dict_get "overall_invalid_rate"
    (metrics (validity.check_currency_validity one_bad_currency))
  = Some (VFloat (1 # 200)) ∧
  Qltb (1 # 100) (1 # 200) = false ∧
  severity (validity.check_currency_validity one_bad_currency) = Some "medium" ∧
  passed (validity.check_currency_validity one_bad_currency) = Some false.
Proof. split_and!; by vm_compute. Qed.



(** With a pandas before 3.0 the null is counted: one invalid value out of
    two, and the check fails. *)
Example null_currency_rate :
  reported_invalid_count (validity.check_currency_validity one_null_currency)
    "currency" = Some (VNat 1) ∧
  dict_get "overall_invalid_rate"
    (metrics (validity.check_currency_validity one_null_currency))
  = Some (VFloat (1 # 2)) ∧
  passed (validity.check_currency_validity one_null_currency) = Some false.
Proof. split_and!; by vm_compute. Qed.

(** ** More properties at concrete inputs *)

#[local] Existing Instance plain_rendering.
#[local] Existing Instance plain_serializer.
#[local] Existing Instance plain_hashing.

Lemma payments_wf : df_wf payments.
Proof. split; [repeat constructor|]. apply (bool_decide_unpack _). by vm_compute. Qed.

Lemma profile_structure_witness :
  let p := ProfilerAgent.profile payments plain_types in
  let column_profile := ProfilerAgent._profile_column payments plain_types in
  row_count p = df_len payments ∧
  column_count p = length (df_columns payments) ∧
  dict_keys (columns p) = df_columns payments ∧
  (∀ col, col ∈ df_columns payments →
          dict_get col (columns p) = Some (column_profile col)) ∧
  id_columns (inferred_types p)
  = List.filter (λ col, is_id_like (column_profile col)) (df_columns payments) ∧
  timestamp_columns (inferred_types p)
  = List.filter (λ col, is_timestamp (column_profile col)) (df_columns payments) ∧
  enum_columns (inferred_types p)
  = List.filter (λ col, is_enum_like (column_profile col)) (df_columns payments) ∧
  numeric_columns (inferred_types p)
  = List.filter (λ col, is_numeric (column_profile col)) (df_columns payments) ∧
  text_columns (inferred_types p)
  = List.filter (λ col, is_text (column_profile col)) (df_columns payments).
Proof.
  apply (profile_structure payments plain_types).
  apply (bool_decide_unpack _). by vm_compute.
Defined.

Lemma column_profile_aggregates_witness :
  let cp := ProfilerAgent._profile_column payments plain_types "txn_id" in
  (0 <= null_count cp)%Z ∧ (0 <= unique_count cp)%Z ∧
  (null_count cp + unique_count cp <= Z.of_nat (df_len payments))%Z ∧
  (0 <= null_rate cp <= 1)%Q ∧ (0 <= cardinality_ratio cp <= 1)%Q ∧
  (is_id_like cp = true → is_enum_like cp = false) ∧
  (df_len payments = 0%nat → is_id_like cp = false ∧ is_enum_like cp = true).
Proof.
  apply (column_profile_aggregates payments plain_types "txn_id").
  - exact payments_wf.
  - apply list_elem_of_here.
Defined.

Lemma executor_results_populated_witness :
  ∃ res,
    CheckExecutorAgent.execute_checks payments
      (ProfilerAgent.profile payments plain_types)
      [ "completeness"; "uniqueness"; "validity" ] None = Ok res ∧
    Forall (populated [ "completeness"; "uniqueness"; "validity" ])
      (check_results res) ∧
    total_checks res = length (check_results res).
Proof.
  assert (∃ res,
            CheckExecutorAgent.execute_checks payments
              (ProfilerAgent.profile payments plain_types)
              [ "completeness"; "uniqueness"; "validity" ] None = Ok res)
    as [res Hres].
  { eexists. vm_compute. reflexivity. }
  exists res. split; [exact Hres|].
  exact (executor_results_populated _ _ _ _ _ Hres).
Defined.

Lemma zero_rows_wf : df_wf zero_rows.
Proof. split; [repeat constructor|]. apply (bool_decide_unpack _). by vm_compute. Qed.

Lemma executor_raises_on_empty_frame_witness :
  CheckExecutorAgent.execute_checks zero_rows merchant_profile
    [ "uniqueness"; "validity"; "reconciliation" ]
    (Some {[ "bin_map" := bin_table ]})
  = Raise ZeroDivisionError.
Proof.
  apply (executor_raises_on_empty_frame zero_rows merchant_profile
           [ "uniqueness"; "validity"; "reconciliation" ]
           (Some {[ "bin_map" := bin_table ]})).
  - exact zero_rows_wf.
  - apply list_elem_of_here.
  - reflexivity.
  - discriminate.
Defined.

Lemma executed_checks_score_within_bounds_witness :
  ∃ res r,
    CheckExecutorAgent.execute_checks payments empty_profile
      [ "completeness"; "validity" ] None = Ok res ∧
    ScoringAgent.compute_scores (check_results res) empty_profile
      [ "completeness"; "validity" ] = Ok r ∧
    (∀ d ds, dict_get d (dimension_scores r) = Some ds →
       (0 <= score ds <= 100)%Q) ∧
    (0 <= composite_dqs r <= 100)%Q.
Proof.
  assert (∃ res,
            CheckExecutorAgent.execute_checks payments empty_profile
              [ "completeness"; "validity" ] None = Ok res) as [res Hres].
  { eexists. vm_compute. reflexivity. }
  destruct (executed_checks_score_within_bounds payments empty_profile
              empty_profile [ "completeness"; "validity" ]
              [ "completeness"; "validity" ] None res payments_wf Hres)
    as (r & Hr).
  by exists res, r.
Defined.

Lemma inferred_required_fields_witness :
  let c := completeness.check_required_fields payments None in
  let required :=
    columns_where
      (any_in [ "txn_id"; "transaction_id"; "event_id"; "id"; "amount";
                "currency"; "status" ]) payments in
  dict_get "required_fields" (metrics c) = Some (VList (VStr <$> required)) ∧
  dict_get "missing_fields" (metrics c) = Some (VList []) ∧
  (passed c = Some true ↔ ∀ col, col ∈ required → None ∉ df_col payments col) ∧
  (passed c = Some false → severity c = Some "critical").
Proof. apply (inferred_required_fields payments). exact payments_wf. Defined.

Lemma duplicates_check_passes_iff_witness :
  passed (uniqueness.check_duplicates payments [ "txn_id" ]) = Some true ↔
  ∀ col, col ∈ [ "txn_id" ] → col ∈ df_columns payments →
         NoDup (df_col payments col).
Proof.
  apply (duplicates_check_passes_iff payments [ "txn_id" ]). exact payments_wf.
Defined.

Lemma reference_check_passes_iff_witness :
  ∃ c id_col,
    integrity.reference_check one_merchant "integrity_merchant_reference"
      "merchants" "merchant_id" merchants_without_id = Ok c ∧
    integrity.ref_id_col merchants_without_id = Ok id_col ∧
    (passed c = Some true ↔
     Forall (referenced (df_col merchants_without_id id_col))
       (df_col one_merchant "merchant_id")).
Proof.
  assert (∃ c,
            integrity.reference_check one_merchant
              "integrity_merchant_reference" "merchants" "merchant_id"
              merchants_without_id = Ok c) as [c Hc].
  { eexists. reflexivity. }
  destruct (reference_check_passes_iff _ _ _ _ _ c Hc) as (id_col & Hid).
  by exists c, id_col.
Defined.

(** A missing merchant id under the two readings of [astype(str)]: before
    pandas 3.0 it is the text nan, which the merchants table does not
    hold, and the check fails; from 3.0 on it stays missing and the check
    passes. *)
Example missing_merchant_id_by_pandas :
  (passed <$>
   @integrity.reference_check plain_runtime
     {| df_len := 1; df_data := [ ("merchant_id", [ None ]) ] |}
     "integrity_merchant_reference" "merchants" "merchant_id"
     merchants_without_id) = Ok (Some false) ∧
  (passed <$>
   @integrity.reference_check pandas3_runtime
     {| df_len := 1; df_data := [ ("merchant_id", [ None ]) ] |}
     "integrity_merchant_reference" "merchants" "merchant_id"
     merchants_without_id) = Ok (Some true).
Proof. split; by vm_compute. Qed.

Lemma bin_reconciliation_counts_witness :
  let c := reconciliation.check_bin_reconciliation cards (Some bin_table) in
  ∃ matched unmatched,
    dict_get "matched_count" (metrics c) = Some (VNat matched) ∧
    dict_get "unmatched_count" (metrics c) = Some (VNat unmatched) ∧
    (matched + unmatched <= df_len cards)%nat ∧
    (Forall (λ v, astype_str v ≠ None) (df_col cards "card_number") →
     (matched + unmatched = df_len cards)%nat) ∧
    dict_get "match_rate" (metrics c)
    = Some (VFloat (rate matched (df_len cards))) ∧
    passed c = Some (Qltb (95 # 100) (rate matched (df_len cards))).
Proof.
  apply (bin_reconciliation_counts cards bin_table "card_number").
  - split; repeat constructor. by intros ?%elem_of_nil.
  - reflexivity.
  - reflexivity.
Defined.

(** A missing card number from pandas 3.0 on is neither matched nor
    unmatched: the two counts add up to one row out of two. *)
Example missing_card_is_not_counted :
  let c :=
    @reconciliation.check_bin_reconciliation pandas3_runtime
      {| df_len := 2;
         df_data := [ ("card_number", [ Some "4111111111111111"; None ]) ] |}
      (Some bin_table) in
  dict_get "matched_count" (metrics c) = Some (VNat 1) ∧
  dict_get "unmatched_count" (metrics c) = Some (VNat 0).
Proof. split; by vm_compute. Qed.

Lemma remediation_returns_witness :
  ∃ r,
    RemediationAgent.generate_remediation three_failures no_scores [] = Ok r ∧
    length (top_issues r) = Nat.min 10 (count_if failing three_failures) ∧
    length (ticket_payloads r) = Nat.min 5 (count_if failing three_failures) ∧
    (count (P0_immediate (remediation_plan r)) +
     count (P1_next_sprint (remediation_plan r)) +
     count (P2_backlog (remediation_plan r))
     = count_if failing three_failures)%nat.
Proof.
  apply (remediation_returns three_failures no_scores []).
  repeat constructor; by eexists.
Defined.

Lemma critical_issues_wait_in_backlog_witness :
  ∃ sr ranked,
    ScoringAgent.compute_scores three_failures empty_profile [ "validity" ]
    = Ok sr ∧
    RemediationAgent._rank_issues three_failures sr = Ok ranked ∧
    let plan := RemediationAgent._generate_plan ranked in
    count (P0_immediate plan) = 0%nat ∧
    issues (P0_immediate plan) = [] ∧
    issues (P1_next_sprint plan)
    = issue_check_id <$>
      List.filter (λ i, String.eqb (issue_severity i) "high") ranked ∧
    ∀ i, i ∈ ranked → issue_severity i ≠ "high" →
         issue_check_id i ∈ issues (P2_backlog plan).
Proof.
  assert (∃ sr,
            ScoringAgent.compute_scores three_failures empty_profile
              [ "validity" ] = Ok sr) as [sr Hsr].
  { eexists. vm_compute. reflexivity. }
  assert (∃ ranked, RemediationAgent._rank_issues three_failures sr = Ok ranked)
    as [ranked Hranked].
  { vm_compute in Hsr. injection Hsr as <-. eexists. vm_compute. reflexivity. }
  exists sr, ranked. split; [exact Hsr|]. split; [exact Hranked|].
  apply (critical_issues_wait_in_backlog three_failures three_failures
           empty_profile [ "validity" ] sr ranked Hsr Hranked).
  repeat constructor; intros f [= <-]; done.
Defined.

Lemma expected_gain_within_headroom_witness :
  ∃ i,
    RemediationAgent.make_issue no_scores broken_validity = Ok i ∧
    let current_score :=
      default 100%Q
        (score <$> dict_get (dimension_of broken_validity)
                     (dimension_scores no_scores)) in
    (expected_score_gain i <= py_round (100 - current_score) 2)%Q ∧
    ((current_score <= 100)%Q →
     (∀ f, RemediationAgent._extract_frequency broken_validity = Ok f →
           (0 <= f)%Q) →
     (0 <= expected_score_gain i)%Q).
Proof.
  assert (∃ i, RemediationAgent.make_issue no_scores broken_validity = Ok i)
    as [i Hi].
  { eexists. vm_compute. reflexivity. }
  exists i. split; [exact Hi|].
  exact (expected_gain_within_headroom no_scores broken_validity i Hi).
Defined.

Lemma issue_summaries_by_severity_witness :
  ∃ l found,
    ExplainerAgent._generate_issue_summaries three_failures = Ok l ∧
    mapM ExplainerAgent.summarize (List.filter failing three_failures)
    = Ok found ∧
    Permutation l found ∧
    StronglySorted
      (λ a b, (ExplainerAgent.severity_rank a
               <= ExplainerAgent.severity_rank b)%Q) l ∧
    ∀ r, List.filter (λ s, Qeq_bool (ExplainerAgent.severity_rank s) r) l
         = List.filter (λ s, Qeq_bool (ExplainerAgent.severity_rank s) r) found.
Proof.
  assert (∃ l, ExplainerAgent._generate_issue_summaries three_failures = Ok l)
    as [l Hl].
  { eexists. vm_compute. reflexivity. }
  destruct (issue_summaries_by_severity three_failures l Hl) as (found & Hf).
  by exists l, found.
Defined.

Lemma dbt_schema_columns_witness :
  ∃ s,
    TestExportAgent.dbt_schema
      [ completeness.check_required_fields payments None;
        uniqueness.check_duplicates payments [ "txn_id" ] ] = Ok s ∧
    distinct_columns (model_columns s) = true ∧
    Forall (λ col, tests col ≠ []) (model_columns s).
Proof.
  assert (∃ s,
            TestExportAgent.dbt_schema
              [ completeness.check_required_fields payments None;
                uniqueness.check_duplicates payments [ "txn_id" ] ] = Ok s)
    as [s Hs].
  { eexists. vm_compute. reflexivity. }
  exists s. split; [exact Hs|]. exact (dbt_schema_columns _ s Hs).
Defined.

Lemma long_frame_wf (last : string) : df_wf (long_frame last).
Proof.
  split; [repeat constructor|]. apply (bool_decide_unpack _). by vm_compute.
Qed.

Lemma fingerprint_reads_sample_only_witness :
  hashing.compute_dataset_fingerprint (long_frame "u") plain_types
  = hashing.compute_dataset_fingerprint (long_frame "v") plain_types.
Proof.
  apply (fingerprint_reads_sample_only (long_frame "u") (long_frame "v")
           plain_types).
  - apply long_frame_wf.
  - apply long_frame_wf.
  - reflexivity.
  - reflexivity.
Defined.

Lemma executed_checks_flow_downstream_witness :
  let self := {| use_llm := false; client := None |} in
  let profile := ProfilerAgent.profile payments plain_types in
  let selected :=
    selected_dimensions
      (DimensionSelectorAgent.select_dimensions profile
         (Orchestrator.has_references None)) in
  ∃ checks scores explained remediation exported,
    CheckExecutorAgent.execute_checks payments profile selected None
    = Ok checks ∧
    ScoringAgent.compute_scores (check_results checks) profile selected
    = Ok scores ∧
    (∀ d ds, dict_get d (dimension_scores scores) = Some ds →
       (0 <= score ds <= 100)%Q) ∧
    (0 <= composite_dqs scores <= 100)%Q ∧
    ExplainerAgent.explain self scores (check_results checks) profile
    = Ok explained ∧
    RemediationAgent.generate_remediation (check_results checks) scores
      (summary_dict <$> issue_summaries explained) = Ok remediation ∧
    TestExportAgent.export_tests (check_results checks) profile = Ok exported.
Proof.
  cbv zeta.
  assert (∃ checks,
            CheckExecutorAgent.execute_checks payments
              (ProfilerAgent.profile payments plain_types)
              (selected_dimensions
                 (DimensionSelectorAgent.select_dimensions
                    (ProfilerAgent.profile payments plain_types)
                    (Orchestrator.has_references None))) None = Ok checks)
    as [checks Hchecks].
  { eexists. vm_compute. reflexivity. }
  exists checks.
  destruct (executed_checks_flow_downstream
              {| use_llm := false; client := None |} payments _ _ None checks
              payments_wf Hchecks)
    as (scores & explained & remediation & exported & Hflow).
  by exists scores, explained, remediation, exported.
Defined.
